(** * AutoMoLi (Automatic Motion Lights): a shallow embedding

    The development follows [apps/automoli/automoli.py].  The AppDaemon
    application object ([self]) is split into the fields assigned once in
    [initialize] (record [config]) and the fields the callbacks mutate
    (record [world], which also carries what the host keeps for the app:
    pending timers, issued service calls, the log, daily triggers and
    listeners).  The coroutines of the class become computations in a
    state-and-exception monad [M]; the host's entity states, read with
    [get_state], are an input [env] of every callback. *)

From Stdlib Require Import ZArith QArith Ascii String List Sorted Lia.
From stdpp Require Import base gmap sets list strings pretty.

Local Open Scope string_scope.

(** ** Data model *)

Definition entity := string.

(** A [datetime.time] at the resolution of a second: seconds since 00:00:00. *)
Definition time := Z.
Bind Scope Z_scope with time.

Definition valid_time (t : time) : Prop := (0 <= t < 86400)%Z.

(** Timer handles returned by [run_in]. *)
Definition handle := nat.

(** The result of Python's [float(...)] on a string it accepts. *)
Inductive pyfloat :=
| Finite (q : Q)
| PosInf
| NegInf
| NaN.

(** [x >= threshold] for a float [x] and a configured number. *)
Definition float_ge (x : pyfloat) (threshold : Q) : bool :=
  match x with
  | Finite q => Qle_bool threshold q
  | PosInf => true
  | NegInf => false
  | NaN => false
  end.

(** Truthiness of [self.thresholds[...]]: [None] and [0] are falsy. *)
Definition truthy_threshold (t : option Q) : bool :=
  match t with
  | None => false
  | Some q => negb (Qeq_bool q 0)
  end.

(** The value under the key ["light"] of a daytime: an [int], a [str], or a
    value of any other type (kept by its printed form). *)
Inductive light_value :=
| LInt (n : Z)
| LStr (s : string)
| LOther (repr : string).

(** One element of the [daytimes] option; [None] is an absent key. *)
Record raw_daytime := {
  raw_starttime : option string;
  raw_name : option string;
  raw_light : option light_value;
  raw_delay : option Z
}.

(** The dict built at lines 404-410 and stored in [self.active]. *)
Record daytime_cfg := {
  daytime : string;
  delay : Z;
  starttime : time;
  light_setting : light_value;
  is_hue_group : bool
}.

Inductive service_call :=
| hue_activate_scene (group_name scene_name : string)
| turn_on (entity_id : entity) (brightness_pct : option Z)
| turn_off (entity_id : entity).

(** The messages handed to [self.lg] / [self.log], by source line. *)
Inductive log_entry :=
| log_received (event : string) (entity_id : entity)          (* l. 226 *)
| log_already_on                                              (* l. 238 *)
| log_disabled_by (switch : entity)                           (* l. 262 *)
| log_could_not_parse (state : option string) (sensor : entity) (* l. 276 *)
| log_bright_enough (blocker : list entity)                   (* l. 280 *)
| log_on_scene (hue : bool) (scene : string) (d : Z)          (* l. 302 *)
| log_on_brightness (pct : Z) (d : Z)                         (* l. 324 *)
| log_humidity (d : Z) (sensor : entity)                      (* l. 356 *)
| log_turned_off (d : Z)                                      (* l. 369 *)
| log_daytime (name : string) (setting : light_value) (d : Z) (* l. 196 *)
| log_no_sensors (sensor_type : string).                      (* l. 153 *)

Inductive listener :=
| listen_event (event : string) (sensor : entity)
| listen_state_detected (sensor : entity) (new : option string)
| listen_state_cleared (sensor : entity) (new : option string).

(** Exceptions that leave a callback, by the place that raises them. *)
Inductive exn :=
| ValueError_missing_start (dt_name : string)     (* l. 401 *)
| ValueError_duplicate (dt_start : time)          (* l. 417 *)
| ValueError_fromisoformat (arg : string)         (* time.fromisoformat, l. 413 *)
| ValueError_invalid_light (setting : light_value) (room : string) (* l. 332 *)
| ValueError_no_lights_sensors                    (* l. 142 *)
| AttributeError_lights                           (* list.add, list.update, ll. 131, 133 *)
| TypeError_concat_None                           (* None + ":00", l. 399 *)
| TypeError_float_None                            (* float(None), l. 273, 346 *)
| TypeError_async_generator                       (* any(<async generator>), l. 394 *)
| IndexError
| KeyError (key : string).                        (* self.active[key] on {} *)

Definition is_ValueError (e : exn) : bool :=
  match e with
  | ValueError_missing_start _ | ValueError_duplicate _
  | ValueError_fromisoformat _ | ValueError_invalid_light _ _
  | ValueError_no_lights_sensors => true
  | _ => false
  end.

(** What the host answers during one callback. *)
Record env := {
  get_state : entity -> option string;
  get_is_hue_group : entity -> bool;
  friendly_name : entity -> string;
  entity_exists : entity -> bool;
  all_entities : list entity;
  now : time
}.

(** Fields of [self] that only [initialize] assigns. *)
Record config := {
  room : string;
  motion_on : option string;
  motion_off : option string;
  humidity_threshold : option Q;
  illuminance_threshold : option Q;
  disable_switch_entities : list entity;
  lights : list entity;
  motion_sensors : list entity;
  humidity_sensors : list entity;
  illuminance_sensors : list entity;
  default_delay : Z
}.

(** Mutable state: [self.active] ([None] is the empty dict), [self.handles],
    and the host's record of timers, calls, log lines, daily triggers and
    listeners.  Lists grow at the end. *)
Record world := {
  active : option daytime_cfg;
  handles : gset handle;
  timers : list (handle * Z);
  next_handle : handle;
  service_calls : list service_call;
  log : list log_entry;
  daily : list (time * daytime_cfg);
  listeners : list listener;
  active_daytime : option string
}.

Definition empty_world : world :=
  {| active := None; handles := ∅; timers := []; next_handle := 0;
     service_calls := []; log := []; daily := []; listeners := [];
     active_daytime := None |}.

Definition with_active (a : option daytime_cfg) (w : world) : world :=
  {| active := a; handles := handles w; timers := timers w;
     next_handle := next_handle w; service_calls := service_calls w;
     log := log w; daily := daily w; listeners := listeners w;
     active_daytime := active_daytime w |}.

Definition with_handles (h : gset handle) (w : world) : world :=
  {| active := active w; handles := h; timers := timers w;
     next_handle := next_handle w; service_calls := service_calls w;
     log := log w; daily := daily w; listeners := listeners w;
     active_daytime := active_daytime w |}.

Definition with_timers (t : list (handle * Z)) (n : handle) (w : world) : world :=
  {| active := active w; handles := handles w; timers := t;
     next_handle := n; service_calls := service_calls w;
     log := log w; daily := daily w; listeners := listeners w;
     active_daytime := active_daytime w |}.

Definition with_service_calls (c : list service_call) (w : world) : world :=
  {| active := active w; handles := handles w; timers := timers w;
     next_handle := next_handle w; service_calls := c;
     log := log w; daily := daily w; listeners := listeners w;
     active_daytime := active_daytime w |}.

Definition with_log (l : list log_entry) (w : world) : world :=
  {| active := active w; handles := handles w; timers := timers w;
     next_handle := next_handle w; service_calls := service_calls w;
     log := l; daily := daily w; listeners := listeners w;
     active_daytime := active_daytime w |}.

Definition with_daily (d : list (time * daytime_cfg)) (w : world) : world :=
  {| active := active w; handles := handles w; timers := timers w;
     next_handle := next_handle w; service_calls := service_calls w;
     log := log w; daily := d; listeners := listeners w;
     active_daytime := active_daytime w |}.

Definition with_listeners (l : list listener) (w : world) : world :=
  {| active := active w; handles := handles w; timers := timers w;
     next_handle := next_handle w; service_calls := service_calls w;
     log := log w; daily := daily w; listeners := l;
     active_daytime := active_daytime w |}.

Definition with_active_daytime (n : option string) (w : world) : world :=
  {| active := active w; handles := handles w; timers := timers w;
     next_handle := next_handle w; service_calls := service_calls w;
     log := log w; daily := daily w; listeners := listeners w;
     active_daytime := n |}.

(** The options [initialize] reads from [self.args]. *)
Record args := {
  arg_room : option string;
  arg_motion_state_on : option string;
  arg_motion_state_off : option string;
  arg_humidity_threshold : option Q;
  arg_illuminance_threshold : option Q;
  arg_disable_switch_entities : list entity;
  arg_disable_switch_entity : option entity;
  arg_lights : option (list entity);   (* [None]: the key is absent *)
  arg_motion : option (list entity);
  arg_humidity : option (list entity);
  arg_illuminance : option (list entity);
  arg_delay : option Z;
  arg_daytimes : option (list raw_daytime)
}.

(** ** The monad of callbacks *)

Inductive outcome (A : Type) :=
| Ok (a : A)
| Raise (e : exn).
Arguments Ok {A} a.
Arguments Raise {A} e.

Definition M (A : Type) : Type := world -> outcome A * world.

Definition ret {A} (a : A) : M A := fun w => (Ok a, w).

Definition raise {A} (e : exn) : M A := fun w => (Raise e, w).

Definition bind {A B} (m : M A) (k : A -> M B) : M B :=
  fun w =>
    match m w with
    | (Ok a, w') => k a w'
    | (Raise e, w') => (Raise e, w')
    end.

Notation "'let*' x ':=' c 'in' k" := (bind c (fun x => k))
  (at level 10, x name, c at level 100, k at level 200).
Notation "c >> k" := (bind c (fun _ => k))
  (at level 100, k at level 200, right associativity).

Definition gets {A} (f : world -> A) : M A := fun w => (Ok (f w), w).

Definition modify (f : world -> world) : M unit := fun w => (Ok tt, f w).

(** [for x in l: body(x)] *)
Fixpoint for_each {X} (l : list X) (body : X -> M unit) : M unit :=
  match l with
  | [] => ret tt
  | x :: rest => body x >> for_each rest body
  end.

Definition is_ok {A} (r : outcome A * world) : bool :=
  match fst r with Ok _ => true | Raise _ => false end.

(** ** Host calls *)

Definition lg (msg : log_entry) : M unit :=
  modify (fun w => with_log (log w ++ [msg]) w).

Definition call_service (c : service_call) : M unit :=
  modify (fun w => with_service_calls (service_calls w ++ [c]) w).

(** Cancelling a timer that is no longer pending does nothing. *)
Definition cancel_timer (h : handle) : M unit :=
  modify (fun w =>
    with_timers (List.filter (fun t => negb (Nat.eqb (fst t) h)) (timers w))
                (next_handle w) w).

(** [run_in(self.lights_off, d)]: registers the timer and returns its handle. *)
Definition run_in (d : Z) : M handle :=
  fun w => (Ok (next_handle w),
            with_timers (timers w ++ [(next_handle w, d)]) (S (next_handle w)) w).

Definition run_daily (t : time) (d : daytime_cfg) : M unit :=
  modify (fun w => with_daily (daily w ++ [(t, d)]) w).

Definition listen (l : listener) : M unit :=
  modify (fun w => with_listeners (listeners w ++ [l]) w).

(** [self.active[key]], a [KeyError] while [self.active] is still [{}]. *)
Definition active_get {A} (key : string) (f : daytime_cfg -> A) : M A :=
  fun w =>
    match active w with
    | Some a => (Ok (f a), w)
    | None => (Raise (KeyError key), w)
    end.

(** ** A small host instance

    Python's [float], [str.lower], AppDaemon's [parse_time] and
    [time.fromisoformat] are parameters of the development.  The functions
    below are one instance of them, for plain decimal numerals, ASCII
    letters and ["HH:MM[:SS]"] clock strings; the examples run on it. *)

Definition digit (c : ascii) : option Z :=
  let n := Z.of_N (Ascii.N_of_ascii c) in
  if ((48 <=? n) && (n <=? 57))%Z then Some (n - 48)%Z else None.

Definition two_digits (a b : ascii) : option Z :=
  match digit a, digit b with
  | Some x, Some y => Some (10 * x + y)%Z
  | _, _ => None
  end.

Definition clock (h m s : option Z) : option time :=
  match h, m, s with
  | Some h, Some m, Some s =>
      if ((h <? 24) && (m <? 60) && (s <? 60))%Z
      then Some (h * 3600 + m * 60 + s)%Z else None
  | _, _, _ => None
  end.

Definition clock_parse_time (s : string) : option time :=
  match s with
  | String h1 (String h2 (String ":" (String m1 (String m2
      (String ":" (String s1 (String s2 EmptyString))))))) =>
      clock (two_digits h1 h2) (two_digits m1 m2) (two_digits s1 s2)
  | _ => None
  end.

Definition clock_fromisoformat (s : string) : option time :=
  match s with
  | String h1 (String h2 (String ":" (String m1 (String m2 EmptyString)))) =>
      clock (two_digits h1 h2) (two_digits m1 m2) (Some 0%Z)
  | _ => clock_parse_time s
  end.

(** Digits of a numeral: the value read so far and the power of ten of the
    fraction ([None] before the decimal point). *)
Fixpoint decimal_digits (s : string) (value : Z) (scale : option positive)
  : option (Z * positive) :=
  match s with
  | EmptyString => Some (value, default 1%positive scale)
  | String "." rest =>
      match scale with
      | None => decimal_digits rest value (Some 1%positive)
      | Some _ => None
      end
  | String c rest =>
      match digit c with
      | Some d =>
          decimal_digits rest (10 * value + d)%Z
            (match scale with Some p => Some (10 * p)%positive | None => None end)
      | None => None
      end
  end.

Definition decimal_float (s : string) : option pyfloat :=
  match s with
  | EmptyString => None
  | String "." EmptyString => None
  | _ =>
      match decimal_digits s 0 None with
      | Some (v, p) => Some (Finite (v # p))
      | None => None
      end
  end.

Definition ascii_lower_char (c : ascii) : ascii :=
  let n := Ascii.N_of_ascii c in
  if ((65 <=? n) && (n <=? 90))%N then Ascii.ascii_of_N (n + 32) else c.

Fixpoint ascii_lower (s : string) : string :=
  match s with
  | EmptyString => EmptyString
  | String c rest => String (ascii_lower_char c) (ascii_lower rest)
  end.

(** A bathroom with one light, one motion, humidity and illuminance sensor
    each, and a disable switch. *)
Definition bath_env (light humidity lux switch : option string) (now_t : time)
  : env :=
  {| get_state := fun x =>
       if String.eqb x "light.bath" then light
       else if String.eqb x "sensor.humidity_bath" then humidity
       else if String.eqb x "sensor.illumination_bath" then lux
       else if String.eqb x "input_boolean.automoli_bath" then switch
       else if String.eqb x "binary_sensor.motion_sensor_bath" then Some "off"
       else None;
     get_is_hue_group := fun _ => false;
     friendly_name := fun x => x;
     entity_exists := fun _ => false;
     all_entities := [];
     now := now_t |}.

Definition bath_args (humidity illuminance : option Q)
    (daytimes : option (list raw_daytime)) : args :=
  {| arg_room := Some "bath";
     arg_motion_state_on := None;
     arg_motion_state_off := None;
     arg_humidity_threshold := humidity;
     arg_illuminance_threshold := illuminance;
     arg_disable_switch_entities := ["input_boolean.automoli_bath"];
     arg_disable_switch_entity := None;
     arg_lights := Some ["light.bath"];
     arg_motion := Some ["binary_sensor.motion_sensor_bath"];
     arg_humidity := Some ["sensor.humidity_bath"];
     arg_illuminance := Some ["sensor.illumination_bath"];
     arg_delay := None;
     arg_daytimes := daytimes |}.

(** The fields [initialize] computes from [bath_args]. *)
Definition bath_cfg (humidity illuminance : option Q) : config :=
  {| room := "bath";
     motion_on := None;
     motion_off := None;
     humidity_threshold := humidity;
     illuminance_threshold := illuminance;
     disable_switch_entities := ["input_boolean.automoli_bath"];
     lights := ["light.bath"];
     motion_sensors := ["binary_sensor.motion_sensor_bath"];
     humidity_sensors :=
       if truthy_threshold humidity then ["sensor.humidity_bath"] else [];
     illuminance_sensors :=
       if truthy_threshold illuminance then ["sensor.illumination_bath"]
       else [];
     default_delay := 150 |}.

Definition default_daytime (name : string) (start : time) (light : Z)
  : daytime_cfg :=
  {| daytime := name; delay := 150%Z; starttime := start;
     light_setting := LInt light; is_hue_group := false |}.

(** The bathroom during the day, with the timer of handle 0 pending. *)
Definition bath_world : world :=
  {| active := Some (default_daytime "day" 27000%Z 100%Z);
     handles := {[0%nat]};
     timers := [(0%nat, 150%Z)];
     next_handle := 1;
     service_calls := [];
     log := [];
     daily := [(19800, default_daytime "morning" 19800 25);
               (27000, default_daytime "day" 27000 100);
               (73800, default_daytime "evening" 73800 90);
               (81000, default_daytime "night" 81000 0)]%Z;
     listeners :=
       [listen_event "xiaomi_aqara.motion" "binary_sensor.motion_sensor_bath"];
     active_daytime := Some "day" |}.

Definition day_start (s : string) (name : option string)
    (light : option light_value) : raw_daytime :=
  {| raw_starttime := Some s; raw_name := name; raw_light := light;
     raw_delay := None |}.

(** ** Constants of the module *)

Definition DEFAULT_NAME : string := "daytime".
Definition DEFAULT_LIGHT_SETTING : light_value := LInt 100.
Definition DEFAULT_DELAY : Z := 150.
Definition DEFAULT_DAYTIMES : list raw_daytime :=
  [ {| raw_starttime := Some "05:30"; raw_name := Some "morning";
       raw_light := Some (LInt 25); raw_delay := None |};
    {| raw_starttime := Some "07:30"; raw_name := Some "day";
       raw_light := Some (LInt 100); raw_delay := None |};
    {| raw_starttime := Some "20:30"; raw_name := Some "evening";
       raw_light := Some (LInt 90); raw_delay := None |};
    {| raw_starttime := Some "22:30"; raw_name := Some "night";
       raw_light := Some (LInt 0); raw_delay := None |} ].

Definition EVENT_MOTION_XIAOMI : string := "xiaomi_aqara.motion".
Definition KEYWORD_LIGHTS : string := "light.".
Definition KEYWORD_MOTION : string := "binary_sensor.motion_sensor_".
Definition KEYWORD_HUMIDITY : string := "sensor.humidity_".
Definition KEYWORD_ILLUMINANCE : string := "sensor.illumination_".

(** The event name [motion_detected] passes to [motion_event] (l. 222). *)
Definition STATE_CHANGED_DETECTION : string := "state_changed_detection".

(** ** The host's [now_is_between]

    AppDaemon's scheduler call, not part of the repository.  It puts both
    clock times on today's date; when the end lies before the start the
    range spans midnight: the end moves to tomorrow, and so does [now] when
    it is before both.  The comparison is inclusive at both ends. *)
Definition now_is_between (start_time end_time now_t : time) : bool :=
  if (end_time <? start_time)%Z then
    let now' :=
      if ((now_t <? start_time) && (now_t <? end_time))%Z
      then (now_t + 86400)%Z else now_t in
    ((start_time <=? now') && (now' <=? end_time + 86400))%Z
  else ((start_time <=? now_t) && (now_t <=? end_time))%Z.

(** ** String helpers of the source *)

(** [needle in haystack] *)
Fixpoint str_contains (needle haystack : string) : bool :=
  String.prefix needle haystack ||
  match haystack with
  | EmptyString => false
  | String _ rest => str_contains needle rest
  end.

(** [.replace("ü", "u")] on UTF-8 text: the letter is the bytes 195, 188. *)
Fixpoint replace_u_umlaut (s : string) : string :=
  match s with
  | EmptyString => EmptyString
  | String c1 (String c2 rest as tail) =>
      if (N_of_ascii c1 =? 195)%N && (N_of_ascii c2 =? 188)%N
      then String "u" (replace_u_umlaut rest)
      else String c1 (replace_u_umlaut tail)
  | String c rest => String c (replace_u_umlaut rest)
  end.

(** Truthiness of an optional string ([None] and [""] are falsy). *)
Definition truthy_str (s : option string) : bool :=
  match s with
  | None => false
  | Some s => negb (String.eqb s "")
  end.

Definition state_is (st : option string) (value : string) : bool :=
  match st with
  | Some s => String.eqb s value
  | None => false
  end.

(** [str(x)] for an optional string. *)
Definition py_str (o : option string) : string :=
  match o with
  | Some s => s
  | None => "None"
  end.

(** ** The class [AutoMoLi] *)

Section AutoMoLi.

(** Python's [float] on a string ([None]: [ValueError]), [str.lower],
    AppDaemon's [parse_time] and [datetime.time.fromisoformat]
    ([None]: [ValueError]).  [parse_time] stands for what the host answers
    during the call under study: for an aware time the host also consults
    its clock and time zone, so nothing here says that it answers the same
    on another day. *)
Variable py_float : string -> option pyfloat.
Variable py_lower : string -> string.
Variable parse_time : string -> option time.
Variable time_fromisoformat : string -> option time.

Section Callbacks.

Variable cfg : config.
Variable e : env.

(** The two lines every path repeats before it touches the timer
    (ll. 210-211, 217-218, 249-250, 363-364): cancel each handle of a
    copy of [self.handles], then clear the set. *)
Definition cancel_scheduled_callbacks : M unit :=
  let* hs := gets handles in
  for_each (elements hs) cancel_timer >>
  modify (with_handles ∅).

(** ll. 245-256 *)
Definition refresh_timer : M (gset handle) :=
  cancel_scheduled_callbacks >>
  let* d := active_get "delay" delay in
  (if bool_decide (d ≠ 0%Z) then
     let* h := run_in d in
     modify (fun w => with_handles ({[h]} ∪ handles w) w)
   else ret tt) >>
  gets handles.

(** l. 261: the state is ["off"], or falsy ([None] or [""]). *)
Definition switch_disables (entity_id : entity) : bool :=
  state_is (get_state e entity_id) "off" ||
  negb (truthy_str (get_state e entity_id)).

(** ll. 258-265 *)
Fixpoint is_disabled_loop (switches : list entity) : M bool :=
  match switches with
  | [] => ret false
  | entity_id :: rest =>
      if switch_disables entity_id
      then lg (log_disabled_by entity_id) >> ret true
      else is_disabled_loop rest
  end.

Definition is_disabled : M bool :=
  is_disabled_loop (disable_switch_entities cfg).

(** The loop of ll. 344-351: a reading [float] rejects is passed over,
    a missing state is [float(None)]. *)
Fixpoint humidity_blocker (threshold : Q) (sensors blocker : list entity)
  : outcome (list entity) :=
  match sensors with
  | [] => Ok blocker
  | sensor :: rest =>
      match get_state e sensor with
      | None => Raise TypeError_float_None
      | Some s =>
          match py_float s with
          | None => humidity_blocker threshold rest blocker
          | Some current_humidity =>
              if float_ge current_humidity threshold
              then humidity_blocker threshold rest (blocker ++ [sensor])
              else humidity_blocker threshold rest blocker
          end
      end
  end.

Definition lift {A} (r : outcome A) : M A := fun w => (r, w).

Definition any_light_on : bool :=
  existsb (fun light => state_is (get_state e light) "on") (lights cfg).

(** ll. 362-373: the branch of [lights_off] taken when nothing blocks. *)
Definition turn_off_now : M unit :=
  cancel_scheduled_callbacks >>
  if any_light_on then
    for_each (lights cfg) (fun entity_id =>
      call_service (turn_off entity_id)) >>
    let* d := active_get "delay" delay in
    lg (log_turned_off d)
  else ret tt.

(** ll. 334-373 *)
Definition lights_off : M unit :=
  let* disabled := is_disabled in
  if disabled then ret tt else
  let* blocker :=
    (if truthy_threshold (humidity_threshold cfg) then
       lift (humidity_blocker (default 0%Q (humidity_threshold cfg))
               (humidity_sensors cfg) [])
     else ret []) in
  match last blocker with   (* [if blocker:], with [blocker.pop()] at l. 359 *)
  | Some sensor =>
      refresh_timer >>
      let* d := active_get "delay" delay in
      lg (log_humidity d sensor)
  | None => turn_off_now
  end.

(** How the loop of ll. 271-277 ends. *)
Inductive illuminance_scan :=
| scanned (blocker : list entity)
| unparsable (sensor : entity) (state : string)
| stateless (sensor : entity).

Fixpoint illuminance_blocker (threshold : Q) (sensors blocker : list entity)
  : illuminance_scan :=
  match sensors with
  | [] => scanned blocker
  | sensor :: rest =>
      match get_state e sensor with
      | None => stateless sensor
      | Some s =>
          match py_float s with
          | None => unparsable sensor s
          | Some lux =>
              if float_ge lux threshold
              then illuminance_blocker threshold rest (blocker ++ [sensor])
              else illuminance_blocker threshold rest blocker
          end
      end
  end.

(** ll. 283-332: the part of [lights_on] after the illuminance gate. *)
Definition lights_on_action : M unit :=
  let* setting := active_get "light_setting" light_setting in
  match setting with
  | LStr scene =>
      for_each (lights cfg) (fun entity_id =>
        let* hue := active_get "is_hue_group" is_hue_group in
        if hue && get_is_hue_group e entity_id then
          call_service
            (hue_activate_scene (friendly_name e entity_id) scene)
        else
          call_service
            (turn_on (if String.prefix "scene." scene then scene
                      else entity_id) None)) >>
      let* hue := active_get "is_hue_group" is_hue_group in
      let* d := active_get "delay" delay in
      lg (log_on_scene hue scene d)
  | LInt pct =>
      if (pct =? 0)%Z then lights_off
      else
        for_each (lights cfg) (fun entity_id =>
          if String.prefix "switch." entity_id then
            call_service (turn_on entity_id None)
          else
            call_service (turn_on entity_id (Some pct)) >>
            let* d := active_get "delay" delay in
            lg (log_on_brightness pct d))
  | LOther _ => raise (ValueError_invalid_light setting (room cfg))
  end.

(** ll. 267-332 *)
Definition lights_on : M unit :=
  if truthy_threshold (illuminance_threshold cfg) then
    match illuminance_blocker (default 0%Q (illuminance_threshold cfg))
            (illuminance_sensors cfg) [] with
    | stateless _ => raise TypeError_float_None
    | unparsable sensor s => lg (log_could_not_parse (Some s) sensor)
    | scanned [] => lights_on_action
    | scanned blocker => lg (log_bright_enough blocker)
    end
  else lights_on_action.

(** ll. 224-243 *)
Definition motion_event (event : string) (entity_id : entity) : M unit :=
  lg (log_received event entity_id) >>
  let* disabled := is_disabled in
  if disabled then ret tt else
  (if negb any_light_on then lights_on else lg log_already_on) >>
  if negb (String.eqb event STATE_CHANGED_DETECTION)
  then refresh_timer >> ret tt
  else ret tt.

(** ll. 213-222.  The last statement calls the coroutine function
    [motion_event] without [await]: this creates a coroutine object that
    is dropped, and the body of [motion_event] never runs. *)
Definition motion_detected (entity_id : entity) : M unit :=
  cancel_scheduled_callbacks >>
  let _never_awaited := motion_event STATE_CHANGED_DETECTION entity_id in
  ret tt.

Definition all_motion_off : bool :=
  forallb (fun sensor =>
             bool_decide (get_state e sensor = motion_off cfg))
          (motion_sensors cfg).

(** ll. 203-211 *)
Definition motion_cleared : M unit :=
  if all_motion_off then refresh_timer >> ret tt
  else cancel_scheduled_callbacks.

(** ll. 178-201; [kwargs] is the pair of its keys [daytime], [initial]. *)
Definition switch_daytime (dt : option daytime_cfg) (initial : bool)
  : M unit :=
  match dt with
  | Some d =>
      modify (with_active (Some d)) >>
      if initial then ret tt
      else lg (log_daytime (daytime d) (light_setting d) (delay d))
  | None => ret tt
  end.

(** l. 391-395.  The last conjunct hands [any] a generator expression that
    contains [await], i.e. an asynchronous generator, which [any] cannot
    iterate: when the first two conjuncts hold the expression raises. *)
Definition daytime_is_hue_group (dt_light_setting : light_value) : M bool :=
  match dt_light_setting with
  | LStr s =>
      if negb (String.prefix "scene." s)
      then raise TypeError_async_generator
      else ret false
  | _ => ret false
  end.

(** One round of the loop of [build_daytimes] (ll. 388-433); [starttimes]
    is the set collected so far, the result the set after this round.
    [now_is_between] receives the two times printed with [str], which it
    parses back. *)
Definition build_daytime (daytimes : list raw_daytime) (idx : nat)
    (raw : raw_daytime) (starttimes : gset Z) : M (gset Z) :=
  let dt_name := default (DEFAULT_NAME ++ "_" ++ pretty idx) (raw_name raw) in
  let dt_delay := default (default_delay cfg) (raw_delay raw) in
  let dt_light_setting := default DEFAULT_LIGHT_SETTING (raw_light raw) in
  let* dt_is_hue_group := daytime_is_hue_group dt_light_setting in
  let* dt_start :=
    (match raw_starttime raw with
     | None => raise TypeError_concat_None
     | Some s =>
         match parse_time (s ++ ":00") with
         | Some t => ret t
         | None => raise (ValueError_missing_start dt_name)
         end
     end) in
  let dt := {| daytime := dt_name; delay := dt_delay; starttime := dt_start;
               light_setting := dt_light_setting;
               is_hue_group := dt_is_hue_group |} in
  let* next_raw :=
    (match daytimes !! ((idx + 1) mod length daytimes)%nat with
     | Some r => ret r
     | None => raise IndexError
     end) in
  let* next_dt_start :=
    (match time_fromisoformat (py_str (raw_starttime next_raw)) with
     | Some t => ret t
     | None => raise (ValueError_fromisoformat (py_str (raw_starttime next_raw)))
     end) in
  if bool_decide (dt_start ∈ starttimes) then
    raise (ValueError_duplicate dt_start)
  else
    (if now_is_between dt_start next_dt_start (now e) then
       switch_daytime (Some dt) true >>
       modify (with_active_daytime (Some dt_name))
     else ret tt) >>
    run_daily dt_start dt >>
    ret ({[dt_start]} ∪ starttimes).

Fixpoint build_daytimes_loop (daytimes : list raw_daytime) (idx : nat)
    (todo : list raw_daytime) (starttimes : gset Z) : M unit :=
  match todo with
  | [] => ret tt
  | raw :: rest =>
      let* starttimes' := build_daytime daytimes idx raw starttimes in
      build_daytimes_loop daytimes (S idx) rest starttimes'
  end.

(** ll. 383-435 *)
Definition build_daytimes (daytimes : list raw_daytime)
  : M (list raw_daytime) :=
  build_daytimes_loop daytimes 0 daytimes ∅ >> ret daytimes.

(** The callbacks the host may deliver, and a run of them. *)
Inductive callback :=
| on_motion_event (event : string) (entity_id : entity)
| on_motion_detected (entity_id : entity)
| on_motion_cleared
| on_refresh_timer
| on_lights_off
| on_switch_daytime (d : daytime_cfg).

Definition run_callback (c : callback) : M unit :=
  match c with
  | on_motion_event event entity_id => motion_event event entity_id
  | on_motion_detected entity_id => motion_detected entity_id
  | on_motion_cleared => motion_cleared
  | on_refresh_timer => refresh_timer >> ret tt
  | on_lights_off => lights_off
  | on_switch_daytime d => switch_daytime (Some d) false
  end.

End Callbacks.

(** An exception ends the callback that raised it; what the callback had
    written by then stays. *)
Fixpoint run_callbacks (cfg : config) (trace : list (env * callback))
    (w : world) : world :=
  match trace with
  | [] => w
  | (e, c) :: rest => run_callbacks cfg rest (snd (run_callback cfg e c w))
  end.

(** ll. 375-381 *)
Definition find_sensors (room_name : string) (e : env) (keyword : string)
  : list entity :=
  List.filter
    (fun sensor =>
       str_contains keyword sensor &&
       str_contains room_name
         (replace_u_umlaut (py_lower (friendly_name e sensor))))
    (all_entities e).

(** ll. 144-154, for one sensor type: the sensors kept and the threshold
    left in [self.thresholds]. *)
Definition optional_sensors (found : list entity) (threshold : option Q)
  : list entity * option Q :=
  match found with
  | _ :: _ =>
      (if truthy_threshold threshold then remove_dups found else [], threshold)
  | [] =>
      ([], if truthy_threshold threshold then None else threshold)
  end.

(** l. 153 *)
Definition no_sensors_log (sensor_type : string) (found : list entity)
    (threshold : option Q) : list log_entry :=
  match found with
  | [] => if truthy_threshold threshold then [log_no_sensors sensor_type] else []
  | _ :: _ => []
  end.

(** ll. 127-133: the lights.  A [lights] option that is given is kept as
    it is; when it is empty it is falsy, and the [add] or [update] meant
    for the default [set()] meets a list, which has neither.  Without the
    option the lights are the group [light.<room>], or else the entities
    found by name. *)
Definition lights_option (a : args) (e : env) (room_name : string)
  : outcome (list entity) :=
  match arg_lights a with
  | Some ((_ :: _) as given) => Ok given
  | Some [] => Raise AttributeError_lights
  | None =>
      Ok (if entity_exists e ("light." ++ room_name)
          then ["light." ++ room_name]
          else remove_dups (find_sensors room_name e KEYWORD_LIGHTS))
  end.

(** ll. 94-155: the fields of [self] computed from the options. *)
Definition configure (a : args) (e : env) : outcome config :=
  let room_name := py_str (arg_room a) in
  let switches :=
    remove_dups (arg_disable_switch_entities a ++
                 (if truthy_str (arg_disable_switch_entity a)
                  then [py_str (arg_disable_switch_entity a)] else [])) in
  match lights_option a e room_name with
  | Raise ex => Raise ex
  | Ok lights_found =>
  let motion :=
    remove_dups
      (default (find_sensors room_name e KEYWORD_MOTION) (arg_motion a)) in
  match lights_found, motion with
  | [], _ | _, [] => Raise ValueError_no_lights_sensors
  | _, _ =>
      let hum :=
        optional_sensors
          (default (find_sensors room_name e KEYWORD_HUMIDITY) (arg_humidity a))
          (arg_humidity_threshold a) in
      let ill :=
        optional_sensors
          (default (find_sensors room_name e KEYWORD_ILLUMINANCE)
                   (arg_illuminance a))
          (arg_illuminance_threshold a) in
      Ok {| room := room_name;
            motion_on := arg_motion_state_on a;
            motion_off := arg_motion_state_off a;
            humidity_threshold := snd hum;
            illuminance_threshold := snd ill;
            disable_switch_entities := switches;
            lights := lights_found;
            motion_sensors := motion;
            humidity_sensors := fst hum;
            illuminance_sensors := fst ill;
            default_delay := default DEFAULT_DELAY (arg_delay a) |}
  end
  end.

(** ll. 159-171: the listeners of one motion sensor, then the timer. *)
Definition listen_sensor (cfg : config) (sensor : entity) : M unit :=
  (if negb (truthy_str (motion_on cfg) || truthy_str (motion_off cfg)) then
     listen (listen_event EVENT_MOTION_XIAOMI sensor)
   else if truthy_str (motion_on cfg) && truthy_str (motion_off cfg) then
     listen (listen_state_detected sensor (motion_on cfg)) >>
     listen (listen_state_cleared sensor (motion_off cfg))
   else ret tt) >>
  refresh_timer >> ret tt.

(** ll. 79-176, from a fresh application object.  The version check and
    the report of [show_info] only write to the log and are left out. *)
Definition initialize (a : args) (e : env) : outcome config * world :=
  match configure a e with
  | Raise ex => (Raise ex, empty_world)
  | Ok cfg =>
      (for_each
         (no_sensors_log "humidity"
            (default (find_sensors (room cfg) e KEYWORD_HUMIDITY)
                     (arg_humidity a))
            (arg_humidity_threshold a) ++
          no_sensors_log "illuminance"
            (default (find_sensors (room cfg) e KEYWORD_ILLUMINANCE)
                     (arg_illuminance a))
            (arg_illuminance_threshold a)) lg >>
       build_daytimes cfg e (default DEFAULT_DAYTIMES (arg_daytimes a)) >>
       for_each (motion_sensors cfg) (listen_sensor cfg) >>
       ret cfg) empty_world
  end.

(** ** Reasoning about callbacks *)

Local Open Scope list_scope.

(** [m] keeps a property of the world, whether it returns or raises. *)
Definition preserves {A} (P : world -> Prop) (m : M A) : Prop :=
  forall w, P w -> P (snd (m w)).

(** The start time [build_daytimes] parses for an entry (l. 399). *)
Definition parsed_start (raw : raw_daytime) : option time :=
  match raw_starttime raw with
  | Some s => parse_time (s ++ ":00")%string
  | None => None
  end.

(** A light setting that sends l. 394 into [any] over an asynchronous
    generator: a string that does not start with ["scene."]. *)
Definition bare_scene (raw : raw_daytime) : bool :=
  match raw_light raw with
  | Some (LStr s) => negb (String.prefix "scene." s)
  | _ => false
  end.

(** The dict of ll. 404-410 for the entry at [idx], once its start time
    [t] is parsed and l. 394 is not reached. *)
Definition daytime_of (cfg : config) (idx : nat) (raw : raw_daytime)
    (t : time) : daytime_cfg :=
  {| daytime :=
       default (DEFAULT_NAME ++ "_" ++ pretty idx)%string (raw_name raw);
     delay := default (default_delay cfg) (raw_delay raw);
     starttime := t;
     light_setting := default DEFAULT_LIGHT_SETTING (raw_light raw);
     is_hue_group := false |}.

(** An entry both parsers read to the same time of day, with a light
    setting that lets the round pass l. 394. *)
Definition well_formed (raw : raw_daytime) (t : time) : Prop :=
  parsed_start raw = Some t /\
  time_fromisoformat (py_str (raw_starttime raw)) = Some t /\
  bare_scene raw = false /\
  valid_time t.

(** The test of l. 422 for the entry at index [j] of a schedule with the
    start times [times]. *)
Definition trigger_active (times : list time) (now_t : time) (j : nat)
  : bool :=
  match times !! j, times !! ((j + 1) mod length times)%nat with
  | Some t, Some tn => now_is_between t tn now_t
  | _, _ => false
  end.

(** The interval of the specification: half-open [[start, next)], running
    past midnight when [next] is not after [start]. *)
Definition half_open_contains (start next now_t : time) : bool :=
  if (start <? next)%Z
  then ((start <=? now_t) && (now_t <? next))%Z
  else ((start <=? now_t) || (now_t <? next))%Z.

(** A light setting that is neither an [int] nor a [str] gives way to the
    default; the other fields stay. *)
Definition with_valid_light (raw : raw_daytime) : raw_daytime :=
  match raw_light raw with
  | Some (LOther _) =>
      {| raw_starttime := raw_starttime raw; raw_name := raw_name raw;
         raw_light := Some DEFAULT_LIGHT_SETTING; raw_delay := raw_delay raw |}
  | _ => raw
  end.

(** Whether a round of [build_daytimes] returns or raises, and the set of
    start times it returns: the round without its writes. *)
Definition round_outcome (daytimes : list raw_daytime) (idx : nat)
    (raw : raw_daytime) (seen : gset Z) : outcome (gset Z) :=
  if bare_scene raw then Raise TypeError_async_generator else
  match raw_starttime raw with
  | None => Raise TypeError_concat_None
  | Some s =>
      match parse_time (s ++ ":00")%string with
      | None =>
          Raise (ValueError_missing_start
                   (default (DEFAULT_NAME ++ "_" ++ pretty idx)%string
                            (raw_name raw)))
      | Some t =>
          match daytimes !! ((idx + 1) mod length daytimes)%nat with
          | None => Raise IndexError
          | Some nr =>
              match time_fromisoformat (py_str (raw_starttime nr)) with
              | None => Raise (ValueError_fromisoformat
                                 (py_str (raw_starttime nr)))
              | Some _ =>
                  if bool_decide (t ∈ seen)
                  then Raise (ValueError_duplicate t)
                  else Ok ({[t]} ∪ seen)
              end
          end
      end
  end.

Fixpoint loop_outcome (daytimes : list raw_daytime) (idx : nat)
    (todo : list raw_daytime) (seen : gset Z) : outcome unit :=
  match todo with
  | [] => Ok tt
  | raw :: rest =>
      match round_outcome daytimes idx raw seen with
      | Ok seen' => loop_outcome daytimes (S idx) rest seen'
      | Raise ex => Raise ex
      end
  end.

(** The host's timers left after cancelling the handles [hs] in turn. *)
Fixpoint remaining_timers (hs : list handle) (ts : list (handle * Z))
  : list (handle * Z) :=
  match hs with
  | [] => ts
  | h :: rest =>
      remaining_timers rest
        (List.filter (fun t => negb (Nat.eqb (fst t) h)) ts)
  end.

(** A sensor whose state [float] accepts and that is at or above the
    threshold. *)
Definition reads_at_least (e : env) (threshold : Q) (sensor : entity) : bool :=
  match get_state e sensor with
  | Some s =>
      match py_float s with
      | Some x => float_ge x threshold
      | None => false
      end
  | None => false
  end.

(** A sensor without a state, or with a state [float] rejects. *)
Definition unreadable (e : env) (sensor : entity) : bool :=
  match get_state e sensor with
  | Some s => match py_float s with Some _ => false | None => true end
  | None => true
  end.

(** The invariant of the timer set. *)
Definition handles_ok (w : world) : Prop := (size (handles w) <= 1)%nat.

(** The invariant of a started application: at most one handle, and an
    active daytime. *)
Definition started (w : world) : Prop :=
  handles_ok w /\ is_Some (active w).

(** The timers scheduled and not cancelled are the ones [self.handles]
    names: none, or the single timer of the single handle. *)
Definition timers_agree (w : world) : Prop :=
  (handles w = ∅ /\ timers w = []) \/
  exists h d, handles w = {[h]} /\ timers w = [(h, d)].
(** The illuminance gate of [lights_on] lets the call through: no threshold
    is in force, or every illuminance sensor has a reading [float] accepts
    that is below the threshold. *)
Definition dark_enough (cfg : config) (e : env) : Prop :=
  truthy_threshold (illuminance_threshold cfg) = true ->
  forall s, s ∈ illuminance_sensors cfg ->
    unreadable e s = false /\
    reads_at_least e (default 0%Q (illuminance_threshold cfg)) s = false.

(** The [turn_on] call of ll. 316-322 for one light. *)
Definition brightness_call (pct : Z) (entity_id : entity) : service_call :=
  turn_on entity_id
    (if String.prefix "switch." entity_id then None else Some pct).
(** The listeners ll. 162-169 register for one motion sensor. *)
Definition sensor_listeners (cfg : config) (sensor : entity) : list listener :=
  if negb (truthy_str (motion_on cfg) || truthy_str (motion_off cfg)) then
    [listen_event EVENT_MOTION_XIAOMI sensor]
  else if truthy_str (motion_on cfg) && truthy_str (motion_off cfg) then
    [listen_state_detected sensor (motion_on cfg);
     listen_state_cleared sensor (motion_off cfg)]
  else [].
(** The lists of daytimes [build_daytimes] accepts: no entry has a light
    setting that is a string without the prefix ["scene."], every entry
    has a start time that [parse_time] reads (with [":00"] appended) and
    that [time.fromisoformat] reads (as written), and no two entries are
    parsed to the same start time. *)
Definition acceptable (daytimes : list raw_daytime) : Prop :=
  (forall raw, raw ∈ daytimes ->
     bare_scene raw = false /\ is_Some (parsed_start raw) /\
     is_Some (time_fromisoformat (py_str (raw_starttime raw)))) /\
  (forall i j ri rj t,
     (i < j)%nat -> daytimes !! i = Some ri -> daytimes !! j = Some rj ->
     parsed_start ri = Some t -> parsed_start rj ≠ Some t).

(** What the round at index [k] asks of its entry [raw]. *)
Definition round_accepts (daytimes : list raw_daytime) (k : nat)
    (raw : raw_daytime) : Prop :=
  bare_scene raw = false /\
  (exists t, parsed_start raw = Some t /\
     forall i r, (i < k)%nat -> daytimes !! i = Some r ->
                 parsed_start r ≠ Some t) /\
  (exists nr, daytimes !! ((k + 1) mod length daytimes)%nat = Some nr /\
     is_Some (time_fromisoformat (py_str (raw_starttime nr)))).

(** [seen] holds the start times of the entries before [idx]. *)
Definition start_seen (daytimes : list raw_daytime) (idx : nat)
    (seen : gset Z) : Prop :=
  forall t, t ∈ seen <->
    exists k r, (k < idx)%nat /\ daytimes !! k = Some r /\
                parsed_start r = Some t.
(** A service call other than [hue/hue_activate_scene]. *)
Definition not_hue (c : service_call) : Prop :=
  match c with
  | hue_activate_scene _ _ => False
  | _ => True
  end.

(** No hue group is active and no hue scene has been activated. *)
Definition hue_free (w : world) : Prop :=
  (forall d, active w = Some d -> is_hue_group d = false) /\
  Forall not_hue (service_calls w).
(** The letter the source replaces at l. 380, as UTF-8 text. *)
Definition u_umlaut : string :=
  String (ascii_of_N 195) (String (ascii_of_N 188) EmptyString).

Definition head_char (s : string) : option ascii :=
  match s with
  | EmptyString => None
  | String c _ => Some c
  end.

(** ll. 62-63, on text: bold on, the text, attributes off. *)
Definition hl (text : string) : string :=
  (String (ascii_of_N 27) "[1m" ++ text ++ String (ascii_of_N 27) "[0m")%string.

(** [str.split(".")]: the pieces between the dots, never an empty list. *)
Fixpoint split_dot (s : string) : list string :=
  match s with
  | EmptyString => [EmptyString]
  | String c rest =>
      if Ascii.eqb c "." then EmptyString :: split_dot rest
      else
        match split_dot rest with
        | piece :: pieces => String c piece :: pieces
        | [] => [String c EmptyString]
        end
  end.

(** ll. 66-68.  The assignment unpacks the pieces into two names and
    raises [ValueError] on any other number of them ([None]). *)
Definition hl_entity (entity : string) : option string :=
  match split_dot entity with
  | [domain; name] => Some (domain ++ "." ++ hl name)%string
  | _ => None
  end.

Fixpoint count_dots (s : string) : nat :=
  match s with
  | EmptyString => 0
  | String c rest => (if Ascii.eqb c "." then 1 else 0) + count_dots rest
  end.

Lemma preserves_ret {A} P (a : A) : preserves P (ret a).
Proof. intros w H. exact H. Qed.

Lemma preserves_raise {A} P ex : preserves P (@raise A ex).
Proof. intros w H. exact H. Qed.

Lemma preserves_lift {A} P (r : outcome A) : preserves P (lift r).
Proof. intros w H. exact H. Qed.

Lemma preserves_gets {A} P (f : world -> A) : preserves P (gets f).
Proof. intros w H. exact H. Qed.

Lemma preserves_active_get {A} P key (f : daytime_cfg -> A) :
  preserves P (active_get key f).
Proof. intros w H. unfold active_get. destruct (active w); exact H. Qed.

Lemma preserves_bind {A B} P (m : M A) (k : A -> M B) :
  preserves P m -> (forall a, preserves P (k a)) -> preserves P (bind m k).
Proof.
  intros Hm Hk w H. unfold bind.
  specialize (Hm w H). destruct (m w) as [[a|ex] w']; simpl in *.
  - apply Hk, Hm.
  - exact Hm.
Qed.

Lemma preserves_for_each {X} P (l : list X) (body : X -> M unit) :
  (forall x, preserves P (body x)) -> preserves P (for_each l body).
Proof.
  intros Hb. induction l as [|x l IH]; simpl.
  - apply preserves_ret.
  - apply preserves_bind; [apply Hb | intros _; exact IH].
Qed.

Lemma preserves_modify P (f : world -> world) :
  (forall w, P w -> P (f w)) -> preserves P (modify f).
Proof. intros Hf w H. apply Hf, H. Qed.

Lemma preserves_if {A} P (b : bool) (m1 m2 : M A) :
  preserves P m1 -> preserves P m2 -> preserves P (if b then m1 else m2).
Proof. destruct b; auto. Qed.

(** A loop whose body cannot raise returns. *)
Lemma for_each_returns {X} (l : list X) (body : X -> M unit) w :
  (forall x w', fst (body x w') = Ok tt) -> fst (for_each l body w) = Ok tt.
Proof.
  intros Hb. revert w. induction l as [|x l IH]; intros w; simpl; [done|].
  unfold bind. specialize (Hb x w).
  destruct (body x w) as [[[]|ex] w']; simpl in *; [apply IH | discriminate].
Qed.

(** Cancelling removes timers from the host's list and schedules none. *)
Lemma cancel_each_spec (hs : list handle) w :
  exists ts,
    for_each hs cancel_timer w = (Ok tt, with_timers ts (next_handle w) w) /\
    (forall t, t ∈ ts -> t ∈ timers w).
Proof.
  revert w. induction hs as [|h hs IH]; intros w; simpl.
  - exists (timers w). split; [destruct w; reflexivity | auto].
  - unfold bind, cancel_timer at 1, modify.
    destruct (IH (with_timers
      (List.filter (fun t => negb (Nat.eqb (fst t) h)) (timers w))
      (next_handle w) w)) as (ts & -> & Hts).
    exists ts. split; [reflexivity|].
    intros t Ht. specialize (Hts t Ht). simpl in Hts.
    apply list_elem_of_In in Hts. apply filter_In in Hts.
    apply list_elem_of_In. tauto.
Qed.

Lemma cancel_scheduled_callbacks_spec w :
  exists ts,
    cancel_scheduled_callbacks w
      = (Ok tt, with_handles ∅ (with_timers ts (next_handle w) w)) /\
    (forall t, t ∈ ts -> t ∈ timers w).
Proof.
  unfold cancel_scheduled_callbacks, bind, gets, modify.
  destruct (cancel_each_spec (elements (handles w)) w) as (ts & -> & Hts).
  exists ts. split; [reflexivity | exact Hts].
Qed.

(** What [refresh_timer] leaves behind, in closed form. *)
Lemma refresh_timer_spec w :
  exists ts, (forall t, t ∈ ts -> t ∈ timers w) /\
    refresh_timer w =
      match active w with
      | None =>
          (Raise (KeyError "delay"),
           with_handles ∅ (with_timers ts (next_handle w) w))
      | Some d =>
          if bool_decide (delay d ≠ 0%Z) then
            (Ok {[next_handle w]},
             with_handles {[next_handle w]}
               (with_timers (ts ++ [(next_handle w, delay d)])
                            (S (next_handle w)) w))
          else
            (Ok ∅, with_handles ∅ (with_timers ts (next_handle w) w))
      end.
Proof.
  destruct (cancel_scheduled_callbacks_spec w) as (ts & Hc & Hts).
  exists ts. split; [exact Hts|].
  unfold refresh_timer, bind. rewrite Hc.
  unfold active_get; simpl.
  destruct (active w) as [d|]; [|reflexivity].
  destruct (bool_decide (delay d ≠ 0%Z)); simpl.
  - unfold gets, with_handles; simpl.
    rewrite (right_id_L ∅ (∪)). reflexivity.
  - reflexivity.
Qed.

Lemma cancel_scheduled_callbacks_active w :
  active (snd (cancel_scheduled_callbacks w)) = active w.
Proof.
  destruct (cancel_scheduled_callbacks_spec w) as (ts & -> & _). reflexivity.
Qed.

(** After [refresh_timer] the set holds at most one handle, whatever it
    held before. *)
Lemma refresh_timer_handles_ok w : handles_ok (snd (refresh_timer w)).
Proof.
  destruct (refresh_timer_spec w) as (ts & _ & ->). unfold handles_ok.
  destruct (active w) as [d|]; [destruct (bool_decide _)|];
    cbn [snd handles with_handles];
    rewrite ?size_singleton, ?size_empty; lia.
Qed.

Lemma refresh_timer_active w : active (snd (refresh_timer w)) = active w.
Proof.
  destruct (refresh_timer_spec w) as (ts & _ & ->).
  destruct (active w) as [d|] eqn:E; [destruct (bool_decide _)|];
    cbn [snd active with_handles with_timers]; exact E.
Qed.

(** *** Properties every callback keeps

    A property of the world that log lines and service calls do not
    affect, and that the two timer operations keep, is kept by every
    callback except the daytime switch. *)
Section Frame.

Variable P : world -> Prop.
Hypothesis P_log : forall l w, P w -> P (with_log l w).
Hypothesis P_calls : forall c w, P w -> P (with_service_calls c w).
Hypothesis P_cancel : preserves P cancel_scheduled_callbacks.
Hypothesis P_refresh : preserves P refresh_timer.

Variable cfg : config.
Variable e : env.

Lemma frame_lg msg : preserves P (lg msg).
Proof. apply preserves_modify. intros w H. apply P_log, H. Qed.

Lemma frame_call_service c : preserves P (call_service c).
Proof. apply preserves_modify. intros w H. apply P_calls, H. Qed.

Lemma frame_is_disabled : preserves P (is_disabled cfg e).
Proof.
  unfold is_disabled. induction (disable_switch_entities cfg) as [|s l IH];
    simpl; [apply preserves_ret|].
  destruct (switch_disables e s); [|exact IH].
  apply preserves_bind; [apply frame_lg | intros; apply preserves_ret].
Qed.

Lemma frame_turn_off_now : preserves P (turn_off_now cfg e).
Proof.
  unfold turn_off_now.
  apply preserves_bind; [apply P_cancel | intros _].
  apply preserves_if; [|apply preserves_ret].
  apply preserves_bind.
  - apply preserves_for_each. intros x. apply frame_call_service.
  - intros _. apply preserves_bind; [apply preserves_active_get|].
    intros d. apply frame_lg.
Qed.

Lemma frame_lights_off : preserves P (lights_off cfg e).
Proof.
  unfold lights_off.
  apply preserves_bind; [apply frame_is_disabled | intros [|]];
    [apply preserves_ret|].
  apply preserves_bind.
  - apply preserves_if; [apply preserves_lift | apply preserves_ret].
  - intros blocker. destruct (last blocker).
    + apply preserves_bind; [apply P_refresh | intros _].
      apply preserves_bind; [apply preserves_active_get | intros d].
      apply frame_lg.
    + apply frame_turn_off_now.
Qed.

Lemma frame_lights_on_action : preserves P (lights_on_action cfg e).
Proof.
  unfold lights_on_action.
  apply preserves_bind; [apply preserves_active_get | intros [pct|scene|r]].
  - apply preserves_if; [apply frame_lights_off|].
    apply preserves_for_each. intros x.
    apply preserves_if; [apply frame_call_service|].
    apply preserves_bind; [apply frame_call_service | intros _].
    apply preserves_bind; [apply preserves_active_get | intros d].
    apply frame_lg.
  - apply preserves_bind.
    + apply preserves_for_each. intros x.
      apply preserves_bind; [apply preserves_active_get | intros hue].
      apply preserves_if; apply frame_call_service.
    + intros _. apply preserves_bind; [apply preserves_active_get | intros hue].
      apply preserves_bind; [apply preserves_active_get | intros d].
      apply frame_lg.
  - apply preserves_raise.
Qed.

Lemma frame_lights_on : preserves P (lights_on cfg e).
Proof.
  unfold lights_on.
  apply preserves_if; [|apply frame_lights_on_action].
  destruct (illuminance_blocker _ _ _ _) as [[|b bl]|sensor s|sensor].
  - apply frame_lights_on_action.
  - apply frame_lg.
  - apply frame_lg.
  - apply preserves_raise.
Qed.

Lemma frame_motion_event event entity_id :
  preserves P (motion_event cfg e event entity_id).
Proof.
  unfold motion_event.
  apply preserves_bind; [apply frame_lg | intros _].
  apply preserves_bind; [apply frame_is_disabled | intros [|]];
    [apply preserves_ret|].
  apply preserves_bind.
  - apply preserves_if; [apply frame_lights_on | apply frame_lg].
  - intros _. apply preserves_if; [|apply preserves_ret].
    apply preserves_bind; [apply P_refresh|].
    intros; apply preserves_ret.
Qed.

Lemma frame_motion_detected entity_id :
  preserves P (motion_detected cfg e entity_id).
Proof.
  unfold motion_detected.
  apply preserves_bind; [apply P_cancel | intros; apply preserves_ret].
Qed.

Lemma frame_motion_cleared : preserves P (motion_cleared cfg e).
Proof.
  unfold motion_cleared. apply preserves_if; [|apply P_cancel].
  apply preserves_bind; [apply P_refresh | intros; apply preserves_ret].
Qed.

End Frame.

Lemma cancel_scheduled_callbacks_started :
  preserves started cancel_scheduled_callbacks.
Proof.
  intros w [_ Ha]. split.
  - destruct (cancel_scheduled_callbacks_spec w) as (ts & -> & _).
    unfold handles_ok. cbn [snd handles with_handles].
    rewrite size_empty. lia.
  - rewrite cancel_scheduled_callbacks_active. exact Ha.
Qed.

Lemma refresh_timer_started : preserves started refresh_timer.
Proof.
  intros w [_ Ha]. split; [apply refresh_timer_handles_ok|].
  rewrite refresh_timer_active. exact Ha.
Qed.

Lemma run_callback_started cfg e c : preserves started (run_callback cfg e c).
Proof.
  pose proof cancel_scheduled_callbacks_started as Hc.
  pose proof refresh_timer_started as Hr.
  assert (Hl : forall l w, started w -> started (with_log l w)) by auto.
  assert (Hs : forall c w, started w -> started (with_service_calls c w))
    by auto.
  destruct c; simpl.
  - apply frame_motion_event; assumption.
  - apply frame_motion_detected; assumption.
  - apply frame_motion_cleared; assumption.
  - apply preserves_bind; [exact Hr | intros; apply preserves_ret].
  - apply frame_lights_off; assumption.
  - apply preserves_bind.
    + apply preserves_modify. intros w [Hh _]. split; [exact Hh | simpl; eauto].
    + intros _. apply frame_lg, Hl.
Qed.

Lemma run_callbacks_started cfg trace w :
  started w -> started (run_callbacks cfg trace w).
Proof.
  revert w. induction trace as [|[e c] trace IH]; intros w H; simpl; [exact H|].
  apply IH, run_callback_started, H.
Qed.

(** A loop over a non-empty list that returns ends in a state its body
    produced on return. *)
Lemma for_each_last {X} (Q : world -> Prop) (l : list X) (body : X -> M unit) :
  l ≠ [] ->
  (forall x w w', body x w = (Ok tt, w') -> Q w') ->
  forall w w', for_each l body w = (Ok tt, w') -> Q w'.
Proof.
  intros Hne Hb. induction l as [|x l IH]; [done|].
  intros w w'. simpl. unfold bind.
  destruct (body x w) as [[[]|ex] w1] eqn:Hx; [|discriminate].
  destruct l as [|y l].
  - simpl. unfold ret. intros [= <-]. eapply Hb, Hx.
  - apply IH. discriminate.
Qed.

Lemma listen_sensor_started cfg sensor w w' :
  listen_sensor cfg sensor w = (Ok tt, w') -> started w'.
Proof.
  unfold listen_sensor, bind.
  match goal with
  | |- context [(if ?c then ?x else ?y) w] =>
      destruct ((if c then x else y) w) as [[[]|ex] w1]; [|discriminate]
  end.
  pose proof (refresh_timer_handles_ok w1) as Hh.
  pose proof (refresh_timer_active w1) as Ha.
  destruct (refresh_timer_spec w1) as (ts & _ & Hr).
  destruct (refresh_timer w1) as [[hs|ex] w2]; [|discriminate].
  unfold ret. intros [= <-]. split; [exact Hh|].
  simpl in Ha. rewrite Ha.
  destruct (active w1); [eauto|discriminate].
Qed.

Lemma configure_motion a e cfg :
  configure a e = Ok cfg -> motion_sensors cfg ≠ [].
Proof.
  unfold configure. cbv zeta.
  destruct (lights_option _ _ _) as [lights_found|ex0]; [|discriminate].
  match goal with
  | |- match ?l with [] => _ | _ :: _ => _ end = _ -> _ =>
      destruct l as [|l0 ls]; [discriminate|]
  end.
  match goal with
  | |- match ?m with [] => _ | _ :: _ => _ end = _ -> _ =>
      destruct m as [|m0 ms] eqn:Hm; [discriminate|]
  end.
  intros [= <-]. cbn [motion_sensors]. discriminate.
Qed.

Lemma initialize_started a e cfg w :
  initialize a e = (Ok cfg, w) -> started w.
Proof.
  unfold initialize. destruct (configure a e) as [c|ex] eqn:Hc; [|discriminate].
  pose proof (configure_motion _ _ _ Hc) as Hm.
  unfold bind.
  destruct (for_each _ lg empty_world) as [[[]|ex] w1]; [|discriminate].
  destruct (build_daytimes c e _ w1) as [[ds|ex] w2]; [|discriminate].
  destruct (for_each (motion_sensors c) (listen_sensor c) w2)
    as [[[]|ex] w3] eqn:Hl; [|discriminate].
  unfold ret. intros [= <- <-].
  eapply (for_each_last started); [exact Hm | | exact Hl].
  intros x. apply listen_sensor_started.
Qed.

(** C1.  After a successful [initialize] and any sequence of callbacks
    (motion events, motion detected, motion cleared, timer refreshes, timer
    expiries, daytime switches, each in an arbitrary environment)
    [self.handles] holds at most one handle; there is an active daytime, and
    a [refresh_timer] call made in that state leaves exactly one handle
    when the active delay is not 0 and none when it is 0. *)
Theorem handles_at_most_one a e0 cfg w0 trace :
  initialize a e0 = (Ok cfg, w0) ->
  let w := run_callbacks cfg trace w0 in
  (size (handles w) <= 1)%nat /\
  exists d, active w = Some d /\
    (delay d ≠ 0%Z -> size (handles (snd (refresh_timer w))) = 1%nat) /\
    (delay d = 0%Z -> size (handles (snd (refresh_timer w))) = 0%nat).
Proof.
  intros Hi w.
  destruct (run_callbacks_started cfg trace w0 (initialize_started _ _ _ _ Hi))
    as [Hh [d Hd]].
  split; [exact Hh|]. exists d. split; [exact Hd|].
  destruct (refresh_timer_spec w) as (ts & _ & ->). fold w in Hd. rewrite Hd.
  split; intros H.
  - rewrite bool_decide_eq_true_2 by exact H.
    cbn [snd handles with_handles]. apply size_singleton.
  - rewrite bool_decide_eq_false_2 by (intros H'; apply H', H).
    cbn [snd handles with_handles]. apply size_empty.
Qed.

(** *** The disable switches *)

Lemma is_disabled_loop_spec e switches w :
  exists l,
    is_disabled_loop e switches w
      = (Ok (existsb (switch_disables e) switches), with_log (log w ++ l) w).
Proof.
  induction switches as [|s rest IH]; simpl.
  - exists []. unfold ret. rewrite app_nil_r. destruct w; reflexivity.
  - destruct (switch_disables e s); simpl; [|exact IH].
    exists [log_disabled_by s]. reflexivity.
Qed.

Lemma is_disabled_spec cfg e w :
  exists l,
    is_disabled cfg e w
      = (Ok (existsb (switch_disables e) (disable_switch_entities cfg)),
         with_log (log w ++ l) w).
Proof. apply is_disabled_loop_spec. Qed.

(** The answer of [is_disabled] does not depend on the world. *)
Lemma is_disabled_answer cfg e w w' b :
  fst (is_disabled cfg e w) = Ok b -> fst (is_disabled cfg e w') = Ok b.
Proof.
  destruct (is_disabled_spec cfg e w) as (l & ->).
  destruct (is_disabled_spec cfg e w') as (l' & ->). auto.
Qed.

Lemma switch_disables_reads e switch :
  get_state e switch = Some "off" \/ get_state e switch = None \/
  get_state e switch = Some "" ->
  switch_disables e switch = true.
Proof.
  unfold switch_disables. intros [-> | [-> | ->]]; reflexivity.
Qed.

Lemma is_disabled_by cfg e w switch :
  switch ∈ disable_switch_entities cfg ->
  switch_disables e switch = true ->
  fst (is_disabled cfg e w) = Ok true.
Proof.
  intros Hin Hs. destruct (is_disabled_spec cfg e w) as (l & ->). simpl.
  f_equal. apply existsb_exists. exists switch.
  split; [apply list_elem_of_In, Hin | exact Hs].
Qed.

Lemma motion_event_disabled cfg e event entity_id w :
  fst (is_disabled cfg e w) = Ok true ->
  exists l,
    motion_event cfg e event entity_id w = (Ok tt, with_log (log w ++ l) w).
Proof.
  intros Hd. unfold motion_event, bind, lg at 1, modify.
  apply (is_disabled_answer _ _ _
           (with_log (log w ++ [log_received event entity_id]) w)) in Hd.
  destruct (is_disabled_spec cfg e
              (with_log (log w ++ [log_received event entity_id]) w))
    as (l & Hl).
  rewrite Hl in Hd |- *. simpl in Hd. injection Hd as ->.
  exists (log_received event entity_id :: l).
  unfold ret. cbn [log with_log]. rewrite <- app_assoc. reflexivity.
Qed.

Lemma motion_event_enabled cfg e event entity_id w :
  fst (is_disabled cfg e w) = Ok false ->
  exists l,
    motion_event cfg e event entity_id w =
      ((if negb (any_light_on cfg e) then lights_on cfg e
        else lg log_already_on) >>
       (if negb (String.eqb event STATE_CHANGED_DETECTION)
        then refresh_timer >> ret tt else ret tt))
      (with_log (log w ++ l) w).
Proof.
  intros Hd. unfold motion_event, bind at 1 2, lg at 1, modify.
  apply (is_disabled_answer _ _ _
           (with_log (log w ++ [log_received event entity_id]) w)) in Hd.
  destruct (is_disabled_spec cfg e
              (with_log (log w ++ [log_received event entity_id]) w))
    as (l & Hl).
  rewrite Hl in Hd |- *. simpl in Hd. injection Hd as ->.
  exists (log_received event entity_id :: l).
  cbn [log with_log]. rewrite <- app_assoc. reflexivity.
Qed.

(** C2, as amended.  While a disable switch reads ["off"], has no state or
    an empty one, [motion_event] is ignored: it returns without a service
    call and leaves the active daytime, the handle set and the host's
    timers as they were.  The wrapper [motion_detected] issues no service
    call either, but it has emptied the handle set before any switch is
    looked at. *)
Theorem disabled_motion_event_ignored cfg e event entity_id w switch :
  switch ∈ disable_switch_entities cfg ->
  get_state e switch = Some "off" \/ get_state e switch = None \/
  get_state e switch = Some "" ->
  (let r := motion_event cfg e event entity_id w in
   fst r = Ok tt /\
   service_calls (snd r) = service_calls w /\
   active (snd r) = active w /\
   handles (snd r) = handles w /\
   timers (snd r) = timers w /\
   next_handle (snd r) = next_handle w) /\
  (let r := motion_detected cfg e entity_id w in
   service_calls (snd r) = service_calls w /\
   active (snd r) = active w /\
   handles (snd r) = ∅).
Proof.
  intros Hin Hs. apply switch_disables_reads in Hs.
  split.
  - destruct (motion_event_disabled cfg e event entity_id w
                (is_disabled_by cfg e w switch Hin Hs)) as (l & ->).
    repeat split.
  - unfold motion_detected, bind.
    destruct (cancel_scheduled_callbacks_spec w) as (ts & -> & _).
    repeat split.
Qed.

(** *** Which path restarts the timer *)

Lemma bind_ok {A B} (m : M A) (k : A -> M B) w a w' :
  m w = (Ok a, w') -> bind m k w = k a w'.
Proof. intros H. unfold bind. rewrite H. reflexivity. Qed.

Lemma bind_raise {A B} (m : M A) (k : A -> M B) w ex w' :
  m w = (Raise ex, w') -> bind m k w = (Raise ex, w').
Proof. intros H. unfold bind. rewrite H. reflexivity. Qed.




(** *** The illuminance gate *)

Lemma illuminance_blocker_spec e threshold sensors acc :
  match illuminance_blocker e threshold sensors acc with
  | scanned blocker =>
      (forall s, s ∈ sensors -> unreadable e s = false) /\
      blocker = (acc ++ List.filter (reads_at_least e threshold) sensors)%list
  | unparsable s st =>
      s ∈ sensors /\ get_state e s = Some st /\ py_float st = None
  | stateless s => s ∈ sensors /\ get_state e s = None
  end.
Proof.
  revert acc. induction sensors as [|x rest IH]; intros acc; simpl.
  - split; [intros s Hs; inversion Hs | symmetry; apply app_nil_r].
  - unfold reads_at_least at 1.
    destruct (get_state e x) as [st|] eqn:Hst.
    + destruct (py_float st) as [lux|] eqn:Hf.
      * assert (Hx : unreadable e x = false)
          by (unfold unreadable; rewrite Hst, Hf; reflexivity).
        destruct (float_ge lux threshold).
        -- specialize (IH (acc ++ [x])).
           destruct (illuminance_blocker e threshold rest (acc ++ [x]))
             as [b|s0 st0|s0].
           ++ destruct IH as [Hr ->]. split.
              ** intros s Hs. apply elem_of_cons in Hs as [->|Hs]; auto.
              ** rewrite <- app_assoc. reflexivity.
           ++ destruct IH as (Hin & H1 & H2). repeat split; auto.
              apply elem_of_cons; auto.
           ++ destruct IH as (Hin & H1). split; auto.
              apply elem_of_cons; auto.
        -- specialize (IH acc).
           destruct (illuminance_blocker e threshold rest acc)
             as [b|s0 st0|s0].
           ++ destruct IH as [Hr ->]. split; [|reflexivity].
              intros s Hs. apply elem_of_cons in Hs as [->|Hs]; auto.
           ++ destruct IH as (Hin & H1 & H2). repeat split; auto.
              apply elem_of_cons; auto.
           ++ destruct IH as (Hin & H1). split; auto.
              apply elem_of_cons; auto.
      * repeat split; auto. apply elem_of_cons; auto.
    + split; auto. apply elem_of_cons; auto.
Qed.

(** C4.  With an illuminance threshold configured (a number other than 0),
    [lights_on] reads the illuminance sensors.  If one of them reads at or
    above the threshold, or has no state or a state that is not a number,
    no service call is issued and the timers are not touched.  When all
    sensors are readable and some block, the report names exactly the
    blocking sensors; when some sensor is unreadable the report is a
    different one: the "could not parse" line for such a sensor, or the
    [TypeError] of [float(None)], and never the threshold line. *)
Theorem illuminance_gate cfg e w threshold :
  illuminance_threshold cfg = Some threshold ->
  Qeq_bool threshold 0 = false ->
  let sensors := illuminance_sensors cfg in
  let r := lights_on cfg e w in
  ((exists s, s ∈ sensors /\
      (reads_at_least e threshold s = true \/ unreadable e s = true)) ->
   service_calls (snd r) = service_calls w /\
   handles (snd r) = handles w /\
   timers (snd r) = timers w /\
   active (snd r) = active w) /\
  ((forall s, s ∈ sensors -> unreadable e s = false) ->
   (exists s, s ∈ sensors /\ reads_at_least e threshold s = true) ->
   r = (Ok tt,
        with_log
          (log w ++
           [log_bright_enough
              (List.filter (reads_at_least e threshold) sensors)]) w)) /\
  ((exists s, s ∈ sensors /\ unreadable e s = true) ->
   (exists s st,
      s ∈ sensors /\ unreadable e s = true /\
      r = (Ok tt, with_log (log w ++ [log_could_not_parse (Some st) s]) w)) \/
   (exists s,
      s ∈ sensors /\ get_state e s = None /\
      r = (Raise TypeError_float_None, w))).
Proof.
  intros Hthr Hnz sensors r. subst r. unfold lights_on.
  rewrite Hthr. change (default 0%Q (Some threshold)) with threshold.
  cbn [truthy_threshold]. rewrite Hnz. cbn [negb]. fold sensors.
  pose proof (illuminance_blocker_spec e threshold sensors []) as Hspec.
  destruct (illuminance_blocker e threshold sensors []) as [b|s0 st0|s0].
  - destruct Hspec as [Hread Hb]. simpl in Hb.
    assert (Hblocks : forall s, s ∈ sensors ->
              reads_at_least e threshold s = true -> b ≠ []).
    { intros s Hs Hge ->.
      assert (Hin : In s (List.filter (reads_at_least e threshold) sensors)).
      { apply filter_In. split; [apply list_elem_of_In, Hs | exact Hge]. }
      rewrite <- Hb in Hin. exact Hin. }
    split; [|split].
    + intros (s & Hs & [Hge | Hun]).
      * destruct b as [|b0 bl]; [exfalso; eapply Hblocks; eauto|].
        repeat split.
      * rewrite (Hread s Hs) in Hun. discriminate.
    + intros _ (s & Hs & Hge).
      destruct b as [|b0 bl]; [exfalso; eapply Hblocks; eauto|].
      rewrite Hb. reflexivity.
    + intros (s & Hs & Hun). rewrite (Hread s Hs) in Hun. discriminate.
  - destruct Hspec as (Hin & Hst & Hf).
    assert (Hun : unreadable e s0 = true)
      by (unfold unreadable; rewrite Hst, Hf; reflexivity).
    split; [|split].
    + intros _. repeat split.
    + intros Hread. rewrite (Hread s0 Hin) in Hun. discriminate.
    + intros _. left. exists s0, st0. repeat split; auto.
  - destruct Hspec as (Hin & Hst).
    assert (Hun : unreadable e s0 = true)
      by (unfold unreadable; rewrite Hst; reflexivity).
    split; [|split].
    + intros _. repeat split.
    + intros Hread. rewrite (Hread s0 Hin) in Hun. discriminate.
    + intros _. right. exists s0. repeat split; auto.
Qed.

(** *** The humidity gate *)

Lemma cancel_each_exact (hs : list handle) w :
  for_each hs cancel_timer w
    = (Ok tt, with_timers (remaining_timers hs (timers w)) (next_handle w) w).
Proof.
  revert w. induction hs as [|h hs IH]; intros w; simpl.
  - destruct w; reflexivity.
  - unfold bind, cancel_timer at 1, modify. rewrite IH. reflexivity.
Qed.

Lemma cancel_scheduled_callbacks_exact w :
  cancel_scheduled_callbacks w
    = (Ok tt,
       with_handles ∅
         (with_timers (remaining_timers (elements (handles w)) (timers w))
                      (next_handle w) w)).
Proof.
  unfold cancel_scheduled_callbacks, bind, gets, modify.
  rewrite cancel_each_exact. reflexivity.
Qed.

Lemma refresh_timer_exact w :
  refresh_timer w =
    let ts := remaining_timers (elements (handles w)) (timers w) in
    match active w with
    | None =>
        (Raise (KeyError "delay"),
         with_handles ∅ (with_timers ts (next_handle w) w))
    | Some d =>
        if bool_decide (delay d ≠ 0%Z) then
          (Ok {[next_handle w]},
           with_handles {[next_handle w]}
             (with_timers (ts ++ [(next_handle w, delay d)])
                          (S (next_handle w)) w))
        else
          (Ok ∅, with_handles ∅ (with_timers ts (next_handle w) w))
    end.
Proof.
  unfold refresh_timer, bind. rewrite cancel_scheduled_callbacks_exact.
  unfold active_get; cbn [active with_handles with_timers].
  destruct (active w) as [d|]; [|reflexivity].
  destruct (bool_decide (delay d ≠ 0%Z)); cbv zeta.
  - unfold run_in, modify, gets, with_handles; simpl.
    rewrite (right_id_L ∅ (∪)). reflexivity.
  - reflexivity.
Qed.

Lemma for_each_call_service {X} (f : X -> service_call) (l : list X) w :
  for_each l (fun x => call_service (f x)) w
    = (Ok tt, with_service_calls (service_calls w ++ map f l) w).
Proof.
  revert w. induction l as [|x l IH]; intros w; simpl.
  - rewrite app_nil_r. destruct w; reflexivity.
  - unfold bind, call_service at 1, modify. rewrite IH.
    cbn [service_calls with_service_calls]. rewrite <- app_assoc. reflexivity.
Qed.

Lemma humidity_blocker_spec e threshold sensors acc :
  (forall s, s ∈ sensors -> is_Some (get_state e s)) ->
  humidity_blocker e threshold sensors acc
    = Ok (acc ++ List.filter (reads_at_least e threshold) sensors).
Proof.
  revert acc. induction sensors as [|x rest IH]; intros acc Hst; simpl.
  - rewrite app_nil_r. reflexivity.
  - assert (Hrest : forall s, s ∈ rest -> is_Some (get_state e s))
      by (intros s Hs; apply Hst, elem_of_cons; auto).
    destruct (Hst x) as [st Hx]; [apply elem_of_cons; auto|].
    unfold reads_at_least at 1. rewrite Hx.
    destruct (py_float st) as [h|]; [|apply IH, Hrest].
    destruct (float_ge h threshold); [|apply IH, Hrest].
    rewrite IH by exact Hrest. rewrite <- app_assoc. reflexivity.
Qed.

Lemma filter_none {X} (f : X -> bool) (l : list X) :
  (forall x, x ∈ l -> f x = false) -> List.filter f l = [].
Proof.
  induction l as [|x l IH]; intros H; [reflexivity|]. simpl.
  rewrite (H x) by (apply elem_of_cons; auto).
  apply IH. intros y Hy. apply H, elem_of_cons; auto.
Qed.

Lemma unreadable_not_reads e threshold s :
  unreadable e s = true -> reads_at_least e threshold s = false.
Proof.
  unfold unreadable, reads_at_least.
  destruct (get_state e s) as [st|]; [|reflexivity].
  destruct (py_float st); [discriminate | reflexivity].
Qed.

Lemma lights_off_enabled cfg e w :
  fst (is_disabled cfg e w) = Ok false ->
  exists l,
    lights_off cfg e w =
      (let* blocker :=
         (if truthy_threshold (humidity_threshold cfg) then
            lift (humidity_blocker e (default 0%Q (humidity_threshold cfg))
                    (humidity_sensors cfg) [])
          else ret []) in
       match last blocker with
       | Some sensor =>
           refresh_timer >>
           let* d := active_get "delay" delay in
           lg (log_humidity d sensor)
       | None => turn_off_now cfg e
       end) (with_log (log w ++ l) w).
Proof.
  intros Hd. destruct (is_disabled_spec cfg e w) as (l & Hl).
  rewrite Hl in Hd. simpl in Hd. injection Hd as Hd.
  exists l. unfold lights_off. rewrite (bind_ok _ _ _ _ _ Hl), Hd.
  reflexivity.
Qed.

Lemma turn_off_now_exact cfg e w d :
  active w = Some d ->
  turn_off_now cfg e w =
    let w1 :=
      with_handles ∅
        (with_timers (remaining_timers (elements (handles w)) (timers w))
                     (next_handle w) w) in
    if any_light_on cfg e then
      (Ok tt,
       with_log (log w ++ [log_turned_off (delay d)])
         (with_service_calls (service_calls w ++ map turn_off (lights cfg))
            w1))
    else (Ok tt, w1).
Proof.
  intros Ha. unfold turn_off_now.
  rewrite (bind_ok _ _ _ _ _ (cancel_scheduled_callbacks_exact w)). cbv zeta.
  destruct (any_light_on cfg e); [|reflexivity].
  rewrite (bind_ok _ _ _ _ _ (for_each_call_service turn_off _ _)).
  unfold bind, active_get. cbn [active with_service_calls with_handles
    with_timers]. rewrite Ha. reflexivity.
Qed.

Lemma humidity_blocker_stateless e threshold sensors acc s :
  s ∈ sensors ->
  get_state e s = None ->
  humidity_blocker e threshold sensors acc = Raise TypeError_float_None.
Proof.
  intros Hin Hs. revert acc.
  induction sensors as [|x rest IH]; intros acc.
  - apply elem_of_nil in Hin. destruct Hin.
  - simpl. destruct (get_state e x) as [st|] eqn:Ex; [|reflexivity].
    assert (Hrest : s ∈ rest).
    { apply elem_of_cons in Hin as [->|Hin]; [congruence | exact Hin]. }
    destruct (py_float st); [destruct (float_ge _ _)|]; apply IH, Hrest.
Qed.

(** C5.  Let a humidity threshold be configured (a number other than 0),
    no disable switch be in effect and a daytime be active.  A humidity
    sensor without a state is not passed over: [float(None)] raises
    [TypeError], which the [except ValueError] of l. 347 does not catch,
    and [lights_off] ends there, whatever the other sensors read, with
    no service call and with handles and timers as they were: nothing is
    turned off and nothing is re-armed.  When every sensor has a state:
    if some sensor reads a number at or above the threshold,
    [lights_off] returns without a service call and leaves the world as
    [refresh_timer] does (up to a log line), so that for a delay other
    than 0 the one handle is the new timer, set to the active delay, and
    for a delay of 0 no timer is re-armed; a sensor whose state is not a
    number is passed over, and when every sensor is unreadable or below
    the threshold, the timers are cancelled and the lights that are on
    are turned off. *)
Theorem humidity_gate cfg e w threshold d :
  humidity_threshold cfg = Some threshold ->
  Qeq_bool threshold 0 = false ->
  fst (is_disabled cfg e w) = Ok false ->
  active w = Some d ->
  let sensors := humidity_sensors cfg in
  let r := lights_off cfg e w in
  ((exists s, s ∈ sensors /\ get_state e s = None) ->
   fst r = Raise TypeError_float_None /\
   service_calls (snd r) = service_calls w /\
   handles (snd r) = handles w /\
   timers (snd r) = timers w) /\
  ((forall s, s ∈ sensors -> is_Some (get_state e s)) ->
   ((exists s, s ∈ sensors /\ reads_at_least e threshold s = true) ->
    fst r = Ok tt /\
    service_calls (snd r) = service_calls w /\
    snd r = with_log (log (snd r)) (snd (refresh_timer w)) /\
    (delay d ≠ 0%Z ->
     handles (snd r) = {[next_handle w]} /\
     last (timers (snd r)) = Some (next_handle w, delay d)) /\
    (delay d = 0%Z -> handles (snd r) = ∅)) /\
   ((forall s, s ∈ sensors ->
       unreadable e s = true \/ reads_at_least e threshold s = false) ->
    fst r = Ok tt /\
    handles (snd r) = ∅ /\
    service_calls (snd r) =
      service_calls w ++
      (if any_light_on cfg e then map turn_off (lights cfg) else []))).
Proof.
  intros Hthr Hnz Hd Ha sensors r. subst sensors.
  destruct (lights_off_enabled cfg e w Hd) as (l & Hl).
  split.
  { intros (s & Hs & Hnone). subst r. rewrite Hl, Hthr.
    change (default 0%Q (Some threshold)) with threshold.
    cbn [truthy_threshold]. rewrite Hnz. cbn [negb].
    unfold bind at 1, lift.
    rewrite (humidity_blocker_stateless e threshold _ [] s Hs Hnone).
    repeat split. }
  intros Hst.
  assert (Hr : r =
    match last (List.filter (reads_at_least e threshold)
                  (humidity_sensors cfg)) with
    | Some sensor =>
        (refresh_timer >>
         let* d := active_get "delay" delay in
         lg (log_humidity d sensor)) (with_log (log w ++ l) w)
    | None => turn_off_now cfg e (with_log (log w ++ l) w)
    end).
  { subst r. rewrite Hl, Hthr.
    change (default 0%Q (Some threshold)) with threshold.
    cbn [truthy_threshold]. rewrite Hnz. cbn [negb].
    unfold bind at 1, lift. rewrite (humidity_blocker_spec _ _ _ _ Hst).
    cbn [app].
    destruct (last (List.filter (reads_at_least e threshold)
                      (humidity_sensors cfg))); reflexivity. }
  clearbody r. subst r. clear Hl. split.
  - intros (s & Hs & Hge).
    destruct (last (List.filter (reads_at_least e threshold)
                      (humidity_sensors cfg))) as [sensor|] eqn:Hlast.
    2:{ apply last_None in Hlast.
        assert (Hin : In s (List.filter (reads_at_least e threshold)
                              (humidity_sensors cfg)))
          by (apply filter_In; split; [apply list_elem_of_In, Hs | exact Hge]).
        rewrite Hlast in Hin. destruct Hin. }
    unfold bind. rewrite !refresh_timer_exact. cbv zeta.
    cbn [active with_log handles timers next_handle]. rewrite Ha.
    unfold active_get, lg, modify.
    destruct (bool_decide (delay d ≠ 0%Z)) eqn:Hdz;
      cbn [active with_handles with_timers with_log]; rewrite Ha;
      cbn [fst snd service_calls handles timers log with_handles with_timers
           with_log].
    + apply bool_decide_eq_true in Hdz.
      split; [reflexivity|]. split; [reflexivity|]. split; [reflexivity|].
      split; [|intros H0; contradiction].
      intros _. split; [reflexivity | apply last_snoc].
    + apply bool_decide_eq_false in Hdz.
      split; [reflexivity|]. split; [reflexivity|]. split; [reflexivity|].
      split; [intros H0; contradiction | reflexivity].
  - intros Hlow.
    rewrite filter_none.
    2:{ intros s Hs. destruct (Hlow s Hs) as [Hu | Hr]; auto.
        apply unreadable_not_reads, Hu. }
    cbn [last].
    rewrite (turn_off_now_exact cfg e _ d) by exact Ha. cbv zeta.
    destruct (any_light_on cfg e); repeat split.
    cbn [snd service_calls with_handles with_timers with_log].
    rewrite app_nil_r. reflexivity.
Qed.

(** *** Falsy thresholds *)

Lemma optional_sensors_falsy found threshold :
  truthy_threshold threshold = false ->
  truthy_threshold (snd (optional_sensors found threshold)) = false.
Proof.
  intros H. unfold optional_sensors.
  destruct found; cbn [snd]; [rewrite H|]; exact H.
Qed.

Lemma configure_thresholds a e cfg :
  configure a e = Ok cfg ->
  (truthy_threshold (arg_humidity_threshold a) = false ->
   truthy_threshold (humidity_threshold cfg) = false) /\
  (truthy_threshold (arg_illuminance_threshold a) = false ->
   truthy_threshold (illuminance_threshold cfg) = false).
Proof.
  unfold configure. cbv zeta.
  destruct (lights_option _ _ _) as [lights_found|ex0]; [|discriminate].
  match goal with
  | |- match ?l with [] => _ | _ :: _ => _ end = _ -> _ =>
      destruct l as [|l0 ls]; [discriminate|]
  end.
  match goal with
  | |- match ?m with [] => _ | _ :: _ => _ end = _ -> _ =>
      destruct m as [|m0 ms]; [discriminate|]
  end.
  intros [= <-]. cbn [humidity_threshold illuminance_threshold].
  split; apply optional_sensors_falsy.
Qed.

Lemma initialize_configure a e cfg w :
  initialize a e = (Ok cfg, w) -> configure a e = Ok cfg.
Proof.
  unfold initialize. destruct (configure a e) as [c|ex]; [|discriminate].
  unfold bind.
  destruct (for_each _ lg empty_world) as [[[]|ex] w1]; [|discriminate].
  destruct (build_daytimes c e _ w1) as [[ds|ex] w2]; [|discriminate].
  destruct (for_each (motion_sensors c) (listen_sensor c) w2)
    as [[[]|ex] w3]; [|discriminate].
  unfold ret. intros [= <- <-]. reflexivity.
Qed.

(** C10.  A threshold option that is 0 (or absent) is falsy in
    [self.thresholds] after [initialize], and stays so: the callbacks do
    not write that field.  From then on, in every world and whatever the
    sensors read, [lights_on] is exactly its part after the illuminance
    gate, and [lights_off], once past the disable switches, is exactly the
    branch that cancels the timers and turns the lights off. *)
Theorem falsy_threshold_disables_gate a e0 cfg w0 e w :
  initialize a e0 = (Ok cfg, w0) ->
  (truthy_threshold (arg_illuminance_threshold a) = false ->
   truthy_threshold (illuminance_threshold cfg) = false /\
   lights_on cfg e w = lights_on_action cfg e w) /\
  (truthy_threshold (arg_humidity_threshold a) = false ->
   truthy_threshold (humidity_threshold cfg) = false /\
   (fst (is_disabled cfg e w) = Ok false ->
    exists l,
      lights_off cfg e w = turn_off_now cfg e (with_log (log w ++ l) w))).
Proof.
  intros Hi. apply initialize_configure in Hi.
  destruct (configure_thresholds _ _ _ Hi) as [Hh Hl].
  split; intros Hf.
  - specialize (Hl Hf). split; [exact Hl|].
    unfold lights_on. rewrite Hl. reflexivity.
  - specialize (Hh Hf). split; [exact Hh|].
    intros Hd. destruct (lights_off_enabled cfg e w Hd) as (l & ->).
    exists l. rewrite Hh. reflexivity.
Qed.

(** *** Building the daytimes *)

Lemma daytime_is_hue_group_spec raw w :
  daytime_is_hue_group (default DEFAULT_LIGHT_SETTING (raw_light raw)) w =
    if bare_scene raw then (Raise TypeError_async_generator, w)
    else (Ok false, w).
Proof.
  unfold bare_scene, daytime_is_hue_group.
  destruct (raw_light raw) as [[n|s|r]|]; simpl; try reflexivity.
  destruct (String.prefix "scene." s); reflexivity.
Qed.

(** A round that returns has parsed a start time not seen before. *)
Lemma build_daytime_inv cfg e daytimes idx raw S w S' w' :
  build_daytime cfg e daytimes idx raw S w = (Ok S', w') ->
  exists t, parsed_start raw = Some t /\ (t ∉ S) /\ S' = ({[t]} ∪ S).
Proof.
  unfold build_daytime, parsed_start. cbv zeta. unfold bind at 1.
  rewrite daytime_is_hue_group_spec.
  destruct (bare_scene raw); [discriminate|].
  unfold bind at 1.
  destruct (raw_starttime raw) as [s|]; [|discriminate].
  destruct (parse_time (s ++ ":00")) as [t|]; [|discriminate].
  unfold ret at 1. unfold bind at 1.
  destruct (daytimes !! _) as [nr|]; [|discriminate].
  unfold ret at 1. unfold bind at 1.
  destruct (time_fromisoformat _) as [tn|]; [|discriminate].
  unfold ret at 1.
  destruct (bool_decide (t ∈ S)) eqn:Hin; [discriminate|].
  apply bool_decide_eq_false in Hin.
  destruct (now_is_between _ _ _);
    unfold bind, switch_daytime, modify, run_daily, ret; cbv beta iota;
    intros [= <- <-]; exists t; auto.
Qed.

(** What makes a round raise. *)
Lemma build_daytime_raise cfg e daytimes idx raw S w ex w' :
  daytimes ≠ [] ->
  build_daytime cfg e daytimes idx raw S w = (Raise ex, w') ->
  is_ValueError ex = true \/ raw_starttime raw = None \/ bare_scene raw = true.
Proof.
  intros Hne.
  unfold build_daytime. cbv zeta. unfold bind at 1.
  rewrite daytime_is_hue_group_spec.
  destruct (bare_scene raw); [auto|].
  unfold bind at 1.
  destruct (raw_starttime raw) as [s|]; [|auto].
  destruct (parse_time (s ++ ":00")) as [t|];
    [|unfold raise; intros [= <- <-]; auto].
  unfold ret at 1. unfold bind at 1.
  destruct (daytimes !! _) as [nr|] eqn:Hnext.
  2:{ apply lookup_ge_None in Hnext.
      assert (0 < length daytimes)%nat by (destruct daytimes; simpl; [done|lia]).
      pose proof (Nat.mod_upper_bound (idx + 1) (length daytimes)). lia. }
  unfold ret at 1. unfold bind at 1.
  destruct (time_fromisoformat _) as [tn|];
    [|unfold raise; intros [= <- <-]; auto].
  unfold ret at 1.
  destruct (bool_decide (t ∈ S)); [unfold raise; intros [= <- <-]; auto|].
  destruct (now_is_between _ _ _);
    unfold bind, switch_daytime, modify, run_daily, ret; cbv beta iota;
    discriminate.
Qed.

(** A loop that returns has met pairwise different start times, none of
    them in the set it started from. *)
Lemma build_daytimes_loop_ok cfg e daytimes todo :
  forall idx S w w',
    build_daytimes_loop cfg e daytimes idx todo S w = (Ok tt, w') ->
    forall k r t,
      todo !! k = Some r -> parsed_start r = Some t ->
      (t ∉ S) /\
      forall k' r', (k < k')%nat -> todo !! k' = Some r' ->
                    parsed_start r' ≠ Some t.
Proof.
  induction todo as [|raw rest IH]; intros idx S w w' Hok k r t Hk Ht.
  - rewrite lookup_nil in Hk. discriminate.
  - simpl in Hok. unfold bind in Hok.
    destruct (build_daytime cfg e daytimes idx raw S w) as [[S1|ex] w1] eqn:Hb;
      [|discriminate].
    destruct (build_daytime_inv _ _ _ _ _ _ _ _ _ Hb) as (t0 & Ht0 & Hnew & ->).
    destruct k as [|k]; simpl in Hk.
    + injection Hk as <-. rewrite Ht0 in Ht. injection Ht as <-.
      split; [exact Hnew|].
      intros k' r' Hlt Hk' Hr'. destruct k' as [|k']; [lia|]. simpl in Hk'.
      destruct (IH _ _ _ _ Hok k' r' t0 Hk' Hr') as [Hout _].
      apply Hout, elem_of_union. left. apply elem_of_singleton. reflexivity.
    + destruct (IH _ _ _ _ Hok k r t Hk Ht) as [Hout Hlater].
      split; [intros Hin; apply Hout, elem_of_union; right; exact Hin|].
      intros k' r' Hlt Hk'. destruct k' as [|k']; [lia|]. simpl in Hk'.
      apply (Hlater k' r'); [lia | exact Hk'].
Qed.

Lemma build_daytimes_loop_raise cfg e daytimes todo :
  daytimes ≠ [] ->
  forall idx S w ex w',
    build_daytimes_loop cfg e daytimes idx todo S w = (Raise ex, w') ->
    is_ValueError ex = true \/
    exists r, r ∈ todo /\ (raw_starttime r = None \/ bare_scene r = true).
Proof.
  intros Hne. induction todo as [|raw rest IH]; intros idx S w ex w' Hr.
  - discriminate.
  - simpl in Hr. unfold bind in Hr.
    destruct (build_daytime cfg e daytimes idx raw S w) as [[S1|ex1] w1] eqn:Hb.
    + destruct (IH _ _ _ _ _ Hr) as [Hv | (r & Hin & Hbad)]; [auto|].
      right. exists r. split; [apply elem_of_cons; auto | exact Hbad].
    + injection Hr as <- <-.
      destruct (build_daytime_raise _ _ _ _ _ _ _ _ _ Hne Hb) as [Hv | Hbad];
        [auto|].
      right. exists raw. split; [apply elem_of_cons; auto | exact Hbad].
Qed.

(** C6.  When two entries of [daytimes] carry start times that parse to the
    same time, [build_daytimes] raises: no schedule is returned, and an
    [initialize] given these daytimes does not return either.  The
    exception is a [ValueError] whenever every entry has a start time and
    no light setting is a string outside ["scene."]. *)
Theorem duplicate_start_time_fails cfg e daytimes w i j ri rj t :
  (i < j)%nat ->
  daytimes !! i = Some ri ->
  daytimes !! j = Some rj ->
  parsed_start ri = Some t ->
  parsed_start rj = Some t ->
  (exists ex w',
     build_daytimes cfg e daytimes w = (Raise ex, w') /\
     ((forall r, r ∈ daytimes ->
         is_Some (raw_starttime r) /\ bare_scene r = false) ->
      is_ValueError ex = true)) /\
  (forall a e0,
     arg_daytimes a = Some daytimes -> is_ok (initialize a e0) = false).
Proof.
  intros Hlt Hi Hj Hti Htj.
  assert (Hne : daytimes ≠ []) by (intros ->; rewrite lookup_nil in Hi; done).
  assert (Hfail : forall c e1 w1,
            exists ex w', build_daytimes c e1 daytimes w1 = (Raise ex, w') /\
              build_daytimes_loop c e1 daytimes 0 daytimes ∅ w1 = (Raise ex, w')).
  { intros c e1 w1. unfold build_daytimes, bind.
    destruct (build_daytimes_loop c e1 daytimes 0 daytimes ∅ w1)
      as [[[]|ex] w'] eqn:Hloop; [|eauto].
    exfalso.
    destruct (build_daytimes_loop_ok _ _ _ _ _ _ _ _ Hloop i ri t Hi Hti)
      as [_ Hlater].
    exact (Hlater j rj Hlt Hj Htj). }
  split.
  - destruct (Hfail cfg e w) as (ex & w' & Hb & Hloop).
    exists ex, w'. split; [exact Hb|]. intros Hwf.
    destruct (build_daytimes_loop_raise _ _ _ _ Hne _ _ _ _ _ Hloop)
      as [Hv | (r & Hin & Hbad)]; [exact Hv|].
    destruct (Hwf r Hin) as [[s Hs] Hbare].
    destruct Hbad as [Hnone | Hb']; congruence.
  - intros a e0 Ha. unfold initialize, is_ok.
    destruct (configure a e0) as [c|ex]; [|reflexivity].
    rewrite Ha. cbn [default from_option id].
    unfold bind at 1.
    destruct (for_each _ lg empty_world) as [[[]|ex] w1]; [|reflexivity].
    unfold bind at 1.
    destruct (Hfail c e0 w1) as (ex & w' & -> & _). reflexivity.
Qed.

(** The part of C7 the code delivers: a start time that is present and
    that [parse_time] rejects raises the [ValueError] of l. 401, which
    carries the name of the daytime. *)
Lemma unparsable_starttime_names_daytime cfg e daytimes idx raw seen w s :
  bare_scene raw = false ->
  raw_starttime raw = Some s ->
  parse_time (s ++ ":00")%string = None ->
  build_daytime cfg e daytimes idx raw seen w =
    (Raise (ValueError_missing_start
              (default (DEFAULT_NAME ++ "_" ++ pretty idx)%string
                       (raw_name raw))), w).
Proof.
  intros Hbare Hs Hp. unfold build_daytime. cbv zeta. unfold bind at 1.
  rewrite daytime_is_hue_group_spec, Hbare.
  unfold bind at 1. rewrite Hs, Hp. reflexivity.
Qed.

(** C7 at the failing input.  A single daytime without a ["starttime"]
    key: the concatenation [None + ":00"] raises [TypeError] inside the
    [try] block, which only catches [ValueError]; the message of l. 401 that
    would name the daytime is never produced. *)
Theorem missing_starttime_raises_TypeError cfg e w :
  build_daytimes cfg e
    [ {| raw_starttime := None; raw_name := Some "morning";
         raw_light := Some (LInt 25); raw_delay := None |} ] w
  = (Raise TypeError_concat_None, w).
Proof. reflexivity. Qed.

(** *** The daytime that is active now *)

Lemma now_is_between_spec s en n :
  valid_time s -> valid_time en -> valid_time n ->
  now_is_between s en n = true <->
  ((en < s)%Z /\ ((n < en)%Z \/ (s <= n)%Z)) \/
  ((s <= en)%Z /\ (s <= n <= en)%Z).
Proof.
  unfold valid_time, now_is_between. intros Hs He Hn.
  destruct (Z.ltb_spec en s).
  - destruct (Z.ltb_spec n s); destruct (Z.ltb_spec n en); cbn [andb];
      rewrite andb_true_iff, !Z.leb_le; lia.
  - rewrite andb_true_iff, !Z.leb_le. lia.
Qed.

Lemma half_open_contains_spec s en n :
  half_open_contains s en n = true <->
  ((s < en)%Z /\ (s <= n < en)%Z) \/
  ((en <= s)%Z /\ ((s <= n)%Z \/ (n < en)%Z)).
Proof.
  unfold half_open_contains. destruct (Z.ltb_spec s en).
  - rewrite andb_true_iff, Z.leb_le, Z.ltb_lt. lia.
  - rewrite orb_true_iff, Z.leb_le, Z.ltb_lt. lia.
Qed.

Lemma sorted_lookup (times : list time) :
  StronglySorted Z.lt times ->
  forall a b ta tb,
    (a < b)%nat -> times !! a = Some ta -> times !! b = Some tb -> (ta < tb)%Z.
Proof.
  induction 1 as [|x l Hs IH Hall]; intros a b ta tb Hlt Ha Hb.
  - rewrite lookup_nil in Ha. discriminate.
  - destruct b as [|b]; [lia|]. simpl in Hb.
    destruct a as [|a]; simpl in Ha.
    + injection Ha as <-. rewrite Forall_forall in Hall.
      apply Hall. eapply list_elem_of_lookup_2, Hb.
    + apply (IH a b); [lia | exact Ha | exact Hb].
Qed.

(** In an increasing list the times up to [now] are an initial segment:
    [c] of them. *)
Lemma sorted_split (times : list time) (n : time) :
  StronglySorted Z.lt times ->
  exists c, (c <= length times)%nat /\
    forall k tk, times !! k = Some tk -> ((k < c)%nat <-> (tk <= n)%Z).
Proof.
  induction 1 as [|x l Hs IH Hall].
  - exists 0%nat. split; [simpl; lia|]. intros k tk Hk.
    rewrite lookup_nil in Hk. discriminate.
  - destruct (Z.le_gt_cases x n) as [Hle | Hgt].
    + destruct IH as (c & Hc & Hsplit). exists (S c). split; [simpl; lia|].
      intros [|k] tk Hk; simpl in Hk.
      * injection Hk as <-. split; [intros _; exact Hle | lia].
      * rewrite <- (Hsplit k tk Hk). lia.
    + exists 0%nat. split; [lia|]. intros [|k] tk Hk; simpl in Hk.
      * injection Hk as <-. lia.
      * rewrite Forall_forall in Hall.
        assert (x < tk)%Z.
        { apply Hall. eapply list_elem_of_lookup_2, Hk. }
        lia.
Qed.

Lemma next_index (n j : nat) :
  (j < n)%nat ->
  ((j + 1) mod n)%nat = if decide (j + 1 = n)%nat then 0%nat else (j + 1)%nat.
Proof.
  intros Hj. destruct (decide (j + 1 = n)%nat) as [->|Hne].
  - apply Nat.Div0.mod_same.
  - apply Nat.mod_small. lia.
Qed.

(** Among at least two increasing start times exactly one half-open
    interval holds [now]; its entry passes the test of l. 422 and no later
    entry does. *)
Lemma active_index (times : list time) (n : time) :
  (2 <= length times)%nat ->
  StronglySorted Z.lt times ->
  Forall valid_time times ->
  valid_time n ->
  exists i t tn,
    times !! i = Some t /\
    times !! ((i + 1) mod length times)%nat = Some tn /\
    half_open_contains t tn n = true /\
    (forall j tj nj,
       times !! j = Some tj ->
       times !! ((j + 1) mod length times)%nat = Some nj ->
       half_open_contains tj nj n = true -> j = i) /\
    trigger_active times n i = true /\
    (forall j, (i < j < length times)%nat -> trigger_active times n j = false).
Proof.
  intros Hlen Hsorted Hvalid Hn.
  pose proof (sorted_lookup times Hsorted) as Hord.
  destruct (sorted_split times n Hsorted) as (c & Hc & Hsplit).
  rewrite Forall_lookup in Hvalid.
  set (len := length times) in *.
  set (i := if decide (c = 0)%nat then (len - 1)%nat else (c - 1)%nat).
  assert (Hi : (i < len)%nat) by (subst i; destruct (decide (c = 0)%nat); lia).
  destruct (lookup_lt_is_Some_2 times i Hi) as [t Ht].
  assert (Hnext : ((i + 1) mod len < len)%nat)
    by (apply Nat.mod_upper_bound; lia).
  destruct (lookup_lt_is_Some_2 times _ Hnext) as [tn Htn].
  destruct (lookup_lt_is_Some_2 times 0%nat ltac:(lia)) as [t0 Ht0].
  assert (Hfacts : forall j tj nj,
            times !! j = Some tj ->
            times !! ((j + 1) mod len)%nat = Some nj ->
            (j < len)%nat /\ valid_time tj /\ valid_time nj /\
            ((j < c)%nat <-> (tj <= n)%Z) /\
            (((j + 1)%nat = len /\ nj = t0 /\ (nj < tj)%Z /\
              ((0 < c)%nat <-> (nj <= n)%Z)) \/
             ((j + 1 < len)%nat /\ (tj < nj)%Z /\
              ((j + 1 < c)%nat <-> (nj <= n)%Z)))).
  { intros j tj nj Hj Hnj.
    assert (Hjl : (j < len)%nat) by (eapply lookup_lt_Some, Hj).
    split; [exact Hjl|]. split; [eapply Hvalid, Hj|].
    split; [eapply Hvalid, Hnj|]. split; [apply Hsplit, Hj|].
    rewrite (next_index len j Hjl) in Hnj.
    destruct (decide (j + 1 = len)%nat) as [Hw|Hw].
    - left. rewrite Ht0 in Hnj. injection Hnj as <-.
      split; [exact Hw|]. split; [reflexivity|].
      split; [apply (Hord 0%nat j); [lia | exact Ht0 | exact Hj]|].
      apply (Hsplit 0%nat t0 Ht0).
    - right. split; [lia|].
      split; [apply (Hord j (j + 1)%nat); [lia | exact Hj | exact Hnj]|].
      apply (Hsplit _ _ Hnj). }
  assert (Htrig : forall j tj nj,
            times !! j = Some tj ->
            times !! ((j + 1) mod len)%nat = Some nj ->
            trigger_active times n j = now_is_between tj nj n).
  { intros j tj nj Hj Hnj. unfold trigger_active. fold len.
    rewrite Hj, Hnj. reflexivity. }
  exists i, t, tn. split; [exact Ht|]. split; [exact Htn|].
  destruct (Hfacts i t tn Ht Htn) as (_ & Hvt & Hvtn & Hit & Hin).
  split; [|split; [|split]].
  - apply half_open_contains_spec. subst i.
    destruct (decide (c = 0)%nat); lia.
  - intros j tj nj Hj Hnj Hho. apply half_open_contains_spec in Hho.
    destruct (Hfacts j tj nj Hj Hnj) as (Hjl & _ & _ & Hjt & Hjn).
    subst i. destruct (decide (c = 0)%nat); lia.
  - rewrite (Htrig i t tn Ht Htn).
    apply now_is_between_spec; [exact Hvt | exact Hvtn | exact Hn|].
    subst i. destruct (decide (c = 0)%nat); lia.
  - intros j Hj.
    destruct (lookup_lt_is_Some_2 times j ltac:(lia)) as [tj Htj].
    assert (Hjn : ((j + 1) mod len < len)%nat)
      by (apply Nat.mod_upper_bound; lia).
    destruct (lookup_lt_is_Some_2 times _ Hjn) as [nj Hnj].
    rewrite (Htrig j tj nj Htj Hnj).
    destruct (Hfacts j tj nj Htj Hnj) as (_ & Hvj & Hvnj & Hjt & Hjnx).
    apply not_true_iff_false. intros Hb.
    apply now_is_between_spec in Hb; [|exact Hvj | exact Hvnj | exact Hn].
    subst i. destruct (decide (c = 0)%nat); lia.
Qed.

Lemma build_daytime_wf cfg e daytimes idx raw S w t nr tn :
  parsed_start raw = Some t ->
  bare_scene raw = false ->
  daytimes !! ((idx + 1) mod length daytimes)%nat = Some nr ->
  time_fromisoformat (py_str (raw_starttime nr)) = Some tn ->
  t ∉ S ->
  build_daytime cfg e daytimes idx raw S w =
    (Ok ({[t]} ∪ S),
     let dt := daytime_of cfg idx raw t in
     let w1 :=
       if now_is_between t tn (now e)
       then with_active_daytime (Some (daytime dt)) (with_active (Some dt) w)
       else w in
     with_daily (daily w1 ++ [(t, dt)]) w1).
Proof.
  unfold parsed_start. intros Ht Hbare Hnr Htn Hnew.
  unfold build_daytime. cbv zeta. unfold bind at 1.
  rewrite daytime_is_hue_group_spec, Hbare.
  destruct (raw_starttime raw) as [s|]; [|discriminate].
  unfold bind at 1. rewrite Ht. unfold ret at 1.
  unfold bind at 1. rewrite Hnr. unfold ret at 1.
  unfold bind at 1. rewrite Htn. unfold ret at 1.
  rewrite bool_decide_eq_false_2 by exact Hnew.
  unfold daytime_of.
  destruct (now_is_between t tn (now e)); reflexivity.
Qed.

Lemma build_daytimes_loop_wf cfg e daytimes times :
  Forall2 well_formed daytimes times ->
  StronglySorted Z.lt times ->
  forall todo idx seen w,
    drop idx daytimes = todo ->
    (forall t, t ∈ seen -> exists k, (k < idx)%nat /\ times !! k = Some t) ->
    exists w',
      build_daytimes_loop cfg e daytimes idx todo seen w = (Ok tt, w') /\
      ((forall j, (idx <= j < length times)%nat ->
                  trigger_active times (now e) j = false) ->
       active w' = active w) /\
      (forall i raw t,
         (idx <= i)%nat -> daytimes !! i = Some raw -> times !! i = Some t ->
         trigger_active times (now e) i = true ->
         (forall j, (i < j < length times)%nat ->
                    trigger_active times (now e) j = false) ->
         active w' = Some (daytime_of cfg i raw t)).
Proof.
  intros Hwf Hsorted.
  pose proof (Forall2_length _ _ _ Hwf) as Hlen.
  induction todo as [|raw rest IH]; intros idx seen w Hdrop HS.
  - exists w. split; [reflexivity|]. split; [reflexivity|].
    intros i raw t Hi Hraw. exfalso.
    apply drop_nil_inv in Hdrop.
    apply lookup_lt_Some in Hraw. lia.
  - assert (Hidx : daytimes !! idx = Some raw).
    { rewrite <- (Nat.add_0_r idx), <- lookup_drop, Hdrop. reflexivity. }
    assert (Hrest : drop (S idx) daytimes = rest).
    { rewrite (drop_S _ _ _ Hidx) in Hdrop. injection Hdrop as ->.
      reflexivity. }
    destruct (Forall2_lookup_l _ _ _ _ _ Hwf Hidx)
      as (t & Ht & Hpt & _ & Hbare & _).
    assert (Hnx : ((idx + 1) mod length daytimes < length daytimes)%nat).
    { apply Nat.mod_upper_bound. apply lookup_lt_Some in Hidx. lia. }
    destruct (lookup_lt_is_Some_2 _ _ Hnx) as [nr Hnr].
    destruct (Forall2_lookup_l _ _ _ _ _ Hwf Hnr)
      as (tn & Htn & _ & Hiso & _ & _).
    assert (Hnew : t ∉ seen).
    { intros Hin. destruct (HS t Hin) as (k & Hk & Hkt).
      pose proof (sorted_lookup times Hsorted k idx t t Hk Hkt Ht). lia. }
    assert (Htrig : trigger_active times (now e) idx
                    = now_is_between t tn (now e)).
    { unfold trigger_active. rewrite <- Hlen, Ht, Htn. reflexivity. }
    simpl. unfold bind at 1.
    rewrite (build_daytime_wf cfg e daytimes idx raw seen w t nr tn
               Hpt Hbare Hnr Hiso Hnew). cbv zeta.
    match goal with
    | |- context [build_daytimes_loop _ _ _ _ _ ?S1 ?w1] =>
        destruct (IH (S idx) S1 w1 Hrest) as (w' & Hloop & Hnone & Hat)
    end.
    { intros t' Ht'. apply elem_of_union in Ht' as [Ht' | Ht'].
      - apply elem_of_singleton in Ht' as ->. exists idx. split; [lia | exact Ht].
      - destruct (HS t' Ht') as (k & Hk & Hkt). exists k. split; [lia | exact Hkt]. }
    exists w'. split; [exact Hloop|]. split.
    + intros Hall. rewrite Hnone by (intros j Hj; apply Hall; lia).
      assert (Hf : now_is_between t tn (now e) = false).
      { rewrite <- Htrig. apply Hall. apply lookup_lt_Some in Ht. lia. }
      rewrite Hf. reflexivity.
    + intros i raw' t' Hi Hraw' Ht' Hact Hlater.
      destruct (decide (i = idx)) as [->|Hne].
      * rewrite Hnone by (intros j Hj; apply Hlater; lia).
        rewrite Htrig in Hact. rewrite Hact.
        rewrite Hidx in Hraw'. injection Hraw' as <-.
        rewrite Ht in Ht'. injection Ht' as <-. reflexivity.
      * apply Hat; auto. lia.
Qed.

Lemma listen_sensor_active cfg sensor w :
  active (snd (listen_sensor cfg sensor w)) = active w.
Proof.
  unfold listen_sensor, bind.
  assert (Hl : forall m : M unit,
            (forall w0, active (snd (m w0)) = active w0 /\ fst (m w0) = Ok tt) ->
            active (snd (let (o, w') := m w in
                         match o with
                         | Ok _ =>
                             let (o0, w'0) := refresh_timer w' in
                             match o0 with
                             | Ok _ => ret tt w'0
                             | Raise ex => (Raise ex, w'0)
                             end
                         | Raise ex => (Raise ex, w')
                         end)) = active w).
  { intros m Hm. destruct (Hm w) as [Ha Hok].
    destruct (m w) as [[[]|ex] w1]; simpl in *; [|discriminate].
    pose proof (refresh_timer_active w1) as Hr.
    destruct (refresh_timer w1) as [[hs|ex] w2]; simpl in *; congruence. }
  apply Hl. intros w0.
  destruct (negb _); [split; reflexivity|].
  destruct (_ && _); split; reflexivity.
Qed.

(** C8, as amended.  For a schedule of at least two entries, listed by
    increasing start time and each well formed, and every time of day
    [now]: exactly one entry's half-open interval
    [[start_i, start_((i+1) mod n))] holds [now] (the last entry's runs
    past midnight), [build_daytimes] returns, and it has made that entry
    the active daytime by the time it returns; an [initialize] given this
    schedule that returns has that entry as its active daytime. *)
Theorem active_entry_installed cfg e daytimes times w :
  (2 <= length daytimes)%nat ->
  Forall2 well_formed daytimes times ->
  StronglySorted Z.lt times ->
  valid_time (now e) ->
  exists i raw t tn,
    daytimes !! i = Some raw /\
    times !! i = Some t /\
    times !! ((i + 1) mod length times)%nat = Some tn /\
    half_open_contains t tn (now e) = true /\
    (forall j tj nj,
       times !! j = Some tj ->
       times !! ((j + 1) mod length times)%nat = Some nj ->
       half_open_contains tj nj (now e) = true -> j = i) /\
    (exists w',
       build_daytimes cfg e daytimes w = (Ok daytimes, w') /\
       active w' = Some (daytime_of cfg i raw t)) /\
    (forall a cfg0 w0,
       arg_daytimes a = Some daytimes ->
       initialize a e = (Ok cfg0, w0) ->
       active w0 = Some (daytime_of cfg0 i raw t)).
Proof.
  intros Hlen Hwf Hsorted Hnow.
  pose proof (Forall2_length _ _ _ Hwf) as Hl.
  assert (Hvalid : Forall valid_time times).
  { apply Forall_lookup. intros k tk Hk.
    destruct (Forall2_lookup_r _ _ _ _ _ Hwf Hk) as (r & _ & _ & _ & _ & Hv).
    exact Hv. }
  destruct (active_index times (now e) ltac:(lia) Hsorted Hvalid Hnow)
    as (i & t & tn & Ht & Htn & Hho & Huniq & Hact & Hlater).
  assert (Hi : (i < length daytimes)%nat)
    by (rewrite Hl; eapply lookup_lt_Some, Ht).
  destruct (lookup_lt_is_Some_2 _ _ Hi) as [raw Hraw].
  exists i, raw, t, tn. repeat (split; [assumption|]).
  assert (Hbuild : forall c w1,
            exists w', build_daytimes c e daytimes w1 = (Ok daytimes, w') /\
                       active w' = Some (daytime_of c i raw t)).
  { intros c w1.
    destruct (build_daytimes_loop_wf c e daytimes times Hwf Hsorted
                daytimes 0%nat ∅ w1 (drop_0 _)) as (w' & Hloop & _ & Hat).
    { intros t' Ht'. apply not_elem_of_empty in Ht'. destruct Ht'. }
    exists w'. split.
    - unfold build_daytimes. rewrite (bind_ok _ _ _ _ _ Hloop). reflexivity.
    - apply (Hat i raw t); auto. lia. }
  split; [apply Hbuild|].
  intros a cfg0 w0 Ha. unfold initialize.
  destruct (configure a e) as [c|ex]; [|discriminate].
  rewrite Ha. cbn [default from_option id].
  unfold bind at 1.
  destruct (for_each _ lg empty_world) as [[[]|ex] w1]; [|discriminate].
  unfold bind at 1.
  destruct (Hbuild c w1) as (w2 & -> & Hactive).
  unfold bind at 1.
  pose proof (preserves_for_each
                (fun w => active w = Some (daytime_of c i raw t))
                (motion_sensors c) (listen_sensor c)) as Hkeep.
  specialize (Hkeep ltac:(intros x w' Hw'; rewrite listen_sensor_active;
                          exact Hw') w2 Hactive).
  destruct (for_each (motion_sensors c) (listen_sensor c) w2)
    as [[[]|ex] w3]; [|discriminate].
  unfold ret. intros [= <- <-]. exact Hkeep.
Qed.

(** *** Light settings of another type *)

Lemma build_daytime_outcome cfg e daytimes idx raw seen w :
  fst (build_daytime cfg e daytimes idx raw seen w)
    = round_outcome daytimes idx raw seen.
Proof.
  unfold build_daytime, round_outcome. cbv zeta. unfold bind at 1.
  rewrite daytime_is_hue_group_spec.
  destruct (bare_scene raw); [reflexivity|].
  unfold bind at 1.
  destruct (raw_starttime raw) as [s|]; [|reflexivity].
  destruct (parse_time (s ++ ":00")) as [t|]; [|reflexivity].
  unfold ret at 1. unfold bind at 1.
  destruct (daytimes !! _) as [nr|]; [|reflexivity].
  unfold ret at 1. unfold bind at 1.
  destruct (time_fromisoformat _) as [tn|]; [|reflexivity].
  unfold ret at 1.
  destruct (bool_decide (t ∈ seen)); [reflexivity|].
  destruct (now_is_between _ _ _); reflexivity.
Qed.

Lemma build_daytimes_loop_outcome cfg e daytimes todo :
  forall idx seen w,
    fst (build_daytimes_loop cfg e daytimes idx todo seen w)
      = loop_outcome daytimes idx todo seen.
Proof.
  induction todo as [|raw rest IH]; intros idx seen w; [reflexivity|].
  simpl. unfold bind.
  pose proof (build_daytime_outcome cfg e daytimes idx raw seen w) as Hr.
  destruct (build_daytime cfg e daytimes idx raw seen w) as [[seen'|ex] w1];
    simpl in Hr; rewrite <- Hr; [apply IH | reflexivity].
Qed.

Lemma with_valid_light_fields raw :
  raw_starttime (with_valid_light raw) = raw_starttime raw /\
  raw_name (with_valid_light raw) = raw_name raw /\
  bare_scene (with_valid_light raw) = bare_scene raw.
Proof.
  unfold with_valid_light, bare_scene.
  destruct (raw_light raw) as [[n|s|r]|] eqn:E; cbn; rewrite ?E; auto.
Qed.

Lemma round_outcome_valid_light daytimes idx raw seen :
  round_outcome (map with_valid_light daytimes) idx (with_valid_light raw) seen
    = round_outcome daytimes idx raw seen.
Proof.
  unfold round_outcome.
  destruct (with_valid_light_fields raw) as (-> & -> & ->).
  rewrite length_map, list_lookup_fmap.
  destruct (daytimes !! _) as [nr|]; simpl; [|reflexivity].
  destruct (with_valid_light_fields nr) as (-> & _ & _). reflexivity.
Qed.

Lemma loop_outcome_valid_light daytimes todo :
  forall idx seen,
    loop_outcome (map with_valid_light daytimes) idx
      (map with_valid_light todo) seen
    = loop_outcome daytimes idx todo seen.
Proof.
  induction todo as [|raw rest IH]; intros idx seen; [reflexivity|].
  simpl. rewrite round_outcome_valid_light.
  destruct (round_outcome daytimes idx raw seen); [apply IH | reflexivity].
Qed.

Lemma build_daytimes_is_ok cfg e daytimes w :
  is_ok (build_daytimes cfg e daytimes w)
    = match loop_outcome daytimes 0 daytimes ∅ with
      | Ok _ => true
      | Raise _ => false
      end.
Proof.
  unfold build_daytimes, is_ok, bind.
  rewrite <- (build_daytimes_loop_outcome cfg e daytimes daytimes 0%nat ∅ w).
  destruct (build_daytimes_loop cfg e daytimes 0 daytimes ∅ w) as [[[]|ex] w1];
    reflexivity.
Qed.

(** C9, as amended.  A light setting that is neither an [int] nor a [str]
    is not looked at when the daytimes are built: [build_daytimes] returns
    or raises exactly as it does with a valid setting in its place.  The
    setting is rejected when the lights are to be turned on while its
    daytime is active: [lights_on], once past the illuminance gate, raises
    the [ValueError] of l. 332 and has issued no service call. *)
Theorem invalid_light_checked_on_turn_on cfg e daytimes w w2 d r :
  active w2 = Some d ->
  light_setting d = LOther r ->
  is_ok (build_daytimes cfg e daytimes w)
    = is_ok (build_daytimes cfg e (map with_valid_light daytimes) w) /\
  lights_on_action cfg e w2
    = (Raise (ValueError_invalid_light (LOther r) (room cfg)), w2) /\
  (truthy_threshold (illuminance_threshold cfg) = false ->
   lights_on cfg e w2
     = (Raise (ValueError_invalid_light (LOther r) (room cfg)), w2)).
Proof.
  intros Ha Hl. split; [|split].
  - rewrite !build_daytimes_is_ok, loop_outcome_valid_light. reflexivity.
  - unfold lights_on_action, bind, active_get. rewrite Ha, Hl. reflexivity.
  - intros Hf. unfold lights_on. rewrite Hf.
    unfold lights_on_action, bind, active_get. rewrite Ha, Hl. reflexivity.
Qed.

(** ** Further properties of the callbacks *)

(** *** The host's timers and the handle set *)

Lemma remaining_timers_agree w :
  timers_agree w ->
  remaining_timers (elements (handles w)) (timers w) = [].
Proof.
  intros [[-> ->] | (h & d & -> & ->)].
  - rewrite elements_empty. reflexivity.
  - rewrite elements_singleton. simpl. rewrite Nat.eqb_refl. reflexivity.
Qed.

Lemma cancel_scheduled_callbacks_agree :
  preserves timers_agree cancel_scheduled_callbacks.
Proof.
  intros w H. rewrite cancel_scheduled_callbacks_exact.
  rewrite (remaining_timers_agree w H). left. split; reflexivity.
Qed.

Lemma refresh_timer_agree : preserves timers_agree refresh_timer.
Proof.
  intros w H. rewrite refresh_timer_exact. cbv zeta.
  rewrite (remaining_timers_agree w H).
  destruct (active w) as [d|]; [destruct (bool_decide _)|].
  - right. exists (next_handle w), (delay d). split; reflexivity.
  - left. split; reflexivity.
  - left. split; reflexivity.
Qed.

(** What [build_daytimes] and [initialize] keep: any property of the world
    that does not depend on the active daytime, the daily triggers, the
    listeners and the log, and that [refresh_timer] keeps. *)
Section Startup.

Variable P : world -> Prop.
Hypothesis P_log : forall l w, P w -> P (with_log l w).
Hypothesis P_active : forall a w, P w -> P (with_active a w).
Hypothesis P_active_daytime : forall n w, P w -> P (with_active_daytime n w).
Hypothesis P_daily : forall d w, P w -> P (with_daily d w).
Hypothesis P_listeners : forall l w, P w -> P (with_listeners l w).
Hypothesis P_refresh : preserves P refresh_timer.

Lemma startup_build_daytime cfg e daytimes idx raw seen :
  preserves P (build_daytime cfg e daytimes idx raw seen).
Proof.
  unfold build_daytime. cbv zeta.
  apply preserves_bind.
  { unfold daytime_is_hue_group.
    destruct (default DEFAULT_LIGHT_SETTING (raw_light raw)) as [n|s|r];
      try apply preserves_ret.
    apply preserves_if; [apply preserves_raise | apply preserves_ret]. }
  intros hue. apply preserves_bind.
  { destruct (raw_starttime raw) as [s|]; [|apply preserves_raise].
    destruct (parse_time _); [apply preserves_ret | apply preserves_raise]. }
  intros t. apply preserves_bind.
  { destruct (daytimes !! _); [apply preserves_ret | apply preserves_raise]. }
  intros nr. apply preserves_bind.
  { destruct (time_fromisoformat _);
      [apply preserves_ret | apply preserves_raise]. }
  intros tn. apply preserves_if; [apply preserves_raise|].
  apply preserves_bind.
  { apply preserves_if; [|apply preserves_ret].
    apply preserves_bind.
    - unfold switch_daytime. apply preserves_bind.
      + apply preserves_modify. intros w H. apply P_active, H.
      + intros _. apply preserves_ret.
    - intros _. apply preserves_modify. intros w H.
      apply P_active_daytime, H. }
  intros _. apply preserves_bind.
  { apply preserves_modify. intros w H. apply P_daily, H. }
  intros _. apply preserves_ret.
Qed.

Lemma startup_build_daytimes cfg e daytimes :
  preserves P (build_daytimes cfg e daytimes).
Proof.
  unfold build_daytimes. apply preserves_bind; [|intros; apply preserves_ret].
  generalize 0%nat (∅ : gset Z). generalize daytimes at 2.
  intros todo. induction todo as [|raw rest IH]; intros idx seen; simpl.
  - apply preserves_ret.
  - apply preserves_bind; [apply startup_build_daytime | intros s; apply IH].
Qed.

Lemma startup_listen_sensor cfg sensor : preserves P (listen_sensor cfg sensor).
Proof.
  assert (Hl : forall l, preserves P (listen l)).
  { intros l. apply preserves_modify. intros w H. apply P_listeners, H. }
  unfold listen_sensor. apply preserves_bind.
  - apply preserves_if; [apply Hl|].
    apply preserves_if; [|apply preserves_ret].
    apply preserves_bind; [apply Hl | intros _; apply Hl].
  - intros _. apply preserves_bind; [apply P_refresh|].
    intros; apply preserves_ret.
Qed.

Lemma startup_initialize a e : P empty_world -> P (snd (initialize a e)).
Proof.
  intros H0. unfold initialize.
  destruct (configure a e) as [cfg|ex]; [|exact H0].
  revert H0. generalize empty_world.
  apply preserves_bind.
  - apply preserves_for_each. intros x. apply preserves_modify.
    intros w H. apply P_log, H.
  - intros _. apply preserves_bind; [apply startup_build_daytimes|].
    intros _. apply preserves_bind; [|intros; apply preserves_ret].
    apply preserves_for_each. intros x. apply startup_listen_sensor.
Qed.

End Startup.

Lemma run_callbacks_agree cfg trace w :
  timers_agree w -> timers_agree (run_callbacks cfg trace w).
Proof.
  pose proof cancel_scheduled_callbacks_agree as Hc.
  pose proof refresh_timer_agree as Hr.
  assert (Hl : forall l w0, timers_agree w0 -> timers_agree (with_log l w0))
    by auto.
  assert (Hs : forall c w0,
            timers_agree w0 -> timers_agree (with_service_calls c w0)) by auto.
  revert w. induction trace as [|[e c] trace IH]; intros w H; simpl; [exact H|].
  apply IH. revert w H. fold (preserves timers_agree (run_callback cfg e c)).
  destruct c; simpl.
  - apply frame_motion_event; assumption.
  - apply frame_motion_detected; assumption.
  - apply frame_motion_cleared; assumption.
  - apply preserves_bind; [exact Hr | intros; apply preserves_ret].
  - apply frame_lights_off; assumption.
  - apply preserves_bind.
    + apply preserves_modify. intros w H. exact H.
    + intros _. apply frame_lg, Hl.
Qed.

(** X1.  From [initialize] on and through any sequence of callbacks, the
    timers the application has scheduled and not cancelled are the ones
    [self.handles] names: either there is none and the set is empty, or
    there is one and the set holds its handle.  No timer is left behind
    without its handle, out of reach of the next cancellation. *)
Theorem no_timer_left_behind a e0 cfg w0 trace :
  initialize a e0 = (Ok cfg, w0) ->
  timers_agree (run_callbacks cfg trace w0).
Proof.
  intros Hinit. apply run_callbacks_agree.
  change w0 with (snd (Ok cfg, w0)). rewrite <- Hinit.
  apply startup_initialize; auto.
  - apply refresh_timer_agree.
  - left. split; reflexivity.
Qed.
(** *** The timer *)

Lemma remaining_timers_one h ts :
  remaining_timers [h] ts = List.filter (fun t => negb (Nat.eqb (fst t) h)) ts.
Proof. reflexivity. Qed.

Lemma filter_other_handle (h : handle) (ts : list (handle * Z)) t :
  t ∈ List.filter (fun t => negb (Nat.eqb (fst t) h)) ts -> fst t ≠ h.
Proof.
  intros Hin. apply list_elem_of_In, filter_In in Hin as [_ Hneg].
  apply negb_true_iff, Nat.eqb_neq in Hneg. exact Hneg.
Qed.

(** X2.  [refresh_timer] called again cancels the timer its previous call
    scheduled: after the second call the set holds the new handle only, the
    new timer is pending, and no timer of the first call's handle is. *)
Theorem refresh_timer_replaces_own_timer w d :
  active w = Some d ->
  delay d ≠ 0%Z ->
  let w1 := snd (refresh_timer w) in
  let w2 := snd (refresh_timer w1) in
  (next_handle w, delay d) ∈ timers w1 /\
  handles w2 = {[S (next_handle w)]} /\
  last (timers w2) = Some (S (next_handle w), delay d) /\
  (forall t, t ∈ timers w2 -> fst t ≠ next_handle w).
Proof.
  intros Ha Hd w1 w2.
  assert (H1 : w1 =
    with_handles {[next_handle w]}
      (with_timers
         (remaining_timers (elements (handles w)) (timers w)
          ++ [(next_handle w, delay d)]) (S (next_handle w)) w)).
  { unfold w1. rewrite refresh_timer_exact. cbv zeta. rewrite Ha.
    rewrite bool_decide_true by exact Hd. reflexivity. }
  assert (H2 : w2 =
    with_handles {[S (next_handle w)]}
      (with_timers
         (remaining_timers [next_handle w] (timers w1)
          ++ [(S (next_handle w), delay d)]) (S (S (next_handle w))) w1)).
  { unfold w2. rewrite refresh_timer_exact. cbv zeta.
    replace (active w1) with (Some d) by (rewrite H1; symmetry; exact Ha).
    replace (handles w1) with ({[next_handle w]} : gset handle)
      by (rewrite H1; reflexivity).
    replace (next_handle w1) with (S (next_handle w))
      by (rewrite H1; reflexivity).
    rewrite elements_singleton.
    rewrite bool_decide_true by exact Hd. reflexivity. }
  split; [|split; [|split]].
  - rewrite H1. cbn. apply elem_of_app. right. apply list_elem_of_here.
  - rewrite H2. reflexivity.
  - rewrite H2. cbn [timers with_handles with_timers]. apply last_snoc.
  - intros t. rewrite H2. cbn [timers with_handles with_timers].
    rewrite remaining_timers_one. intros Hin.
    apply elem_of_app in Hin as [Hin|Hin].
    + eapply filter_other_handle, Hin.
    + apply list_elem_of_singleton in Hin. subst t. cbn. lia.
Qed.

Lemma all_motion_off_spec cfg e :
  all_motion_off cfg e = true <->
  forall sensor,
    sensor ∈ motion_sensors cfg -> get_state e sensor = motion_off cfg.
Proof.
  unfold all_motion_off. induction (motion_sensors cfg) as [|s l IH]; simpl.
  - split; [intros _ x Hx; apply elem_of_nil in Hx; destruct Hx | reflexivity].
  - rewrite andb_true_iff, IH, bool_decide_eq_true. split.
    + intros [H1 H2] x Hx. apply elem_of_cons in Hx as [->|Hx]; auto.
    + intros H. split; [apply H; left | intros x Hx; apply H; right; exact Hx].
Qed.

(** X3.  [motion_cleared] consults neither the disable switches nor the
    lights and issues no service call.  While some motion sensor does not
    read the configured off state it cancels the pending timer and
    schedules none; when all of them read it, it does what
    [refresh_timer] does. *)
Theorem motion_cleared_restarts_when_all_clear cfg e w :
  let r := motion_cleared cfg e w in
  service_calls (snd r) = service_calls w /\
  log (snd r) = log w /\
  active (snd r) = active w /\
  ((exists sensor, sensor ∈ motion_sensors cfg /\
                   get_state e sensor ≠ motion_off cfg) ->
   fst r = Ok tt /\ handles (snd r) = ∅ /\
   next_handle (snd r) = next_handle w /\
   forall t, t ∈ timers (snd r) -> t ∈ timers w /\ fst t ∉ handles w) /\
  ((forall sensor, sensor ∈ motion_sensors cfg ->
                   get_state e sensor = motion_off cfg) ->
   snd r = snd (refresh_timer w) /\
   forall d, active w = Some d -> delay d ≠ 0%Z ->
     fst r = Ok tt /\ handles (snd r) = {[next_handle w]} /\
     last (timers (snd r)) = Some (next_handle w, delay d)).
Proof.
  intros r.
  assert (Hr : r = if all_motion_off cfg e
                   then (refresh_timer >> ret tt) w
                   else cancel_scheduled_callbacks w).
  { unfold r, motion_cleared. destruct (all_motion_off cfg e); reflexivity. }
  assert (Hrf : (refresh_timer >> ret tt) w
                = (match fst (refresh_timer w) with
                   | Ok _ => Ok tt | Raise ex => Raise ex end,
                   snd (refresh_timer w))).
  { unfold bind, ret. destruct (refresh_timer w) as [[hs|ex] w']; reflexivity. }
  assert (Hsub : forall hs ts x,
            x ∈ remaining_timers hs ts -> x ∈ ts /\ fst x ∉ hs).
  { clear. induction hs as [|h hs IH]; intros ts x Hx; simpl in Hx.
    - split; [exact Hx | apply not_elem_of_nil].
    - apply IH in Hx as [Hx Hhs].
      pose proof (filter_other_handle _ _ _ Hx) as Hh.
      apply list_elem_of_In, filter_In in Hx as [Hx _].
      split; [apply list_elem_of_In, Hx|].
      intros Hin. apply elem_of_cons in Hin as [Hin|Hin]; auto. }
  assert (Hframe : service_calls (snd r) = service_calls w /\
                   log (snd r) = log w /\ active (snd r) = active w).
  { rewrite Hr. destruct (all_motion_off cfg e).
    - rewrite Hrf, refresh_timer_exact. cbv zeta.
      destruct (active w) eqn:E; [destruct (bool_decide _)|];
        repeat split; first [reflexivity | exact E].
    - rewrite cancel_scheduled_callbacks_exact. repeat split; reflexivity. }
  destruct Hframe as (Hc & Hl & Ha).
  split; [exact Hc|]. split; [exact Hl|]. split; [exact Ha|]. split.
  - intros (s & Hs & Hne).
    assert (Hf : all_motion_off cfg e = false).
    { destruct (all_motion_off cfg e) eqn:E; [|reflexivity].
      exfalso. apply Hne. apply (proj1 (all_motion_off_spec cfg e) E), Hs. }
    rewrite Hr, Hf, cancel_scheduled_callbacks_exact.
    cbn [fst snd handles next_handle timers with_handles with_timers].
    split; [reflexivity|]. split; [reflexivity|]. split; [reflexivity|].
    intros t Ht. apply Hsub in Ht as [Ht Hh]. split; [exact Ht|].
    intros Hin. apply Hh, elem_of_elements, Hin.
  - intros Hall. apply all_motion_off_spec in Hall.
    rewrite Hr, Hall, Hrf. split; [reflexivity|].
    intros d Hd Hnz. rewrite refresh_timer_exact. cbv zeta.
    rewrite Hd. rewrite bool_decide_true by exact Hnz.
    cbn [fst snd handles timers with_handles with_timers].
    split; [reflexivity|]. split; [reflexivity|]. apply last_snoc.
Qed.
(** *** Turning off *)

Lemma is_disabled_exact cfg e w :
  exists l,
    is_disabled cfg e w
      = (Ok (existsb (switch_disables e) (disable_switch_entities cfg)),
         with_log (log w ++ l) w) /\
    fst (is_disabled cfg e w)
      = Ok (existsb (switch_disables e) (disable_switch_entities cfg)).
Proof.
  destruct (is_disabled_spec cfg e w) as [l Hl]. exists l.
  split; [exact Hl | rewrite Hl; reflexivity].
Qed.

(** X4.  A timer that fires while a disable switch reads ["off"], has no
    state or reads [""] turns nothing off and schedules nothing: the
    lights stay as they are, and no later [lights_off] is pending on
    account of this call. *)
Theorem lights_off_ignored_while_disabled cfg e w switch :
  switch ∈ disable_switch_entities cfg ->
  get_state e switch = Some "off" \/ get_state e switch = None \/
  get_state e switch = Some "" ->
  let r := lights_off cfg e w in
  fst r = Ok tt /\
  service_calls (snd r) = service_calls w /\
  handles (snd r) = handles w /\
  timers (snd r) = timers w /\
  next_handle (snd r) = next_handle w /\
  active (snd r) = active w.
Proof.
  intros Hin Hst r.
  pose proof (is_disabled_by cfg e w switch Hin
                (switch_disables_reads e switch Hst)) as Hd.
  destruct (is_disabled_exact cfg e w) as (l & Hl & Hb).
  rewrite Hd in Hb. injection Hb as Hb.
  unfold r, lights_off. rewrite (bind_ok _ _ _ _ _ Hl), <- Hb.
  repeat split.
Qed.

(** X5.  With a humidity threshold in force and one humidity sensor
    without a state, [lights_off] fails with the [TypeError] of
    [float(None)], which the [except ValueError] of the loop does not
    catch, whatever the other sensors read: no light is turned off and
    the timer is neither cancelled nor restarted. *)
Theorem lights_off_fails_on_stateless_humidity_sensor cfg e w sensor :
  truthy_threshold (humidity_threshold cfg) = true ->
  fst (is_disabled cfg e w) = Ok false ->
  sensor ∈ humidity_sensors cfg ->
  get_state e sensor = None ->
  let r := lights_off cfg e w in
  fst r = Raise TypeError_float_None /\
  service_calls (snd r) = service_calls w /\
  handles (snd r) = handles w /\
  timers (snd r) = timers w.
Proof.
  intros Ht Hd Hin Hs r.
  destruct (lights_off_enabled cfg e w Hd) as [l Hl].
  unfold r. rewrite Hl, Ht.
  rewrite (humidity_blocker_stateless e _ _ [] sensor Hin Hs).
  repeat split.
Qed.

Lemma turn_off_now_calls cfg e w :
  service_calls (snd (turn_off_now cfg e w)) =
    service_calls w ++
    (if any_light_on cfg e then map turn_off (lights cfg) else []).
Proof.
  unfold turn_off_now.
  rewrite (bind_ok _ _ _ _ _ (cancel_scheduled_callbacks_exact w)).
  destruct (any_light_on cfg e).
  - rewrite (bind_ok _ _ _ _ _ (for_each_call_service turn_off _ _)).
    unfold bind, active_get, lg, modify.
    cbn [active with_service_calls with_handles with_timers].
    destruct (active w); reflexivity.
  - cbn. symmetry. apply app_nil_r.
Qed.

Lemma lights_off_calls cfg e w :
  exists turned_off : bool,
    service_calls (snd (lights_off cfg e w)) =
      service_calls w ++
      (if turned_off && any_light_on cfg e
       then map turn_off (lights cfg) else []).
Proof.
  destruct (is_disabled_exact cfg e w) as (l & Hl & Hb).
  destruct (existsb (switch_disables e) (disable_switch_entities cfg)).
  - exists false. unfold lights_off. rewrite (bind_ok _ _ _ _ _ Hl).
    symmetry. apply app_nil_r.
  - destruct (lights_off_enabled cfg e w Hb) as [l' Hl']. rewrite Hl'.
    set (w1 := with_log (log w ++ l') w).
    change (service_calls w) with (service_calls w1).
    set (blockers := if truthy_threshold (humidity_threshold cfg)
                     then lift (humidity_blocker e
                                  (default 0%Q (humidity_threshold cfg))
                                  (humidity_sensors cfg) [])
                     else ret []).
    assert (Hbl : (exists b, blockers w1 = (Ok b, w1)) \/
                  (exists ex, blockers w1 = (Raise ex, w1))).
    { unfold blockers. destruct (truthy_threshold _).
      - unfold lift. destruct (humidity_blocker _ _ _ _) as [b|ex];
          [left; exists b | right; exists ex]; reflexivity.
      - left. exists []. reflexivity. }
    destruct Hbl as [[b Hbl] | [ex Hbl]].
    + rewrite (bind_ok _ _ _ _ _ Hbl). destruct (last b) as [s|].
      * exists false. cbn [andb]. rewrite app_nil_r.
        unfold bind. rewrite refresh_timer_exact. cbv zeta.
        destruct (active w1) as [d|] eqn:Ea; [|reflexivity].
        destruct (bool_decide _); unfold active_get, lg, modify;
          cbn [active with_handles with_timers]; rewrite Ea; reflexivity.
      * exists true. apply turn_off_now_calls.
    + exists false. rewrite (bind_raise _ _ _ _ _ Hbl).
      symmetry. apply app_nil_r.
Qed.

(** X6.  The only service calls [lights_off] ever issues are
    [homeassistant/turn_off], and all or none: either it calls nothing, or
    some light reads ["on"] and it turns off every configured light, in
    order, including those already off.  This holds on every path, the
    failing ones included. *)
Theorem lights_off_turns_off_all_or_none cfg e w :
  let calls := service_calls (snd (lights_off cfg e w)) in
  calls = service_calls w \/
  (any_light_on cfg e = true /\
   calls = service_calls w ++ map turn_off (lights cfg)).
Proof.
  intros calls. destruct (lights_off_calls cfg e w) as [b Hb].
  fold calls in Hb. rewrite Hb.
  destruct b, (any_light_on cfg e); cbn [andb];
    first [left; apply app_nil_r | right; split; reflexivity].
Qed.

(** *** Motion *)

(** X7.  Motion while some light reads ["on"] issues no service call at
    all, whatever the disable switches, the thresholds and the active
    daytime are: lights that are on are not set to the daytime's
    brightness or scene again. *)
Theorem motion_event_leaves_lit_room cfg e event entity_id w light :
  light ∈ lights cfg ->
  get_state e light = Some "on" ->
  service_calls (snd (motion_event cfg e event entity_id w)) = service_calls w.
Proof.
  intros Hin Hon.
  assert (Hany : any_light_on cfg e = true).
  { unfold any_light_on. apply existsb_exists. exists light.
    split; [apply list_elem_of_In, Hin|]. rewrite Hon. reflexivity. }
  destruct (is_disabled_exact cfg e w) as (l & Hl & Hb).
  destruct (existsb (switch_disables e) (disable_switch_entities cfg)).
  - destruct (motion_event_disabled cfg e event entity_id w Hb) as [l' Hl'].
    rewrite Hl'. reflexivity.
  - destruct (motion_event_enabled cfg e event entity_id w Hb) as [l' Hl'].
    rewrite Hl', Hany. cbn [negb].
    unfold bind at 1. unfold lg at 1. unfold modify at 1.
    destruct (negb (String.eqb event STATE_CHANGED_DETECTION)); [|reflexivity].
    unfold bind. rewrite refresh_timer_exact. cbv zeta.
    cbn [active with_log].
    destruct (active w); [destruct (bool_decide _)|]; reflexivity.
Qed.
(** *** Turning on *)

Lemma lights_on_dark cfg e w :
  dark_enough cfg e -> lights_on cfg e w = lights_on_action cfg e w.
Proof.
  intros Hdark. unfold lights_on.
  destruct (truthy_threshold (illuminance_threshold cfg)) eqn:Ht;
    [|reflexivity].
  specialize (Hdark Ht).
  pose proof (illuminance_blocker_spec e
                (default 0%Q (illuminance_threshold cfg))
                (illuminance_sensors cfg) []) as Hspec.
  destruct (illuminance_blocker _ _ _ _) as [blocker|s st|s].
  - destruct Hspec as [_ ->]. rewrite filter_none; [reflexivity|].
    intros x Hx. apply Hdark, Hx.
  - destruct Hspec as (Hin & Hst & Hf). exfalso.
    destruct (Hdark s Hin) as [Hu _]. unfold unreadable in Hu.
    rewrite Hst, Hf in Hu. discriminate.
  - destruct Hspec as (Hin & Hst). exfalso.
    destruct (Hdark s Hin) as [Hu _]. unfold unreadable in Hu.
    rewrite Hst in Hu. discriminate.
Qed.

Lemma brightness_loop w d pct (ls : list entity) :
  active w = Some d ->
  for_each ls (fun entity_id =>
    if String.prefix "switch." entity_id then
      call_service (turn_on entity_id None)
    else
      call_service (turn_on entity_id (Some pct)) >>
      let* d := active_get "delay" delay in
      lg (log_on_brightness pct d)) w
  = (Ok tt,
     with_log
       (log w ++
        map (fun _ => log_on_brightness pct (delay d))
          (List.filter (fun x => negb (String.prefix "switch." x)) ls))
       (with_service_calls (service_calls w ++ map (brightness_call pct) ls)
          w)).
Proof.
  revert w. induction ls as [|x ls IH]; intros w Ha.
  - cbn. rewrite !app_nil_r. destruct w; reflexivity.
  - cbn [for_each]. unfold bind at 1.
    cbn [map List.filter].
    destruct (String.prefix "switch." x) eqn:Ex.
    + unfold call_service at 1, modify at 1. rewrite IH by exact Ha.
      cbn [negb]. unfold with_log, with_service_calls, brightness_call. cbn.
      rewrite Ex, <- !app_assoc. reflexivity.
    + unfold bind at 1, call_service at 1, modify at 1.
      unfold bind at 1, active_get at 1.
      cbn [active with_service_calls]. rewrite Ha.
      unfold lg at 1, modify at 1. rewrite IH by exact Ha.
      cbn [negb map]. unfold with_log, with_service_calls, brightness_call.
      cbn. rewrite Ex, <- !app_assoc. reflexivity.
Qed.

(** X8.  With the gate open and a brightness other than 0 active,
    [lights_on] returns after one [homeassistant/turn_on] per configured
    light, in order: with the active brightness for every entity except
    those named [switch.*], which are turned on without one.  The line
    "turned on" is logged once per light that is not a switch, and the
    timer is not touched. *)
Theorem lights_on_brightness_per_light cfg e w d pct :
  dark_enough cfg e ->
  active w = Some d ->
  light_setting d = LInt pct ->
  pct ≠ 0%Z ->
  lights_on cfg e w =
    (Ok tt,
     with_log
       (log w ++
        map (fun _ => log_on_brightness pct (delay d))
          (List.filter (fun x => negb (String.prefix "switch." x))
             (lights cfg)))
       (with_service_calls
          (service_calls w ++ map (brightness_call pct) (lights cfg)) w)).
Proof.
  intros Hdark Ha Hl Hpct.
  rewrite (lights_on_dark cfg e w Hdark). unfold lights_on_action.
  unfold bind at 1, active_get at 1. rewrite Ha, Hl.
  apply Z.eqb_neq in Hpct. rewrite Hpct.
  apply brightness_loop, Ha.
Qed.

Lemma scene_loop e w d scene (ls : list entity) :
  active w = Some d ->
  for_each ls (fun entity_id =>
    let* hue := active_get "is_hue_group" is_hue_group in
    if hue && get_is_hue_group e entity_id then
      call_service (hue_activate_scene (friendly_name e entity_id) scene)
    else
      call_service
        (turn_on (if String.prefix "scene." scene then scene else entity_id)
                 None)) w
  = (Ok tt,
     with_service_calls
       (service_calls w ++
        map (fun entity_id =>
               if is_hue_group d && get_is_hue_group e entity_id
               then hue_activate_scene (friendly_name e entity_id) scene
               else turn_on (if String.prefix "scene." scene
                             then scene else entity_id) None) ls) w).
Proof.
  revert w. induction ls as [|x ls IH]; intros w Ha.
  - cbn. rewrite app_nil_r. destruct w; reflexivity.
  - cbn [for_each map]. unfold bind at 1. unfold bind at 1, active_get at 1.
    rewrite Ha.
    destruct (is_hue_group d && get_is_hue_group e x);
      unfold call_service at 1, modify at 1; rewrite IH by exact Ha;
      unfold with_service_calls; cbn; rewrite <- !app_assoc; reflexivity.
Qed.

(** X9.  With the gate open and a Home Assistant scene active (a string
    that starts with ["scene."], not marked as a hue group), [lights_on]
    turns the scene on once for every configured light, never a light
    itself, logs one line and leaves the timer alone. *)
Theorem lights_on_scene_once_per_light cfg e w d scene :
  dark_enough cfg e ->
  active w = Some d ->
  light_setting d = LStr scene ->
  String.prefix "scene." scene = true ->
  is_hue_group d = false ->
  lights_on cfg e w =
    (Ok tt,
     with_log (log w ++ [log_on_scene false scene (delay d)])
       (with_service_calls
          (service_calls w ++
           replicate (length (lights cfg)) (turn_on scene None)) w)).
Proof.
  intros Hdark Ha Hl Hp Hh.
  rewrite (lights_on_dark cfg e w Hdark). unfold lights_on_action.
  unfold bind at 1, active_get at 1. rewrite Ha, Hl.
  rewrite (bind_ok _ _ _ _ _ (scene_loop e w d scene (lights cfg) Ha)).
  unfold bind, active_get, lg, modify.
  cbn [active with_service_calls]. rewrite Ha. cbv beta iota.
  cbn [active with_service_calls]. rewrite Ha. cbv beta iota.
  rewrite Hh, Hp. cbn [andb].
  replace (map (fun _ : entity => turn_on scene None) (lights cfg))
    with (replicate (length (lights cfg)) (turn_on scene None)).
  - reflexivity.
  - induction (lights cfg) as [|x l IH]; [reflexivity|].
    cbn. rewrite IH. reflexivity.
Qed.
Lemma refresh_step_calls (b : bool) w :
  service_calls
    (snd ((if b then refresh_timer >> ret tt else ret tt) w))
  = service_calls w.
Proof.
  destruct b; [|reflexivity].
  unfold bind. rewrite refresh_timer_exact. cbv zeta.
  destruct (active w); [destruct (bool_decide _)|]; reflexivity.
Qed.

Lemma lights_on_zero_calls cfg e w d :
  active w = Some d ->
  light_setting d = LInt 0 ->
  any_light_on cfg e = false ->
  service_calls (snd (lights_on cfg e w)) = service_calls w.
Proof.
  intros Ha Hl Hany.
  assert (Hact : service_calls (snd (lights_on_action cfg e w))
                 = service_calls w).
  { unfold lights_on_action. unfold bind at 1, active_get at 1.
    rewrite Ha, Hl. cbn [Z.eqb].
    destruct (lights_off_calls cfg e w) as [b Hb]. rewrite Hb, Hany.
    rewrite andb_false_r. apply app_nil_r. }
  unfold lights_on. destruct (truthy_threshold _); [|exact Hact].
  destruct (illuminance_blocker _ _ _ _) as [[|x bl]|s st|s];
    first [exact Hact | reflexivity].
Qed.

(** X10.  While the active daytime has brightness 0 (the default
    ["night"]), motion never issues a service call, whatever the lights,
    switches and sensors read: [lights_on] hands over to [lights_off],
    which is reached only when no light is on and so has nothing to turn
    off. *)
Theorem motion_in_dark_daytime_calls_nothing cfg e event entity_id w d :
  active w = Some d ->
  light_setting d = LInt 0 ->
  service_calls (snd (motion_event cfg e event entity_id w))
  = service_calls w.
Proof.
  intros Ha Hl.
  destruct (is_disabled_exact cfg e w) as (l & _ & Hb).
  destruct (existsb (switch_disables e) (disable_switch_entities cfg)).
  - destruct (motion_event_disabled cfg e event entity_id w Hb) as [l' Hl'].
    rewrite Hl'. reflexivity.
  - destruct (motion_event_enabled cfg e event entity_id w Hb) as [l' Hl'].
    rewrite Hl'. set (w1 := with_log (log w ++ l') w).
    change (service_calls w) with (service_calls w1).
    assert (Ha1 : active w1 = Some d) by exact Ha.
    assert (Hstep : service_calls
              (snd ((if negb (any_light_on cfg e) then lights_on cfg e
                     else lg log_already_on) w1)) = service_calls w1).
    { destruct (any_light_on cfg e) eqn:Hany; cbn [negb]; [reflexivity|].
      apply (lights_on_zero_calls cfg e w1 d Ha1 Hl Hany). }
    unfold bind.
    destruct ((if negb (any_light_on cfg e) then lights_on cfg e
               else lg log_already_on) w1) as [[[]|ex] w2]; cbn [snd] in Hstep.
    + rewrite <- Hstep. apply refresh_step_calls.
    + exact Hstep.
Qed.

(** *** The disable switches *)

Lemma switch_disables_inv e switch :
  switch_disables e switch = true ->
  get_state e switch = Some "off" \/ get_state e switch = None \/
  get_state e switch = Some "".
Proof.
  unfold switch_disables, state_is, truthy_str.
  destruct (get_state e switch) as [st|]; [|auto].
  intros H. apply orb_true_iff in H as [H|H].
  - apply String.eqb_eq in H. subst st. auto.
  - rewrite negb_involutive in H. apply String.eqb_eq in H. subst st. auto.
Qed.

Lemma is_disabled_loop_first e before s after w :
  (forall x, x ∈ before -> switch_disables e x = false) ->
  switch_disables e s = true ->
  is_disabled_loop e (before ++ s :: after) w
    = (Ok true, with_log (log w ++ [log_disabled_by s]) w).
Proof.
  intros Hb Hs. induction before as [|x before IH]; simpl.
  - rewrite Hs. reflexivity.
  - rewrite (Hb x) by apply list_elem_of_here. apply IH.
    intros y Hy. apply Hb. right. exact Hy.
Qed.

Lemma is_disabled_loop_none e switches w :
  (forall x, x ∈ switches -> switch_disables e x = false) ->
  is_disabled_loop e switches w = (Ok false, w).
Proof.
  intros Hb. induction switches as [|x l IH]; simpl; [reflexivity|].
  rewrite (Hb x) by apply list_elem_of_here. apply IH.
  intros y Hy. apply Hb. right. exact Hy.
Qed.

(** X11.  [is_disabled] never raises.  It answers [True] exactly when
    some disable switch reads ["off"], has no state or reads [""]; it
    stops at the first such switch and logs that one alone, and when no
    switch disables it leaves the world, the log included, as it was. *)
Theorem is_disabled_stops_at_first_switch cfg e w :
  let r := is_disabled cfg e w in
  (fst r = Ok true \/ fst r = Ok false) /\
  (fst r = Ok true <->
   exists s, s ∈ disable_switch_entities cfg /\
     (get_state e s = Some "off" \/ get_state e s = None \/
      get_state e s = Some "")) /\
  (forall before s after,
     disable_switch_entities cfg = before ++ s :: after ->
     (forall x, x ∈ before -> switch_disables e x = false) ->
     switch_disables e s = true ->
     r = (Ok true, with_log (log w ++ [log_disabled_by s]) w)) /\
  ((forall s, s ∈ disable_switch_entities cfg ->
              switch_disables e s = false) ->
   r = (Ok false, w)).
Proof.
  intros r. destruct (is_disabled_exact cfg e w) as (l & _ & Hb).
  fold r in Hb. split; [|split; [|split]].
  - rewrite Hb. destruct (existsb _ _); auto.
  - rewrite Hb. split.
    + intros H. injection H as H. apply existsb_exists in H as (s & Hin & Hs).
      exists s. split; [apply list_elem_of_In, Hin|].
      apply switch_disables_inv, Hs.
    + intros (s & Hin & Hs). f_equal. apply existsb_exists. exists s.
      split; [apply list_elem_of_In, Hin | apply switch_disables_reads, Hs].
  - intros before s after Heq Hbefore Hs. unfold r, is_disabled.
    rewrite Heq. apply is_disabled_loop_first; assumption.
  - intros Hnone. unfold r, is_disabled. apply is_disabled_loop_none, Hnone.
Qed.
(** *** Start-up *)

Lemma for_each_lg (l : list log_entry) w :
  for_each l lg w = (Ok tt, with_log (log w ++ l) w).
Proof.
  revert w. induction l as [|x l IH]; intros w.
  - cbn. rewrite app_nil_r. destruct w; reflexivity.
  - cbn [for_each]. unfold bind at 1, lg at 1, modify at 1. rewrite IH.
    unfold with_log. cbn. rewrite <- app_assoc. reflexivity.
Qed.

(** The three steps of a start-up that returns. *)
Lemma initialize_steps a e cfg w0 :
  initialize a e = (Ok cfg, w0) ->
  configure a e = Ok cfg /\
  exists w2,
    build_daytimes cfg e (default DEFAULT_DAYTIMES (arg_daytimes a))
      (with_log
         (no_sensors_log "humidity"
            (default (find_sensors (room cfg) e KEYWORD_HUMIDITY)
                     (arg_humidity a))
            (arg_humidity_threshold a) ++
          no_sensors_log "illuminance"
            (default (find_sensors (room cfg) e KEYWORD_ILLUMINANCE)
                     (arg_illuminance a))
            (arg_illuminance_threshold a)) empty_world)
    = (Ok (default DEFAULT_DAYTIMES (arg_daytimes a)), w2) /\
    for_each (motion_sensors cfg) (listen_sensor cfg) w2 = (Ok tt, w0).
Proof.
  intros Hinit. pose proof (initialize_configure _ _ _ _ Hinit) as Hc.
  split; [exact Hc|]. revert Hinit. unfold initialize. rewrite Hc.
  rewrite (bind_ok _ _ _ _ _ (for_each_lg _ empty_world)).
  unfold bind at 1.
  match goal with
  | |- context [build_daytimes cfg e ?ds ?w] =>
      destruct (build_daytimes cfg e ds w) as [[r|ex] w2] eqn:Hb;
        [|discriminate]
  end.
  assert (Hr : r = default DEFAULT_DAYTIMES (arg_daytimes a)).
  { revert Hb. unfold build_daytimes, bind.
    destruct (build_daytimes_loop _ _ _ _ _ _ _) as [[[]|ex] w']; [|discriminate].
    unfold ret. intros [= <- _]. reflexivity. }
  subst r. unfold bind.
  destruct (for_each (motion_sensors cfg) (listen_sensor cfg) w2)
    as [[[]|ex] w3] eqn:Hl; [|discriminate].
  unfold ret. intros [= <-]. exists w2. split; [exact Hb | exact Hl].
Qed.

Lemma listen_sensor_listeners cfg sensor w w' :
  listen_sensor cfg sensor w = (Ok tt, w') ->
  listeners w' = listeners w ++ sensor_listeners cfg sensor /\
  log w' = log w /\ daily w' = daily w.
Proof.
  unfold listen_sensor, sensor_listeners.
  set (on := truthy_str (motion_on cfg)).
  set (off := truthy_str (motion_off cfg)).
  assert (Hrest : forall w1,
            (refresh_timer >> ret tt) w1 = (Ok tt, w') ->
            listeners w' = listeners w1 /\ log w' = log w1 /\
            daily w' = daily w1).
  { intros w1. unfold bind. rewrite refresh_timer_exact. cbv zeta.
    destruct (active w1); [destruct (bool_decide _)|];
      unfold ret; intros [= <-]; repeat split. }
  unfold bind at 1.
  destruct (negb (on || off)); [|destruct (on && off)].
  - unfold listen at 1, modify at 1. intros H. apply Hrest in H. exact H.
  - unfold bind at 1, listen at 1, modify at 1. unfold listen at 1, modify at 1.
    intros H. apply Hrest in H. cbn in H. rewrite <- app_assoc in H. exact H.
  - unfold ret at 1. intros H. apply Hrest in H. rewrite app_nil_r. exact H.
Qed.

Lemma listen_sensors_listeners cfg sensors :
  forall w w',
    for_each sensors (listen_sensor cfg) w = (Ok tt, w') ->
    listeners w' = listeners w ++ flat_map (sensor_listeners cfg) sensors /\
    log w' = log w /\ daily w' = daily w.
Proof.
  induction sensors as [|s l IH]; intros w w'.
  - cbn. unfold ret. intros [= <-]. rewrite app_nil_r. repeat split.
  - cbn [for_each flat_map]. unfold bind at 1.
    destruct (listen_sensor cfg s w) as [[[]|ex] w1] eqn:H1; [|discriminate].
    intros H2. apply listen_sensor_listeners in H1 as (Hl1 & Hg1 & Hd1).
    apply IH in H2 as (Hl2 & Hg2 & Hd2).
    rewrite Hl2, Hl1, Hg2, Hg1, Hd2, Hd1, <- app_assoc. repeat split.
Qed.

(** X12.  A start-up that returns has registered, for the motion sensors
    in order: one [xiaomi_aqara.motion] event listener each when neither
    [motion_state_on] nor [motion_state_off] is set; a state listener for
    [motion_detected] and one for [motion_cleared] each when both are set;
    and no listener at all when exactly one of the two is set, so that the
    application then never hears of motion. *)
Theorem initialize_registers_listeners a e cfg w0 :
  initialize a e = (Ok cfg, w0) ->
  motion_on cfg = arg_motion_state_on a /\
  motion_off cfg = arg_motion_state_off a /\
  listeners w0 = flat_map (sensor_listeners cfg) (motion_sensors cfg) /\
  (truthy_str (arg_motion_state_on a) ≠ truthy_str (arg_motion_state_off a) ->
   listeners w0 = []).
Proof.
  intros Hinit.
  destruct (initialize_steps a e cfg w0 Hinit) as (Hc & w2 & Hb & Hl).
  assert (Hst : motion_on cfg = arg_motion_state_on a /\
                motion_off cfg = arg_motion_state_off a).
  { revert Hc. unfold configure. cbv zeta.
    destruct (lights_option _ _ _) as [lights_found|ex0]; [|discriminate].
    repeat match goal with
           | |- match ?l with [] => _ | _ :: _ => _ end = _ -> _ =>
               destruct l; [discriminate|]
           end.
    intros [= <-]. split; reflexivity. }
  destruct Hst as [Hon Hoff].
  assert (H2 : listeners w2 = []).
  { pose proof (startup_build_daytimes (fun w => listeners w = [])) as Hp.
    change w2 with (snd (Ok (default DEFAULT_DAYTIMES (arg_daytimes a)), w2)).
    rewrite <- Hb. apply Hp; auto. }
  apply listen_sensors_listeners in Hl as (Hl & _ & _).
  rewrite H2 in Hl. cbn [app] in Hl.
  split; [exact Hon|]. split; [exact Hoff|]. split; [exact Hl|].
  intros Hne. rewrite Hl. rewrite <- Hon, <- Hoff in Hne.
  assert (Hnil : forall l : list entity,
            flat_map (fun _ => @nil listener) l = []).
  { induction l as [|s l IH]; [reflexivity | exact IH]. }
  unfold sensor_listeners.
  destruct (truthy_str (motion_on cfg)), (truthy_str (motion_off cfg));
    try (exfalso; apply Hne; reflexivity); cbn [negb orb andb];
    apply Hnil.
Qed.
Lemma configure_fields a e cfg :
  configure a e = Ok cfg ->
  let room_name := py_str (arg_room a) in
  let hum :=
    optional_sensors
      (default (find_sensors room_name e KEYWORD_HUMIDITY) (arg_humidity a))
      (arg_humidity_threshold a) in
  let ill :=
    optional_sensors
      (default (find_sensors room_name e KEYWORD_ILLUMINANCE)
               (arg_illuminance a))
      (arg_illuminance_threshold a) in
  room cfg = room_name /\
  lights cfg ≠ [] /\
  motion_sensors cfg ≠ [] /\
  humidity_threshold cfg = snd hum /\ humidity_sensors cfg = fst hum /\
  illuminance_threshold cfg = snd ill /\ illuminance_sensors cfg = fst ill.
Proof.
  unfold configure. cbv zeta.
  destruct (lights_option _ _ _) as [lights_found|ex0]; [|discriminate].
  match goal with
  | |- match ?l with [] => _ | _ :: _ => _ end = _ -> _ =>
      destruct l as [|l0 ls]; [discriminate|]
  end.
  match goal with
  | |- match ?m with [] => _ | _ :: _ => _ end = _ -> _ =>
      destruct m as [|m0 ms]; [discriminate|]
  end.
  intros [= <-]. cbn. repeat split; discriminate.
Qed.

(** X13.  [initialize] needs a light and a motion sensor.  Without a
    [lights] option, without the entity [light.<room>] and without an
    entity found by name, or with lights but no motion sensor given or
    found, it raises the [ValueError] of l. 142 before it has logged,
    scheduled or registered anything.  A [lights] option that is given
    and empty does not get that far: the [add] or [update] of ll. 131 and
    133 is called on the list and raises [AttributeError].  A start-up
    that returns has at least one light and one motion sensor. *)
Theorem initialize_requires_lights_and_motion a e :
  let room_name := py_str (arg_room a) in
  (arg_lights a = Some [] ->
   initialize a e = (Raise AttributeError_lights, empty_world)) /\
  ((arg_lights a = None /\
    entity_exists e ("light." ++ room_name)%string = false /\
    find_sensors room_name e KEYWORD_LIGHTS = []) \/
   (arg_lights a ≠ Some [] /\
    default (find_sensors room_name e KEYWORD_MOTION) (arg_motion a) = []) ->
   initialize a e = (Raise ValueError_no_lights_sensors, empty_world)) /\
  (forall cfg w0,
     initialize a e = (Ok cfg, w0) ->
     lights cfg ≠ [] /\ motion_sensors cfg ≠ []).
Proof.
  intros room_name. split; [|split].
  - intros H. unfold initialize.
    assert (Hc : configure a e = Raise AttributeError_lights).
    { unfold configure, lights_option. cbv zeta. rewrite H. reflexivity. }
    rewrite Hc. reflexivity.
  - intros H. unfold initialize.
    assert (Hc : configure a e = Raise ValueError_no_lights_sensors).
    { unfold configure, lights_option. cbv zeta. fold room_name.
      destruct H as [(Hl & Hx & Hf) | (Hne & Hm)].
      - rewrite Hl, Hx, Hf. reflexivity.
      - rewrite Hm. cbn [remove_dups].
        destruct (arg_lights a) as [[|x l]|].
        + exfalso. apply Hne. reflexivity.
        + reflexivity.
        + match goal with
          | |- match ?l with [] => _ | _ :: _ => _ end = _ =>
              destruct l; reflexivity
          end. }
    rewrite Hc. reflexivity.
  - intros cfg w0 Hinit. apply initialize_configure in Hinit.
    destruct (configure_fields a e cfg Hinit) as (_ & Hl & Hm & _).
    split; assumption.
Qed.

Lemma initialize_log a e cfg w0 :
  initialize a e = (Ok cfg, w0) ->
  log w0 =
    no_sensors_log "humidity"
      (default (find_sensors (py_str (arg_room a)) e KEYWORD_HUMIDITY)
               (arg_humidity a))
      (arg_humidity_threshold a) ++
    no_sensors_log "illuminance"
      (default (find_sensors (py_str (arg_room a)) e KEYWORD_ILLUMINANCE)
               (arg_illuminance a))
      (arg_illuminance_threshold a).
Proof.
  intros Hinit.
  destruct (initialize_steps a e cfg w0 Hinit) as (Hc & w2 & Hb & Hl).
  destruct (configure_fields a e cfg Hc) as (Hroom & _).
  rewrite Hroom in Hb.
  apply listen_sensors_listeners in Hl as (_ & Hl & _). rewrite Hl.
  match type of Hb with
  | build_daytimes _ _ _ (with_log ?L _) = _ =>
      pose proof (startup_build_daytimes (fun w => log w = L)) as Hp
  end.
  change w2 with (snd (Ok (default DEFAULT_DAYTIMES (arg_daytimes a)), w2)).
  rewrite <- Hb. apply Hp; auto.
Qed.

(** X14.  A threshold that is set while no sensor of its kind is given or
    found is dropped at start-up: the threshold of the running
    application is [None], it has no sensor of that kind, and the line
    "No ... sensors" is in the log.  With at least one sensor the
    threshold stays, the sensors are kept without duplicates, and no such
    line is logged. *)
Theorem threshold_without_sensors_is_dropped a e cfg w0 :
  initialize a e = (Ok cfg, w0) ->
  let hum := default (find_sensors (py_str (arg_room a)) e KEYWORD_HUMIDITY)
               (arg_humidity a) in
  let ill := default (find_sensors (py_str (arg_room a)) e KEYWORD_ILLUMINANCE)
               (arg_illuminance a) in
  (truthy_threshold (arg_humidity_threshold a) = true ->
   (hum = [] ->
    humidity_threshold cfg = None /\ humidity_sensors cfg = [] /\
    log_no_sensors "humidity" ∈ log w0) /\
   (hum ≠ [] ->
    humidity_threshold cfg = arg_humidity_threshold a /\
    humidity_sensors cfg = remove_dups hum /\
    log_no_sensors "humidity" ∉ log w0)) /\
  (truthy_threshold (arg_illuminance_threshold a) = true ->
   (ill = [] ->
    illuminance_threshold cfg = None /\ illuminance_sensors cfg = [] /\
    log_no_sensors "illuminance" ∈ log w0) /\
   (ill ≠ [] ->
    illuminance_threshold cfg = arg_illuminance_threshold a /\
    illuminance_sensors cfg = remove_dups ill /\
    log_no_sensors "illuminance" ∉ log w0)).
Proof.
  intros Hinit hum ill.
  pose proof (initialize_log a e cfg w0 Hinit) as Hlog.
  fold hum ill in Hlog.
  apply initialize_configure in Hinit.
  destruct (configure_fields a e cfg Hinit)
    as (_ & _ & _ & Hht & Hhs & Hit & His).
  fold hum ill in Hht, Hhs, Hit, His.
  rewrite Hht, Hhs, Hit, His, Hlog. clear.
  unfold optional_sensors, no_sensors_log.
  split; intros Ht; rewrite Ht; (split; [intros ->; cbn [fst snd]|intros Hne]).
  - repeat split. apply elem_of_app. left. apply list_elem_of_here.
  - destruct hum as [|h hs]; [congruence|]. cbn [fst snd app].
    repeat split.
    destruct ill; [destruct (truthy_threshold (arg_illuminance_threshold a))|];
      intros Hin; try (apply elem_of_nil in Hin; exact Hin).
    apply list_elem_of_singleton in Hin. discriminate Hin.
  - repeat split. apply elem_of_app. right. apply list_elem_of_here.
  - destruct ill as [|i rest]; [congruence|]. cbn [fst snd].
    rewrite app_nil_r. repeat split.
    destruct hum; [destruct (truthy_threshold (arg_humidity_threshold a))|];
      intros Hin; try (apply elem_of_nil in Hin; exact Hin).
    apply list_elem_of_singleton in Hin. discriminate Hin.
Qed.

Lemma listen_sensor_needs_active cfg sensor w :
  active w = None ->
  fst (listen_sensor cfg sensor w) = Raise (KeyError "delay").
Proof.
  intros Ha. unfold listen_sensor. unfold bind at 1.
  match goal with
  | |- context [(if ?c then ?x else ?y) w] =>
      assert (Hl : exists w1, (if c then x else y) w = (Ok tt, w1) /\
                              active w1 = None)
  end.
  { destruct (negb _); [|destruct (_ && _)].
    - eexists. split; [reflexivity | exact Ha].
    - eexists. split; [reflexivity | exact Ha].
    - eexists. split; [reflexivity | exact Ha]. }
  destruct Hl as (w1 & -> & Ha1). unfold bind.
  rewrite refresh_timer_exact. cbv zeta. rewrite Ha1. reflexivity.
Qed.

(** X15.  [initialize] cannot start without an active daytime.  With an
    empty list of daytimes, or with a single daytime whose start time is
    not the present second, [build_daytimes] returns without having set
    [self.active], and the first [refresh_timer] of the sensor loop
    raises [KeyError] on [self.active["delay"]]. *)
Theorem initialize_needs_active_daytime a e cfg :
  configure a e = Ok cfg ->
  arg_daytimes a = Some [] \/
  (exists raw t,
     arg_daytimes a = Some [raw] /\
     parsed_start raw = Some t /\
     time_fromisoformat (py_str (raw_starttime raw)) = Some t /\
     bare_scene raw = false /\
     now e ≠ t) ->
  fst (initialize a e) = Raise (KeyError "delay").
Proof.
  intros Hc Hd. unfold initialize. rewrite Hc.
  rewrite (bind_ok _ _ _ _ _ (for_each_lg _ empty_world)).
  match goal with
  | |- context [with_log ?L empty_world] => set (w1 := with_log L empty_world)
  end.
  assert (Hb : exists w2,
            build_daytimes cfg e (default DEFAULT_DAYTIMES (arg_daytimes a)) w1
            = (Ok (default DEFAULT_DAYTIMES (arg_daytimes a)), w2) /\
            active w2 = None).
  { destruct Hd as [-> | (raw & t & -> & Hp & Hf & Hs & Hnow)].
    - exists w1. split; reflexivity.
    - assert (Hn : now_is_between t t (now e) = false).
      { unfold now_is_between. rewrite Z.ltb_irrefl.
        apply andb_false_iff.
        destruct (Z.leb_spec t (now e)); [|auto].
        destruct (Z.leb_spec (now e) t); [|auto]. exfalso. apply Hnow. lia. }
      change (default DEFAULT_DAYTIMES (Some [raw])) with [raw].
      unfold build_daytimes. cbn [build_daytimes_loop]. unfold bind.
      rewrite (build_daytime_wf cfg e [raw] 0 raw ∅ w1 t raw t
                 Hp Hs eq_refl Hf (not_elem_of_empty t)).
      cbv zeta. rewrite Hn. unfold ret.
      eexists. split; reflexivity. }
  destruct Hb as (w2 & Hb & Ha2). rewrite (bind_ok _ _ _ _ _ Hb).
  destruct (configure_fields a e cfg Hc) as (_ & _ & Hm & _).
  destruct (motion_sensors cfg) as [|s l]; [congruence|].
  cbn [for_each]. unfold bind.
  pose proof (listen_sensor_needs_active cfg s w2 Ha2) as Hk.
  destruct (listen_sensor cfg s w2) as [[[]|ex] w3]; cbn [fst] in Hk;
    [discriminate Hk | cbn [fst]; injection Hk as ->; reflexivity].
Qed.
(** *** The schedule of daytimes *)

Lemma round_outcome_ok daytimes idx raw seen seen' :
  round_outcome daytimes idx raw seen = Ok seen' ->
  exists t nr tn,
    parsed_start raw = Some t /\ bare_scene raw = false /\
    daytimes !! ((idx + 1) mod length daytimes)%nat = Some nr /\
    time_fromisoformat (py_str (raw_starttime nr)) = Some tn /\
    (t ∉ seen) /\ seen' = {[t]} ∪ seen.
Proof.
  unfold round_outcome, parsed_start.
  destruct (bare_scene raw); [discriminate|].
  destruct (raw_starttime raw) as [s|]; [|discriminate].
  destruct (parse_time _) as [t|]; [|discriminate].
  destruct (daytimes !! _) as [nr|]; [|discriminate].
  destruct (time_fromisoformat _) as [tn|] eqn:Hf; [|discriminate].
  destruct (bool_decide (t ∈ seen)) eqn:Hd; [discriminate|].
  intros [= <-]. exists t, nr, tn. apply bool_decide_eq_false in Hd.
  split; [reflexivity|]. split; [reflexivity|]. split; [reflexivity|].
  split; [exact Hf|]. split; [exact Hd | reflexivity].
Qed.

(** A round that returns has done what a round on a well-formed entry
    does. *)
Lemma build_daytime_ok cfg e daytimes idx raw seen w seen' w' :
  build_daytime cfg e daytimes idx raw seen w = (Ok seen', w') ->
  exists t tn,
    parsed_start raw = Some t /\ (t ∉ seen) /\ seen' = {[t]} ∪ seen /\
    w' = (let dt := daytime_of cfg idx raw t in
          let w1 :=
            if now_is_between t tn (now e)
            then with_active_daytime (Some (daytime dt))
                   (with_active (Some dt) w)
            else w in
          with_daily (daily w1 ++ [(t, dt)]) w1).
Proof.
  intros H.
  pose proof (build_daytime_outcome cfg e daytimes idx raw seen w) as Ho.
  rewrite H in Ho. cbn [fst] in Ho. symmetry in Ho.
  apply round_outcome_ok in Ho as (t & nr & tn & Hp & Hb & Hn & Hf & Hnew & ->).
  rewrite (build_daytime_wf cfg e daytimes idx raw seen w t nr tn
             Hp Hb Hn Hf Hnew) in H.
  apply (f_equal snd) in H. cbn [snd] in H.
  exists t, tn. split; [exact Hp|]. split; [exact Hnew|].
  split; [reflexivity | symmetry; exact H].
Qed.

Lemma build_daytimes_loop_daily cfg e daytimes todo :
  forall idx seen w w',
    build_daytimes_loop cfg e daytimes idx todo seen w = (Ok tt, w') ->
    (exists added,
       daily w' = daily w ++ added /\ length added = length todo /\
       forall k raw, todo !! k = Some raw ->
         exists t, parsed_start raw = Some t /\
                   added !! k = Some (t, daytime_of cfg (idx + k) raw t)) /\
    (active w' = active w \/
     exists k raw t,
       todo !! k = Some raw /\ parsed_start raw = Some t /\
       active w' = Some (daytime_of cfg (idx + k) raw t)) /\
    handles w' = handles w /\ timers w' = timers w /\
    next_handle w' = next_handle w /\ listeners w' = listeners w /\
    service_calls w' = service_calls w /\ log w' = log w.
Proof.
  induction todo as [|raw rest IH]; intros idx seen w w'.
  - cbn. unfold ret. intros [= <-]. split; [|split; [left|]; repeat split].
    exists []. rewrite app_nil_r. split; [reflexivity|].
    split; [reflexivity|]. intros k r Hk. discriminate Hk.
  - cbn [build_daytimes_loop]. unfold bind.
    destruct (build_daytime cfg e daytimes idx raw seen w)
      as [[seen1|ex] w1] eqn:H1; [|discriminate].
    intros H2. apply build_daytime_ok in H1 as (t & tn & Hp & _ & _ & Hw1).
    apply IH in H2
      as ((added & Hd & Hlen & Hlk) & Hact & Hh & Ht & Hn & Hl & Hc & Hg).
    assert (Hf : daily w1 = daily w ++ [(t, daytime_of cfg idx raw t)] /\
                 (active w1 = active w \/
                  active w1 = Some (daytime_of cfg idx raw t)) /\
                 handles w1 = handles w /\ timers w1 = timers w /\
                 next_handle w1 = next_handle w /\
                 listeners w1 = listeners w /\
                 service_calls w1 = service_calls w /\ log w1 = log w).
    { rewrite Hw1. cbv zeta.
      destruct (now_is_between t tn (now e)); cbn; repeat split; auto. }
    destruct Hf as (Hd1 & Ha1 & Hh1 & Ht1 & Hn1 & Hl1 & Hc1 & Hg1).
    split; [|split].
    + exists ((t, daytime_of cfg idx raw t) :: added).
      split; [rewrite Hd, Hd1, <- app_assoc; reflexivity|].
      split; [cbn; rewrite Hlen; reflexivity|].
      intros [|k] r Hk.
      * cbn in Hk. injection Hk as <-. exists t. split; [exact Hp|].
        rewrite Nat.add_0_r. reflexivity.
      * cbn in Hk. destruct (Hlk k r Hk) as (t' & Hp' & Hk').
        exists t'. split; [exact Hp'|].
        replace (idx + S k)%nat with (S idx + k)%nat by lia. exact Hk'.
    + destruct Hact as [Hact | (k & r & t' & Hk & Hp' & Hact)].
      * rewrite Hact. destruct Ha1 as [Ha1|Ha1]; [left; exact Ha1|].
        right. exists 0%nat, raw, t. rewrite Nat.add_0_r.
        split; [reflexivity|]. split; [exact Hp | exact Ha1].
      * right. exists (S k), r, t'.
        replace (idx + S k)%nat with (S idx + k)%nat by lia.
        split; [exact Hk|]. split; [exact Hp' | exact Hact].
    + rewrite Hh, Ht, Hn, Hl, Hc, Hg. repeat split; assumption.
Qed.

(** X16.  When [build_daytimes] returns it has registered exactly one
    daily trigger per entry, in the order of the list, each at the start
    time parsed from the entry and carrying the entry's name, delay and
    light setting with the defaults filled in; the active daytime is
    unchanged or one of these; nothing else of the application's state is
    touched, and the list is returned as it came. *)
Theorem build_daytimes_schedules_every_entry cfg e daytimes w r w' :
  build_daytimes cfg e daytimes w = (Ok r, w') ->
  r = daytimes /\
  (exists added,
     daily w' = daily w ++ added /\ length added = length daytimes /\
     forall i raw, daytimes !! i = Some raw ->
       exists t, parsed_start raw = Some t /\
                 added !! i = Some (t, daytime_of cfg i raw t)) /\
  (active w' = active w \/
   exists i raw t,
     daytimes !! i = Some raw /\ parsed_start raw = Some t /\
     active w' = Some (daytime_of cfg i raw t)) /\
  handles w' = handles w /\ timers w' = timers w /\
  listeners w' = listeners w /\ service_calls w' = service_calls w /\
  log w' = log w.
Proof.
  unfold build_daytimes, bind.
  destruct (build_daytimes_loop cfg e daytimes 0 daytimes ∅ w)
    as [[[]|ex] w1] eqn:Hl; [|discriminate].
  unfold ret. intros [= <- <-].
  apply build_daytimes_loop_daily in Hl
    as (Hadd & Hact & Hh & Ht & _ & Hls & Hc & Hg).
  split; [reflexivity|]. split; [exact Hadd|]. split; [exact Hact|].
  repeat split; assumption.
Qed.
Lemma round_outcome_ok_intro daytimes idx raw seen t nr tn :
  parsed_start raw = Some t ->
  bare_scene raw = false ->
  daytimes !! ((idx + 1) mod length daytimes)%nat = Some nr ->
  time_fromisoformat (py_str (raw_starttime nr)) = Some tn ->
  t ∉ seen ->
  round_outcome daytimes idx raw seen = Ok ({[t]} ∪ seen).
Proof.
  unfold round_outcome, parsed_start. intros Hp Hb Hn Hf Hnew.
  rewrite Hb. destruct (raw_starttime raw) as [s|]; [|discriminate].
  rewrite Hp, Hn, Hf. rewrite bool_decide_eq_false_2 by exact Hnew.
  reflexivity.
Qed.

Lemma start_seen_step daytimes idx seen raw t :
  start_seen daytimes idx seen ->
  daytimes !! idx = Some raw ->
  parsed_start raw = Some t ->
  start_seen daytimes (S idx) ({[t]} ∪ seen).
Proof.
  intros Hseen Hraw Hp t'. unfold start_seen in Hseen.
  rewrite elem_of_union, elem_of_singleton, (Hseen t').
  split.
  - intros [-> | (k & r & Hk & Hr & Hpr)].
    + exists idx, raw. split; [lia|]. split; assumption.
    + exists k, r. split; [lia|]. split; assumption.
  - intros (k & r & Hk & Hr & Hpr).
    destruct (decide (k = idx)) as [->|Hne].
    + left. rewrite Hraw in Hr. injection Hr as <-. congruence.
    + right. exists k, r. split; [lia|]. split; assumption.
Qed.

Lemma loop_outcome_accepts daytimes todo :
  forall idx seen,
    drop idx daytimes = todo ->
    start_seen daytimes idx seen ->
    loop_outcome daytimes idx todo seen = Ok tt <->
    forall k raw, (idx <= k)%nat -> daytimes !! k = Some raw ->
                  round_accepts daytimes k raw.
Proof.
  induction todo as [|raw rest IH]; intros idx seen Hdrop Hseen.
  - cbn. split; [|reflexivity]. intros _ k r Hk Hr. exfalso.
    assert (Hl : drop idx daytimes !! (k - idx)%nat = Some r).
    { rewrite lookup_drop. replace (idx + (k - idx))%nat with k by lia.
      exact Hr. }
    rewrite Hdrop in Hl. discriminate Hl.
  - assert (Hraw : daytimes !! idx = Some raw).
    { pose proof (lookup_drop daytimes idx 0) as Hl.
      rewrite Hdrop, Nat.add_0_r in Hl. symmetry. exact Hl. }
    assert (Hrest : drop (S idx) daytimes = rest).
    { pose proof (drop_S daytimes raw idx Hraw) as Hd.
      rewrite Hdrop in Hd. injection Hd as Hd. symmetry. exact Hd. }
    cbn [loop_outcome]. split.
    + destruct (round_outcome daytimes idx raw seen) as [seen'|ex] eqn:Hr;
        [|discriminate].
      intros Hloop.
      apply round_outcome_ok in Hr
        as (t & nr & tn & Hp & Hb & Hn & Hf & Hnew & ->).
      pose proof (start_seen_step _ _ _ _ _ Hseen Hraw Hp) as Hseen'.
      pose proof (proj1 (IH (S idx) _ Hrest Hseen') Hloop) as Hall.
      intros k r Hk Hkr. destruct (decide (k = idx)) as [->|Hne].
      * rewrite Hraw in Hkr. injection Hkr as <-.
        split; [exact Hb|]. split.
        -- exists t. split; [exact Hp|]. intros i r Hi Hir Hpr.
           apply Hnew, Hseen. exists i, r. auto.
        -- exists nr. split; [exact Hn|]. rewrite Hf. eauto.
      * apply Hall; [lia | exact Hkr].
    + intros Hall.
      destruct (Hall idx raw (le_n _) Hraw)
        as (Hb & (t & Hp & Hnew) & (nr & Hn & [tn Hf])).
      assert (Hnot : t ∉ seen).
      { intros Hin. apply Hseen in Hin as (i & r & Hi & Hir & Hpr).
        exact (Hnew i r Hi Hir Hpr). }
      rewrite (round_outcome_ok_intro _ _ _ _ t nr tn Hp Hb Hn Hf Hnot).
      apply (IH (S idx) _ Hrest (start_seen_step _ _ _ _ _ Hseen Hraw Hp)).
      intros k r Hk Hkr. apply Hall; [lia | exact Hkr].
Qed.

Lemma acceptable_rounds daytimes :
  acceptable daytimes <->
  forall k raw, daytimes !! k = Some raw -> round_accepts daytimes k raw.
Proof.
  split.
  - intros [Hall Hdist] k raw Hk.
    destruct (Hall raw (list_elem_of_lookup_2 _ _ _ Hk)) as (Hb & [t Hp] & _).
    split; [exact Hb|]. split.
    + exists t. split; [exact Hp|]. intros i r Hi Hir Hpr.
      exact (Hdist i k r raw t Hi Hir Hk Hpr Hp).
    + pose proof (lookup_lt_Some _ _ _ Hk) as Hlt.
      assert (Hn : ((k + 1) mod length daytimes < length daytimes)%nat)
        by (apply Nat.mod_upper_bound; lia).
      destruct (lookup_lt_is_Some_2 _ _ Hn) as [nr Hnr].
      exists nr. split; [exact Hnr|].
      apply (Hall nr (list_elem_of_lookup_2 _ _ _ Hnr)).
  - intros Hall. split.
    + intros raw Hin. apply list_elem_of_lookup_1 in Hin as [k Hk].
      destruct (Hall k raw Hk) as (Hb & (t & Hp & _) & _).
      split; [exact Hb|]. split; [rewrite Hp; eauto|].
      pose proof (lookup_lt_Some _ _ _ Hk) as Hlt.
      set (k' := match k with O => (length daytimes - 1)%nat | S p => p end).
      assert (Hk' : (k' < length daytimes)%nat) by (subst k'; destruct k; lia).
      assert (Hnext : ((k' + 1) mod length daytimes)%nat = k).
      { subst k'. destruct k as [|p].
        - replace (length daytimes - 1 + 1)%nat with (length daytimes) by lia.
          apply Nat.Div0.mod_same.
        - replace (p + 1)%nat with (S p) by lia. apply Nat.mod_small. lia. }
      destruct (lookup_lt_is_Some_2 _ _ Hk') as [r' Hr'].
      destruct (Hall k' r' Hr') as (_ & _ & (nr & Hnr & Hf)).
      rewrite Hnext, Hk in Hnr. injection Hnr as <-. exact Hf.
    + intros i j ri rj t Hij Hi Hj Hpi Hpj.
      destruct (Hall j rj Hj) as (_ & (t' & Hp' & Hnew) & _).
      rewrite Hpj in Hp'. injection Hp' as <-.
      exact (Hnew i ri Hij Hi Hpi).
Qed.

(** X17.  [build_daytimes] returns exactly on the lists in which no
    light setting is a string without the prefix ["scene."], every entry
    has a start time that both [parse_time] (with [":00"] appended) and
    [time.fromisoformat] (as written) read, and all parsed start times
    are different; on every other list it raises.  What the two parsers
    read is what they answer at the time of the call. *)
Theorem build_daytimes_accepts cfg e daytimes w :
  is_ok (build_daytimes cfg e daytimes w) = true <-> acceptable daytimes.
Proof.
  rewrite build_daytimes_is_ok, acceptable_rounds.
  assert (H0 : start_seen daytimes 0 ∅).
  { intros t. split.
    - intros Hin. apply elem_of_empty in Hin. destruct Hin.
    - intros (k & r & Hk & _). lia. }
  pose proof (loop_outcome_accepts daytimes daytimes 0 ∅ eq_refl H0) as Hl.
  split.
  - destruct (loop_outcome daytimes 0 daytimes ∅) as [[]|ex]; [|discriminate].
    intros _ k raw Hk. apply (proj1 Hl eq_refl k raw); [lia | exact Hk].
  - intros Hall.
    rewrite (proj2 Hl (fun k raw _ Hk => Hall k raw Hk)). reflexivity.
Qed.
(** X18.  The look-ahead of l. 413 reads the next entry's start time
    before the round has checked its own entry for a duplicate: when
    [time.fromisoformat] rejects it the round raises the [ValueError] of
    [fromisoformat], which names the text and not the daytime, and writes
    nothing.  A second entry without a start time is reported this way,
    as the text ["None"], by the round of the first entry. *)
Theorem next_starttime_checked_by_previous_round cfg e daytimes w :
  (forall idx raw seen t nr,
     bare_scene raw = false ->
     parsed_start raw = Some t ->
     daytimes !! ((idx + 1) mod length daytimes)%nat = Some nr ->
     time_fromisoformat (py_str (raw_starttime nr)) = None ->
     build_daytime cfg e daytimes idx raw seen w
       = (Raise (ValueError_fromisoformat (py_str (raw_starttime nr))), w)) /\
  (forall raw0 raw1 rest t,
     daytimes = raw0 :: raw1 :: rest ->
     bare_scene raw0 = false ->
     parsed_start raw0 = Some t ->
     raw_starttime raw1 = None ->
     time_fromisoformat "None" = None ->
     build_daytimes cfg e daytimes w
       = (Raise (ValueError_fromisoformat "None"), w)).
Proof.
  assert (Hround : forall idx raw seen t nr,
     bare_scene raw = false ->
     parsed_start raw = Some t ->
     daytimes !! ((idx + 1) mod length daytimes)%nat = Some nr ->
     time_fromisoformat (py_str (raw_starttime nr)) = None ->
     build_daytime cfg e daytimes idx raw seen w
       = (Raise (ValueError_fromisoformat (py_str (raw_starttime nr))), w)).
  { intros idx raw seen t nr Hb Hp Hn Hf. unfold parsed_start in Hp.
    unfold build_daytime. cbv zeta. unfold bind at 1.
    rewrite daytime_is_hue_group_spec, Hb.
    destruct (raw_starttime raw) as [s|]; [|discriminate].
    unfold bind at 1. rewrite Hp. unfold ret at 1.
    unfold bind at 1. rewrite Hn. unfold ret at 1.
    unfold bind at 1. rewrite Hf. reflexivity. }
  split; [exact Hround|].
  intros raw0 raw1 rest t -> Hb Hp Hs Hf.
  unfold build_daytimes. cbn [build_daytimes_loop].
  assert (H1 : (raw0 :: raw1 :: rest)
                 !! ((0 + 1) mod length (raw0 :: raw1 :: rest))%nat
               = Some raw1).
  { cbn [length]. rewrite Nat.mod_small by lia. reflexivity. }
  assert (Hf' : time_fromisoformat (py_str (raw_starttime raw1)) = None)
    by (rewrite Hs; exact Hf).
  pose proof (Hround 0%nat raw0 ∅ t raw1 Hb Hp H1 Hf') as Hr.
  rewrite Hs in Hr. cbn [py_str] in Hr.
  rewrite (bind_raise _ _ _ _ _ (bind_raise _ _ _ _ _ Hr)). reflexivity.
Qed.

(** X19.  [switch_daytime] replaces the active daytime and nothing else:
    no service call, and the pending timer keeps the delay it was
    scheduled with (without a daytime in [kwargs] nothing changes at
    all).  The new delay is the one the next [refresh_timer] schedules;
    a delay of 0 then leaves no timer of the application pending. *)
Theorem switch_daytime_acts_at_next_refresh d initial w :
  let r := switch_daytime (Some d) initial w in
  let w2 := snd (refresh_timer (snd r)) in
  fst r = Ok tt /\
  active (snd r) = Some d /\
  handles (snd r) = handles w /\ timers (snd r) = timers w /\
  service_calls (snd r) = service_calls w /\
  switch_daytime None initial w = (Ok tt, w) /\
  (delay d ≠ 0%Z ->
   handles w2 = {[next_handle w]} /\
   last (timers w2) = Some (next_handle w, delay d)) /\
  (delay d = 0%Z ->
   handles w2 = ∅ /\ forall t, t ∈ timers w2 -> fst t ∉ handles w).
Proof.
  intros r w2.
  assert (Hr : r = (Ok tt,
                    if initial then with_active (Some d) w
                    else with_log
                           (log w ++
                            [log_daytime (daytime d) (light_setting d)
                               (delay d)])
                           (with_active (Some d) w))).
  { unfold r, switch_daytime, bind, modify, lg, modify.
    destruct initial; reflexivity. }
  assert (Hf : active (snd r) = Some d /\ handles (snd r) = handles w /\
               timers (snd r) = timers w /\
               next_handle (snd r) = next_handle w /\
               service_calls (snd r) = service_calls w).
  { rewrite Hr. destruct initial; repeat split. }
  destruct Hf as (Ha & Hh & Ht & Hn & Hc).
  split; [rewrite Hr; reflexivity|]. split; [exact Ha|].
  split; [exact Hh|]. split; [exact Ht|]. split; [exact Hc|].
  split; [reflexivity|].
  unfold w2. rewrite refresh_timer_exact. cbv zeta. rewrite Ha, Hh, Ht, Hn.
  split.
  - intros Hd. rewrite bool_decide_true by exact Hd.
    split; [reflexivity|]. cbn [snd timers with_handles with_timers].
    apply last_snoc.
  - intros Hd. rewrite bool_decide_false by (intros Hne; exact (Hne Hd)).
    split; [reflexivity|]. cbn [snd timers with_handles with_timers].
    intros t Hin Hmem. apply elem_of_elements in Hmem.
    revert Hin Hmem. generalize (timers w).
    induction (elements (handles w)) as [|h hs IH]; intros ts Hin Hmem.
    + apply elem_of_nil in Hmem. exact Hmem.
    + cbn [remaining_timers] in Hin.
      apply elem_of_cons in Hmem as [Hmem|Hmem].
      * assert (Hsub : forall hs0 ts0 (x : handle * Z),
                  x ∈ remaining_timers hs0 ts0 -> x ∈ ts0).
        { clear. induction hs0 as [|h0 hs0 IH0]; intros ts0 x Hx.
          - exact Hx.
          - cbn [remaining_timers] in Hx. apply IH0 in Hx.
            apply list_elem_of_In, filter_In in Hx as [Hx _].
            apply list_elem_of_In, Hx. }
        apply Hsub in Hin. apply filter_other_handle in Hin.
        exact (Hin Hmem).
      * exact (IH _ Hin Hmem).
Qed.
(** *** Hue groups *)

Lemma hue_free_log l w : hue_free w -> hue_free (with_log l w).
Proof. intros H. exact H. Qed.

Lemma hue_free_cancel : preserves hue_free cancel_scheduled_callbacks.
Proof. intros w H. rewrite cancel_scheduled_callbacks_exact. exact H. Qed.

Lemma hue_free_refresh : preserves hue_free refresh_timer.
Proof.
  intros w H. rewrite refresh_timer_exact. cbv zeta.
  destruct (active w) as [d|] eqn:Ea; [destruct (bool_decide _)|];
    (split; [intros d' Hd'; apply (proj1 H); cbn in Hd'; congruence
            | exact (proj2 H)]).
Qed.

Lemma hue_free_call c : not_hue c -> preserves hue_free (call_service c).
Proof.
  intros Hc w [Ha Hcalls]. split; [exact Ha|].
  cbn. apply Forall_app. split; [exact Hcalls|].
  constructor; [exact Hc | constructor].
Qed.

Lemma hue_free_lg msg : preserves hue_free (lg msg).
Proof. intros w H. exact H. Qed.

Lemma hue_free_is_disabled cfg e : preserves hue_free (is_disabled cfg e).
Proof.
  unfold is_disabled. induction (disable_switch_entities cfg) as [|s l IH];
    simpl; [apply preserves_ret|].
  destruct (switch_disables e s); [|exact IH].
  apply preserves_bind; [apply hue_free_lg | intros; apply preserves_ret].
Qed.

Lemma hue_free_turn_off_now cfg e : preserves hue_free (turn_off_now cfg e).
Proof.
  unfold turn_off_now.
  apply preserves_bind; [apply hue_free_cancel | intros _].
  apply preserves_if; [|apply preserves_ret].
  apply preserves_bind.
  - apply preserves_for_each. intros x. apply hue_free_call. exact I.
  - intros _. apply preserves_bind; [apply preserves_active_get|].
    intros d. apply hue_free_lg.
Qed.

Lemma hue_free_lights_off cfg e : preserves hue_free (lights_off cfg e).
Proof.
  unfold lights_off.
  apply preserves_bind; [apply hue_free_is_disabled | intros [|]];
    [apply preserves_ret|].
  apply preserves_bind.
  - apply preserves_if; [apply preserves_lift | apply preserves_ret].
  - intros blocker. destruct (last blocker) as [s|].
    + apply preserves_bind; [apply hue_free_refresh | intros _].
      apply preserves_bind; [apply preserves_active_get|].
      intros d. apply hue_free_lg.
    + apply hue_free_turn_off_now.
Qed.

Lemma hue_free_lights_on_action cfg e :
  preserves hue_free (lights_on_action cfg e).
Proof.
  unfold lights_on_action.
  apply preserves_bind; [apply preserves_active_get | intros setting].
  destruct setting as [pct|scene|r].
  - apply preserves_if; [apply hue_free_lights_off|].
    apply preserves_for_each. intros x.
    apply preserves_if; [apply hue_free_call; exact I|].
    apply preserves_bind; [apply hue_free_call; exact I | intros _].
    apply preserves_bind; [apply preserves_active_get|].
    intros d. apply hue_free_lg.
  - apply preserves_bind.
    + apply preserves_for_each. intros x w H.
      unfold bind at 1, active_get at 1.
      destruct (active w) as [d|] eqn:Ea; [|exact H].
      rewrite (proj1 H d Ea). cbn [andb].
      apply hue_free_call; [exact I | exact H].
    + intros _. apply preserves_bind; [apply preserves_active_get|].
      intros hue. apply preserves_bind; [apply preserves_active_get|].
      intros d. apply hue_free_lg.
  - apply preserves_raise.
Qed.

Lemma hue_free_lights_on cfg e : preserves hue_free (lights_on cfg e).
Proof.
  unfold lights_on.
  apply preserves_if; [|apply hue_free_lights_on_action].
  destruct (illuminance_blocker _ _ _ _) as [[|x bl]|s st|s].
  - apply hue_free_lights_on_action.
  - apply hue_free_lg.
  - apply hue_free_lg.
  - apply preserves_raise.
Qed.

Lemma hue_free_run_callback cfg e c :
  (forall d, c = on_switch_daytime d -> is_hue_group d = false) ->
  preserves hue_free (run_callback cfg e c).
Proof.
  intros Hd. destruct c as [event entity_id|entity_id| | | |d];
    cbn [run_callback].
  - unfold motion_event.
    apply preserves_bind; [apply hue_free_lg | intros _].
    apply preserves_bind; [apply hue_free_is_disabled | intros [|]];
      [apply preserves_ret|].
    apply preserves_bind.
    + apply preserves_if; [apply hue_free_lights_on | apply hue_free_lg].
    + intros _. apply preserves_if; [|apply preserves_ret].
      apply preserves_bind; [apply hue_free_refresh|].
      intros; apply preserves_ret.
  - unfold motion_detected. cbv zeta.
    apply preserves_bind; [apply hue_free_cancel|].
    intros; apply preserves_ret.
  - unfold motion_cleared.
    apply preserves_if; [|apply hue_free_cancel].
    apply preserves_bind; [apply hue_free_refresh|].
    intros; apply preserves_ret.
  - apply preserves_bind; [apply hue_free_refresh|].
    intros; apply preserves_ret.
  - apply hue_free_lights_off.
  - unfold switch_daytime.
    apply preserves_bind; [|intros _; apply hue_free_lg].
    apply preserves_modify. intros w [_ Hc]. split; [|exact Hc].
    intros d' Hd'. cbn in Hd'. injection Hd' as <-.
    apply Hd. reflexivity.
Qed.

Lemma hue_free_run_callbacks cfg trace :
  (forall e d, (e, on_switch_daytime d) ∈ trace -> is_hue_group d = false) ->
  forall w, hue_free w -> hue_free (run_callbacks cfg trace w).
Proof.
  induction trace as [|[e c] trace IH]; intros Hd w H; [exact H|].
  cbn [run_callbacks]. apply IH.
  - intros e' d Hin. apply (Hd e' d). right. exact Hin.
  - apply hue_free_run_callback; [|exact H].
    intros d ->. apply (Hd e d). left.
Qed.

Lemma hue_free_initialize a e cfg w0 :
  initialize a e = (Ok cfg, w0) ->
  hue_free w0 /\ forall t d, (t, d) ∈ daily w0 -> is_hue_group d = false.
Proof.
  intros Hinit.
  destruct (initialize_steps a e cfg w0 Hinit) as (_ & w2 & Hb & Hl).
  revert Hb. unfold build_daytimes, bind.
  match goal with
  | |- context [build_daytimes_loop cfg e ?ds 0 ?ds ∅ ?w] =>
      destruct (build_daytimes_loop cfg e ds 0 ds ∅ w)
        as [[[]|ex] w2'] eqn:Hloop; [|discriminate]
  end.
  unfold ret. intros [= <-].
  apply build_daytimes_loop_daily in Hloop
    as ((added & Hd & Hlen & Hlk) & Hact & _ & _ & _ & _ & Hc & _).
  cbn in Hd, Hact, Hc.
  assert (H2 : hue_free w2').
  { split.
    - intros d Ha. destruct Hact as [Hact | (k & r & t & _ & _ & Hact)].
      + rewrite Hact in Ha. discriminate Ha.
      + rewrite Hact in Ha. injection Ha as <-. reflexivity.
    - rewrite Hc. constructor. }
  split.
  - change w0 with (snd (Ok tt, w0)). rewrite <- Hl.
    apply preserves_for_each; [|exact H2].
    intros x. apply startup_listen_sensor.
    + intros l w H. exact H.
    + apply hue_free_refresh.
  - apply listen_sensors_listeners in Hl as (_ & _ & Hdaily).
    rewrite Hdaily, Hd. intros t d Hin.
    apply list_elem_of_lookup_1 in Hin as [k Hk].
    pose proof (lookup_lt_Some _ _ _ Hk) as Hlt. rewrite Hlen in Hlt.
    destruct (lookup_lt_is_Some_2 _ _ Hlt) as [raw Hraw].
    destruct (Hlk k raw Hraw) as (t' & _ & Hk').
    rewrite Hk in Hk'. injection Hk' as _ ->. reflexivity.
Qed.

(** X20.  [hue/hue_activate_scene] is never called.  Every daytime a
    start-up registers carries [is_hue_group = False], because l. 394
    either is not reached or raises; so as long as the daytimes switched
    to are among the registered ones, no run of callbacks activates a
    hue scene, whatever the lights report about being a hue group. *)
Theorem hue_scene_never_activated a e0 cfg w0 trace :
  initialize a e0 = (Ok cfg, w0) ->
  (forall e d, (e, on_switch_daytime d) ∈ trace ->
               exists t, (t, d) ∈ daily w0) ->
  (forall t d, (t, d) ∈ daily w0 -> is_hue_group d = false) /\
  (forall group scene,
     hue_activate_scene group scene
       ∉ service_calls (run_callbacks cfg trace w0)).
Proof.
  intros Hinit Htrace.
  destruct (hue_free_initialize a e0 cfg w0 Hinit) as [H0 Hdaily].
  split; [exact Hdaily|].
  assert (Hd : forall e d, (e, on_switch_daytime d) ∈ trace ->
                           is_hue_group d = false).
  { intros e d Hin. destruct (Htrace e d Hin) as [t Ht].
    exact (Hdaily t d Ht). }
  destruct (hue_free_run_callbacks cfg trace Hd w0 H0) as [_ Hcalls].
  intros group scene Hin.
  rewrite Forall_forall in Hcalls. exact (Hcalls _ Hin).
Qed.
(** *** Finding entities by name *)

Lemma prefix_nil_r a : String.prefix a EmptyString = true -> a = EmptyString.
Proof. destruct a; [reflexivity | discriminate]. Qed.

Lemma prefix_cons a c rest :
  String.prefix a (String c rest) = true ->
  a = EmptyString \/
  exists a', a = String c a' /\ String.prefix a' rest = true.
Proof.
  destruct a as [|x a']; [auto|]. cbn.
  destruct (ascii_dec x c) as [->|]; [|discriminate].
  intros H. right. exists a'. auto.
Qed.

Lemma prefix_trans a : forall b c,
  String.prefix a b = true -> String.prefix b c = true ->
  String.prefix a c = true.
Proof.
  induction a as [|x a IH]; intros b c Hab Hbc.
  - destruct c; reflexivity.
  - destruct b as [|y b]; [discriminate Hab|].
    apply prefix_cons in Hab as [Hab | (a' & [= <- <-] & Hab)];
      [discriminate Hab|].
    destruct c as [|z c]; [discriminate Hbc|].
    apply prefix_cons in Hbc as [Hbc | (b' & [= <- <-] & Hbc)];
      [discriminate Hbc|].
    cbn. destruct (ascii_dec x x) as [_|Hne]; [|congruence].
    exact (IH _ _ Hab Hbc).
Qed.

Lemma str_contains_cons a c rest :
  str_contains a (String c rest)
  = String.prefix a (String c rest) || str_contains a rest.
Proof. reflexivity. Qed.

Lemma str_contains_prefix a b : forall c,
  str_contains a b = true -> String.prefix b c = true ->
  str_contains a c = true.
Proof.
  induction b as [|y b IH]; intros c Hab Hbc.
  - cbn in Hab. rewrite orb_false_r in Hab. apply prefix_nil_r in Hab.
    subst a. destruct c; reflexivity.
  - destruct c as [|z c]; [discriminate Hbc|].
    apply prefix_cons in Hbc as [Hbc | (b' & [= <- <-] & Hbc)];
      [discriminate Hbc|].
    rewrite str_contains_cons in Hab. rewrite str_contains_cons.
    apply orb_true_iff in Hab as [Hab|Hab]; apply orb_true_iff.
    + left. apply (prefix_trans a (String y b) (String y c) Hab).
      cbn. destruct (ascii_dec y y) as [_|Hne]; [exact Hbc | congruence].
    + right. exact (IH c Hab Hbc).
Qed.

Lemma str_contains_trans a b c :
  str_contains a b = true -> str_contains b c = true ->
  str_contains a c = true.
Proof.
  intros Hab. induction c as [|z c IH]; intros Hbc.
  - change (str_contains b EmptyString)
      with (String.prefix b EmptyString || false) in Hbc.
    rewrite orb_false_r in Hbc.
    exact (str_contains_prefix a b _ Hab Hbc).
  - rewrite str_contains_cons in Hbc.
    apply orb_true_iff in Hbc as [Hbc|Hbc].
    + exact (str_contains_prefix a b _ Hab Hbc).
    + rewrite str_contains_cons. apply orb_true_iff. right. exact (IH Hbc).
Qed.

Lemma prefix_umlaut c rest :
  String.prefix u_umlaut (String c rest) = true ->
  c = ascii_of_N 195 /\ head_char rest = Some (ascii_of_N 188).
Proof.
  intros H. apply prefix_cons in H as [H | (a' & [= <- <-] & H)];
    [discriminate H|].
  split; [reflexivity|]. destruct rest as [|c2 rest]; [discriminate H|].
  apply prefix_cons in H as [H | (a'' & [= <- _] & _)];
    [discriminate H | reflexivity].
Qed.

Lemma replace_u_umlaut_clean n : forall s,
  (String.length s <= n)%nat ->
  str_contains u_umlaut (replace_u_umlaut s) = false /\
  (head_char (replace_u_umlaut s) = head_char s \/
   head_char (replace_u_umlaut s) = Some "u"%char).
Proof.
  induction n as [|n IH]; intros s Hlen.
  - destruct s; [|cbn in Hlen; lia]. split; [reflexivity | left; reflexivity].
  - destruct s as [|c1 [|c2 rest]].
    + split; [reflexivity | left; reflexivity].
    + split; [|left; reflexivity].
      change (replace_u_umlaut (String c1 EmptyString))
        with (String c1 EmptyString).
      rewrite str_contains_cons.
      destruct (String.prefix u_umlaut (String c1 EmptyString)) eqn:Hp;
        [|reflexivity].
      apply prefix_umlaut in Hp as [_ Hp]. discriminate Hp.
    + change (replace_u_umlaut (String c1 (String c2 rest)))
        with (if (N_of_ascii c1 =? 195)%N && (N_of_ascii c2 =? 188)%N
              then String "u" (replace_u_umlaut rest)
              else String c1 (replace_u_umlaut (String c2 rest))).
      destruct ((N_of_ascii c1 =? 195)%N && (N_of_ascii c2 =? 188)%N) eqn:Hc.
      * split; [|right; reflexivity].
        rewrite str_contains_cons.
        destruct (IH rest) as [Hr _]; [cbn in Hlen |- *; lia|].
        rewrite Hr, orb_false_r.
        destruct (String.prefix u_umlaut _) eqn:Hp; [|reflexivity].
        apply prefix_umlaut in Hp as [Hp _]. discriminate Hp.
      * split; [|left; reflexivity].
        rewrite str_contains_cons.
        destruct (IH (String c2 rest)) as [Hr Hh]; [cbn in Hlen |- *; lia|].
        rewrite Hr, orb_false_r.
        destruct (String.prefix u_umlaut _) eqn:Hp; [|reflexivity].
        apply prefix_umlaut in Hp as [-> Hp]. rewrite Hp in Hh.
        destruct Hh as [Hh|Hh]; [|discriminate Hh].
        cbn in Hh. injection Hh as <-. discriminate Hc.
Qed.

(** X21.  A room whose name contains the letter "ü" finds no entity by
    name.  The letter is replaced by "u" in the friendly name before the
    room name is looked for in it, but not in the room name, so the test
    of l. 380 fails for every entity, whatever its friendly name and
    whatever [lower] does. *)
Theorem find_sensors_misses_umlaut_room room_name e keyword :
  str_contains u_umlaut room_name = true ->
  find_sensors room_name e keyword = [].
Proof.
  intros Hroom. unfold find_sensors. apply filter_none. intros x _.
  apply andb_false_iff. right.
  destruct (str_contains room_name _) eqn:Hc; [|reflexivity].
  pose proof (str_contains_trans _ _ _ Hroom Hc) as Hu.
  match type of Hu with
  | str_contains _ (replace_u_umlaut ?s) = true =>
      destruct (replace_u_umlaut_clean (String.length s) s (le_n _))
        as [Hclean _]
  end.
  rewrite Hclean in Hu. discriminate Hu.
Qed.

(** *** Highlighting an entity id *)

Lemma split_dot_length s : length (split_dot s) = S (count_dots s).
Proof.
  induction s as [|c rest IH]; [reflexivity|].
  cbn [split_dot count_dots]. destruct (Ascii.eqb c ".").
  - cbn. rewrite IH. reflexivity.
  - destruct (split_dot rest) as [|piece pieces]; [discriminate IH|].
    cbn in IH |- *. exact IH.
Qed.

Lemma split_dot_concat s : String.concat "." (split_dot s) = s.
Proof.
  induction s as [|c rest IH]; [reflexivity|].
  cbn [split_dot]. pose proof (split_dot_length rest) as Hlen.
  destruct (Ascii.eqb c ".") eqn:Hc.
  - apply Ascii.eqb_eq in Hc. subst c.
    destruct (split_dot rest) as [|piece pieces]; [discriminate Hlen|].
    change (String.concat "." (EmptyString :: piece :: pieces))
      with (String "." (String.concat "." (piece :: pieces))).
    rewrite IH. reflexivity.
  - destruct (split_dot rest) as [|piece pieces]; [discriminate Hlen|].
    destruct pieces as [|p2 pieces].
    + cbn in IH |- *. rewrite IH. reflexivity.
    + change (String.concat "." (String c piece :: p2 :: pieces))
        with (String c (String.concat "." (piece :: p2 :: pieces))).
      rewrite IH. reflexivity.
Qed.

Lemma split_dot_pieces s :
  Forall (fun piece => count_dots piece = 0%nat) (split_dot s).
Proof.
  induction s as [|c rest IH]; [repeat constructor|].
  cbn [split_dot]. destruct (Ascii.eqb c ".") eqn:Hc.
  - constructor; [reflexivity | exact IH].
  - destruct (split_dot rest) as [|piece pieces].
    + constructor; [cbn; rewrite Hc; reflexivity | constructor].
    + inversion IH as [|? ? Hp Hps]; subst.
      constructor; [cbn; rewrite Hc, Hp; reflexivity | exact Hps].
Qed.

(** X22.  [hl_entity] returns exactly on the strings with one dot; on any
    other string the unpacking raises.  When it returns, the result is
    the domain, the dot and the highlighted name, where domain and name
    are the parts of the argument before and after its dot. *)
Theorem hl_entity_needs_one_dot entity :
  (is_Some (hl_entity entity) <-> count_dots entity = 1%nat) /\
  (forall r, hl_entity entity = Some r ->
     exists domain name,
       entity = (domain ++ "." ++ name)%string /\
       count_dots domain = 0%nat /\ count_dots name = 0%nat /\
       r = (domain ++ "." ++ hl name)%string).
Proof.
  unfold hl_entity.
  pose proof (split_dot_length entity) as Hlen.
  pose proof (split_dot_concat entity) as Hcat.
  pose proof (split_dot_pieces entity) as Hp.
  destruct (split_dot entity) as [|domain [|name [|x rest]]].
  - discriminate Hlen.
  - cbn in Hlen. split.
    + split; [intros [r Hr]; discriminate Hr | intros H; lia].
    + intros r Hr. discriminate Hr.
  - cbn in Hlen. split.
    + split; [intros _; lia | intros _; eauto].
    + intros r [= <-]. exists domain, name.
      apply Forall_cons in Hp as [Hd Hrest].
      apply Forall_cons in Hrest as [Hn _].
      split; [symmetry; exact Hcat|]. repeat split; assumption.
  - cbn in Hlen. split.
    + split; [intros [r Hr]; discriminate Hr | intros H; lia].
    + intros r Hr. discriminate Hr.
Qed.

End AutoMoLi.

(** ** The theorems at a concrete room *)

(** C1 on the bathroom: started at 08:00 with the default daytimes, then a
    motion event, a detected and a cleared motion and the expiry of the
    timer. *)
Lemma handles_at_most_one_witness :
  let w :=
    run_callbacks decimal_float (bath_cfg None None)
      [ (bath_env (Some "off") None None (Some "on") 28800%Z,
         on_motion_event EVENT_MOTION_XIAOMI "binary_sensor.motion_sensor_bath");
        (bath_env (Some "on") None None (Some "on") 28800%Z,
         on_motion_detected "binary_sensor.motion_sensor_bath");
        (bath_env (Some "on") None None (Some "on") 28800%Z, on_motion_cleared);
        (bath_env (Some "on") None None (Some "on") 28800%Z, on_lights_off) ]
      bath_world in
  (size (handles w) <= 1)%nat /\
  exists d, active w = Some d /\
    (delay d ≠ 0%Z -> size (handles (snd (refresh_timer w))) = 1%nat) /\
    (delay d = 0%Z -> size (handles (snd (refresh_timer w))) = 0%nat).
Proof.
  apply (handles_at_most_one decimal_float ascii_lower clock_parse_time
           clock_fromisoformat (bath_args None None None)
           (bath_env (Some "off") None None (Some "on") 28800%Z)).
  vm_compute. reflexivity.
Defined.

(** C2 as stated fails on the state-change path: with the disable switch
    reading ["off"] and the timer of handle 0 pending, [motion_detected]
    cancels that timer and empties the handle set. *)
Lemma motion_detected_cancels_while_disabled :
  let cfg := bath_cfg None None in
  let e := bath_env (Some "on") None None (Some "off") 28800%Z in
  let r := motion_detected decimal_float cfg e
             "binary_sensor.motion_sensor_bath" bath_world in
  fst (is_disabled cfg e bath_world) = Ok true /\
  handles bath_world = {[0%nat]} /\
  timers bath_world = [(0%nat, 150%Z)] /\
  handles (snd r) = ∅ /\
  timers (snd r) = [] /\
  handles (snd r) ≠ handles bath_world.
Proof.
  vm_compute. repeat split; try reflexivity. discriminate.
Defined.

(** The amended C2 in the same room and state. *)
Lemma disabled_motion_event_ignored_witness :
  let cfg := bath_cfg None None in
  let e := bath_env (Some "off") None None (Some "off") 28800%Z in
  (let r := motion_event decimal_float cfg e EVENT_MOTION_XIAOMI
              "binary_sensor.motion_sensor_bath" bath_world in
   fst r = Ok tt /\
   service_calls (snd r) = service_calls bath_world /\
   active (snd r) = active bath_world /\
   handles (snd r) = handles bath_world /\
   timers (snd r) = timers bath_world /\
   next_handle (snd r) = next_handle bath_world) /\
  (let r := motion_detected decimal_float cfg e
              "binary_sensor.motion_sensor_bath" bath_world in
   service_calls (snd r) = service_calls bath_world /\
   active (snd r) = active bath_world /\
   handles (snd r) = ∅).
Proof.
  apply (disabled_motion_event_ignored decimal_float (bath_cfg None None)
           (bath_env (Some "off") None None (Some "off") 28800%Z)
           EVENT_MOTION_XIAOMI "binary_sensor.motion_sensor_bath" bath_world
           "input_boolean.automoli_bath").
  - apply list_elem_of_here.
  - left. reflexivity.
Defined.



(** C4, scenario C of the specification: threshold 50, the sensor reads
    ["60"]. *)
Lemma illuminance_gate_witness :
  let cfg := bath_cfg None (Some 50%Q) in
  let e := bath_env (Some "off") None (Some "60") (Some "on") 28800%Z in
  lights_on decimal_float cfg e bath_world =
    (Ok tt,
     with_log
       (log bath_world ++ [log_bright_enough ["sensor.illumination_bath"]])
       bath_world).
Proof.
  intros cfg e.
  apply (proj1 (proj2 (illuminance_gate decimal_float cfg e bath_world 50%Q
                         eq_refl eq_refl))).
  - intros s Hs. apply list_elem_of_singleton in Hs. subst s. reflexivity.
  - exists "sensor.illumination_bath". split; [apply list_elem_of_here|].
    reflexivity.
Defined.

(** C5 at the failing input: threshold 60 and a humidity sensor without a
    state when the timer expires; and scenario D of the specification:
    threshold 60, the sensor reads ["75"]. *)
Lemma humidity_gate_witness :
  let cfg := bath_cfg (Some 60%Q) None in
  let e0 := bath_env (Some "on") None None (Some "on") 28800%Z in
  let e := bath_env (Some "on") (Some "75") None (Some "on") 28800%Z in
  let d := default_daytime "day" 27000%Z 100%Z in
  (let r := lights_off decimal_float cfg e0 bath_world in
   fst r = Raise TypeError_float_None /\
   service_calls (snd r) = service_calls bath_world /\
   handles (snd r) = handles bath_world /\
   timers (snd r) = timers bath_world) /\
  (let r := lights_off decimal_float cfg e bath_world in
   fst r = Ok tt /\
   service_calls (snd r) = service_calls bath_world /\
   snd r = with_log (log (snd r)) (snd (refresh_timer bath_world)) /\
   (delay d ≠ 0%Z ->
    handles (snd r) = {[next_handle bath_world]} /\
    last (timers (snd r)) = Some (next_handle bath_world, delay d)) /\
   (delay d = 0%Z -> handles (snd r) = ∅)).
Proof.
  intros cfg e0 e d. split.
  - apply (proj1 (humidity_gate decimal_float cfg e0 bath_world 60%Q d
                    eq_refl eq_refl eq_refl eq_refl)).
    exists "sensor.humidity_bath". split; [apply list_elem_of_here|].
    reflexivity.
  - assert (Hst : forall s, s ∈ humidity_sensors cfg ->
                            is_Some (get_state e s)).
    { intros s Hs. apply list_elem_of_singleton in Hs. subst s.
      exists "75". reflexivity. }
    apply (proj1 (proj2 (humidity_gate decimal_float cfg e bath_world 60%Q d
                           eq_refl eq_refl eq_refl eq_refl) Hst)).
    exists "sensor.humidity_bath". split; [apply list_elem_of_here|].
    reflexivity.
Defined.

(** C6 on two daytimes that both start at 05:30. *)
Lemma duplicate_start_time_fails_witness :
  let cfg := bath_cfg None None in
  let e := bath_env (Some "off") None None (Some "on") 28800%Z in
  let daytimes := [ day_start "05:30" (Some "morning") None;
                    day_start "05:30" (Some "dawn") None ] in
  (exists ex w',
     build_daytimes clock_parse_time clock_fromisoformat cfg e daytimes
       empty_world = (Raise ex, w') /\
     ((forall r, r ∈ daytimes ->
         is_Some (raw_starttime r) /\ bare_scene r = false) ->
      is_ValueError ex = true)) /\
  (forall a e0,
     arg_daytimes a = Some daytimes ->
     is_ok (initialize ascii_lower clock_parse_time clock_fromisoformat a e0)
       = false).
Proof.
  intros cfg e daytimes.
  apply (duplicate_start_time_fails ascii_lower clock_parse_time
           clock_fromisoformat cfg e daytimes empty_world 0 1
           (day_start "05:30" (Some "morning") None)
           (day_start "05:30" (Some "dawn") None) 19800%Z).
  - lia.
  - reflexivity.
  - reflexivity.
  - reflexivity.
  - reflexivity.
Defined.

(** C8 as stated fails twice.  A schedule of one entry, starting at 05:30:
    at 08:00 [build_daytimes] returns and no daytime is active.  A schedule
    with distinct start times listed out of order (07:30, 05:30, 20:30): at
    08:00 the half-open intervals of the first two entries both hold [now],
    and the second entry is the one made active. *)
Lemma schedule_without_unique_active_entry :
  let cfg := bath_cfg None None in
  let e := bath_env (Some "off") None None (Some "on") 28800%Z in
  (let one := [ day_start "05:30" (Some "all_day") None ] in
   let r := build_daytimes clock_parse_time clock_fromisoformat cfg e one
              empty_world in
   fst r = Ok one /\ active (snd r) = None) /\
  (let three := [ day_start "07:30" (Some "day") None;
                  day_start "05:30" (Some "morning") None;
                  day_start "20:30" (Some "evening") None ] in
   let r := build_daytimes clock_parse_time clock_fromisoformat cfg e three
              empty_world in
   half_open_contains 27000%Z 19800%Z 28800%Z = true /\
   half_open_contains 19800%Z 73800%Z 28800%Z = true /\
   fst r = Ok three /\
   option_map daytime (active (snd r)) = Some "morning").
Proof.
  vm_compute. repeat split; reflexivity.
Defined.

(** The amended C8 on the default daytimes at 08:00. *)
Lemma active_entry_installed_witness :
  let cfg := bath_cfg None None in
  let e := bath_env (Some "off") None None (Some "on") 28800%Z in
  let times := [19800; 27000; 73800; 81000]%Z in
  exists i raw t tn,
    DEFAULT_DAYTIMES !! i = Some raw /\
    times !! i = Some t /\
    times !! ((i + 1) mod length times)%nat = Some tn /\
    half_open_contains t tn (now e) = true /\
    (forall j tj nj,
       times !! j = Some tj ->
       times !! ((j + 1) mod length times)%nat = Some nj ->
       half_open_contains tj nj (now e) = true -> j = i) /\
    (exists w',
       build_daytimes clock_parse_time clock_fromisoformat cfg e
         DEFAULT_DAYTIMES empty_world = (Ok DEFAULT_DAYTIMES, w') /\
       active w' = Some (daytime_of cfg i raw t)) /\
    (forall a cfg0 w0,
       arg_daytimes a = Some DEFAULT_DAYTIMES ->
       initialize ascii_lower clock_parse_time clock_fromisoformat a e
         = (Ok cfg0, w0) ->
       active w0 = Some (daytime_of cfg0 i raw t)).
Proof.
  intros cfg e times.
  apply (active_entry_installed ascii_lower clock_parse_time
           clock_fromisoformat cfg e DEFAULT_DAYTIMES times empty_world).
  - simpl. lia.
  - repeat (constructor;
            [unfold well_formed, valid_time; repeat split;
             try reflexivity; lia|]).
    constructor.
  - repeat constructor.
  - unfold valid_time. simpl. lia.
Defined.

(** C9 as stated fails: a daytime whose light setting is the float 50.5
    passes [initialize], is the active daytime at 08:00, and is rejected
    only by the next [lights_on]. *)
Lemma invalid_light_survives_startup :
  let e := bath_env (Some "off") None None (Some "on") 28800%Z in
  let daytimes := [ day_start "00:00" (Some "early") (Some (LOther "50.5"));
                    day_start "12:00" (Some "late") (Some (LInt 100)) ] in
  let r := initialize ascii_lower clock_parse_time clock_fromisoformat
             (bath_args None None (Some daytimes)) e in
  fst r = Ok (bath_cfg None None) /\
  option_map light_setting (active (snd r)) = Some (LOther "50.5") /\
  fst (lights_on decimal_float (bath_cfg None None) e (snd r))
    = Raise (ValueError_invalid_light (LOther "50.5") "bath").
Proof.
  vm_compute. repeat split; reflexivity.
Defined.

(** The amended C9 for the same daytimes. *)
Lemma invalid_light_checked_on_turn_on_witness :
  let cfg := bath_cfg None None in
  let e := bath_env (Some "off") None None (Some "on") 28800%Z in
  let daytimes := [ day_start "00:00" (Some "early") (Some (LOther "50.5"));
                    day_start "12:00" (Some "late") (Some (LInt 100)) ] in
  let d := {| daytime := "early"; delay := 150%Z; starttime := 0%Z;
              light_setting := LOther "50.5"; is_hue_group := false |} in
  let w2 := with_active (Some d) bath_world in
  is_ok (build_daytimes clock_parse_time clock_fromisoformat cfg e daytimes
           empty_world)
    = is_ok (build_daytimes clock_parse_time clock_fromisoformat cfg e
               (map with_valid_light daytimes) empty_world) /\
  lights_on_action decimal_float cfg e w2
    = (Raise (ValueError_invalid_light (LOther "50.5") (room cfg)), w2) /\
  (truthy_threshold (illuminance_threshold cfg) = false ->
   lights_on decimal_float cfg e w2
     = (Raise (ValueError_invalid_light (LOther "50.5") (room cfg)), w2)).
Proof.
  intros cfg e daytimes d w2.
  apply (invalid_light_checked_on_turn_on decimal_float clock_parse_time
           clock_fromisoformat cfg e daytimes empty_world w2 d "50.5").
  - reflexivity.
  - reflexivity.
Defined.

(** C10 with both thresholds configured as 0, and sensors that read far
    above any threshold. *)
Lemma falsy_threshold_disables_gate_witness :
  let cfg := bath_cfg (Some 0%Q) (Some 0%Q) in
  let e := bath_env (Some "on") (Some "99") (Some "99999") (Some "on")
             28800%Z in
  (truthy_threshold (Some 0%Q) = false ->
   truthy_threshold (illuminance_threshold cfg) = false /\
   lights_on decimal_float cfg e bath_world
     = lights_on_action decimal_float cfg e bath_world) /\
  (truthy_threshold (Some 0%Q) = false ->
   truthy_threshold (humidity_threshold cfg) = false /\
   (fst (is_disabled cfg e bath_world) = Ok false ->
    exists l,
      lights_off decimal_float cfg e bath_world
        = turn_off_now cfg e (with_log (log bath_world ++ l) bath_world))).
Proof.
  intros cfg e.
  apply (falsy_threshold_disables_gate decimal_float ascii_lower
           clock_parse_time clock_fromisoformat
           (bath_args (Some 0%Q) (Some 0%Q) None)
           (bath_env (Some "off") None None (Some "on") 28800%Z)
           cfg bath_world e bath_world).
  vm_compute. reflexivity.
Defined.

(** ** The further properties on the bathroom *)

Lemma no_timer_left_behind_witness :
  timers_agree
    (run_callbacks decimal_float (bath_cfg None None)
       [ (bath_env (Some "off") None None (Some "on") 28800%Z,
          on_motion_event EVENT_MOTION_XIAOMI
            "binary_sensor.motion_sensor_bath");
         (bath_env (Some "on") None None (Some "on") 28800%Z, on_lights_off) ]
       bath_world).
Proof.
  apply (no_timer_left_behind decimal_float ascii_lower clock_parse_time
           clock_fromisoformat (bath_args None None None)
           (bath_env (Some "off") None None (Some "on") 28800%Z)).
  vm_compute. reflexivity.
Defined.

Lemma refresh_timer_replaces_own_timer_witness :
  let w1 := snd (refresh_timer bath_world) in
  let w2 := snd (refresh_timer w1) in
  (next_handle bath_world, 150%Z) ∈ timers w1 /\
  handles w2 = {[S (next_handle bath_world)]} /\
  last (timers w2) = Some (S (next_handle bath_world), 150%Z) /\
  (forall t, t ∈ timers w2 -> fst t ≠ next_handle bath_world).
Proof.
  apply (refresh_timer_replaces_own_timer bath_world
           (default_daytime "day" 27000%Z 100%Z)).
  - reflexivity.
  - vm_compute. discriminate.
Defined.

(** The motion sensor reads ["off"] while no off state is configured. *)
Lemma motion_cleared_restarts_when_all_clear_witness :
  let cfg := bath_cfg None None in
  let e := bath_env (Some "on") None None (Some "on") 28800%Z in
  let r := motion_cleared cfg e bath_world in
  fst r = Ok tt /\ handles (snd r) = ∅ /\
  next_handle (snd r) = next_handle bath_world /\
  forall t, t ∈ timers (snd r) ->
            t ∈ timers bath_world /\ fst t ∉ handles bath_world.
Proof.
  intros cfg e.
  apply (proj1 (proj2 (proj2 (proj2
           (motion_cleared_restarts_when_all_clear cfg e bath_world))))).
  exists "binary_sensor.motion_sensor_bath".
  split; [apply list_elem_of_here | discriminate].
Defined.

Lemma lights_off_ignored_while_disabled_witness :
  let cfg := bath_cfg None None in
  let e := bath_env (Some "on") None None (Some "off") 28800%Z in
  let r := lights_off decimal_float cfg e bath_world in
  fst r = Ok tt /\
  service_calls (snd r) = service_calls bath_world /\
  handles (snd r) = handles bath_world /\
  timers (snd r) = timers bath_world /\
  next_handle (snd r) = next_handle bath_world /\
  active (snd r) = active bath_world.
Proof.
  intros cfg e.
  apply (lights_off_ignored_while_disabled decimal_float cfg e bath_world
           "input_boolean.automoli_bath").
  - apply list_elem_of_here.
  - left. reflexivity.
Defined.

(** The humidity sensor of the bathroom has no state. *)
Lemma lights_off_fails_on_stateless_humidity_sensor_witness :
  let cfg := bath_cfg (Some 60%Q) None in
  let e := bath_env (Some "on") None None (Some "on") 28800%Z in
  let r := lights_off decimal_float cfg e bath_world in
  fst r = Raise TypeError_float_None /\
  service_calls (snd r) = service_calls bath_world /\
  handles (snd r) = handles bath_world /\
  timers (snd r) = timers bath_world.
Proof.
  intros cfg e.
  apply (lights_off_fails_on_stateless_humidity_sensor decimal_float cfg e
           bath_world "sensor.humidity_bath").
  - reflexivity.
  - vm_compute. reflexivity.
  - apply list_elem_of_here.
  - reflexivity.
Defined.

Lemma motion_event_leaves_lit_room_witness :
  let cfg := bath_cfg None None in
  let e := bath_env (Some "on") None None (Some "on") 28800%Z in
  service_calls
    (snd (motion_event decimal_float cfg e EVENT_MOTION_XIAOMI
            "binary_sensor.motion_sensor_bath" bath_world))
  = service_calls bath_world.
Proof.
  intros cfg e.
  apply (motion_event_leaves_lit_room decimal_float cfg e EVENT_MOTION_XIAOMI
           "binary_sensor.motion_sensor_bath" bath_world "light.bath").
  - apply list_elem_of_here.
  - reflexivity.
Defined.

(** 10 lx against a threshold of 50 lx, brightness 100 active. *)
Lemma lights_on_brightness_per_light_witness :
  let cfg := bath_cfg None (Some 50%Q) in
  let e := bath_env (Some "off") None (Some "10") (Some "on") 28800%Z in
  lights_on decimal_float cfg e bath_world =
    (Ok tt,
     with_log (log bath_world ++ [log_on_brightness 100 150])
       (with_service_calls
          (service_calls bath_world ++ [turn_on "light.bath" (Some 100%Z)])
          bath_world)).
Proof.
  intros cfg e.
  apply (lights_on_brightness_per_light decimal_float cfg e bath_world
           (default_daytime "day" 27000%Z 100%Z) 100%Z).
  - intros _ s Hs. apply list_elem_of_singleton in Hs. subst s.
    split; reflexivity.
  - reflexivity.
  - reflexivity.
  - discriminate.
Defined.

Lemma lights_on_scene_once_per_light_witness :
  let cfg := bath_cfg None None in
  let e := bath_env (Some "off") None None (Some "on") 28800%Z in
  let d := {| daytime := "evening"; delay := 150%Z; starttime := 73800%Z;
              light_setting := LStr "scene.bath_evening";
              is_hue_group := false |} in
  let w := with_active (Some d) bath_world in
  lights_on decimal_float cfg e w =
    (Ok tt,
     with_log (log w ++ [log_on_scene false "scene.bath_evening" 150])
       (with_service_calls
          (service_calls w ++ [turn_on "scene.bath_evening" None]) w)).
Proof.
  intros cfg e d w.
  apply (lights_on_scene_once_per_light decimal_float cfg e w d
           "scene.bath_evening").
  - intros H. vm_compute in H. discriminate H.
  - reflexivity.
  - reflexivity.
  - reflexivity.
  - reflexivity.
Defined.

Lemma motion_in_dark_daytime_calls_nothing_witness :
  let cfg := bath_cfg None None in
  let e := bath_env (Some "off") None None (Some "on") 84600%Z in
  let w := with_active (Some (default_daytime "night" 81000%Z 0%Z))
             bath_world in
  service_calls
    (snd (motion_event decimal_float cfg e EVENT_MOTION_XIAOMI
            "binary_sensor.motion_sensor_bath" w))
  = service_calls w.
Proof.
  intros cfg e w.
  apply (motion_in_dark_daytime_calls_nothing decimal_float cfg e
           EVENT_MOTION_XIAOMI "binary_sensor.motion_sensor_bath" w
           (default_daytime "night" 81000%Z 0%Z)).
  - reflexivity.
  - reflexivity.
Defined.

(** The one switch of the bathroom reads ["off"]. *)
Lemma is_disabled_stops_at_first_switch_witness :
  let cfg := bath_cfg None None in
  let e := bath_env (Some "on") None None (Some "off") 28800%Z in
  is_disabled cfg e bath_world =
    (Ok true,
     with_log
       (log bath_world ++ [log_disabled_by "input_boolean.automoli_bath"])
       bath_world).
Proof.
  intros cfg e.
  apply (proj1 (proj2 (proj2
           (is_disabled_stops_at_first_switch cfg e bath_world)))
           [] "input_boolean.automoli_bath" []).
  - reflexivity.
  - intros x Hx. apply elem_of_nil in Hx. destruct Hx.
  - reflexivity.
Defined.
Lemma initialize_registers_listeners_witness :
  let cfg := bath_cfg None None in
  motion_on cfg = None /\
  motion_off cfg = None /\
  listeners bath_world
    = flat_map (sensor_listeners cfg) (motion_sensors cfg) /\
  (truthy_str None ≠ truthy_str None -> listeners bath_world = []).
Proof.
  apply (initialize_registers_listeners ascii_lower clock_parse_time
           clock_fromisoformat (bath_args None None None)
           (bath_env (Some "off") None None (Some "on") 28800%Z)
           (bath_cfg None None) bath_world).
  vm_compute. reflexivity.
Defined.

(** The bathroom with [lights: []], and the bathroom as it is. *)
Lemma initialize_requires_lights_and_motion_witness :
  let a :=
    {| arg_room := Some "bath";
       arg_motion_state_on := None;
       arg_motion_state_off := None;
       arg_humidity_threshold := None;
       arg_illuminance_threshold := None;
       arg_disable_switch_entities := ["input_boolean.automoli_bath"];
       arg_disable_switch_entity := None;
       arg_lights := Some [];
       arg_motion := Some ["binary_sensor.motion_sensor_bath"];
       arg_humidity := None;
       arg_illuminance := None;
       arg_delay := None;
       arg_daytimes := None |} in
  let e := bath_env (Some "off") None None (Some "on") 28800%Z in
  initialize ascii_lower clock_parse_time clock_fromisoformat a e
    = (Raise AttributeError_lights, empty_world) /\
  lights (bath_cfg None None) ≠ [] /\
  motion_sensors (bath_cfg None None) ≠ [].
Proof.
  intros a e. split.
  - apply (proj1 (initialize_requires_lights_and_motion ascii_lower
                    clock_parse_time clock_fromisoformat a e)).
    reflexivity.
  - apply (proj2 (proj2 (initialize_requires_lights_and_motion ascii_lower
                           clock_parse_time clock_fromisoformat
                           (bath_args None None None) e))
             (bath_cfg None None) bath_world).
    vm_compute. reflexivity.
Defined.

(** A humidity threshold of 60 with an empty list of humidity sensors. *)
Lemma threshold_without_sensors_is_dropped_witness :
  let a :=
    {| arg_room := Some "bath";
       arg_motion_state_on := None;
       arg_motion_state_off := None;
       arg_humidity_threshold := Some 60%Q;
       arg_illuminance_threshold := None;
       arg_disable_switch_entities := ["input_boolean.automoli_bath"];
       arg_disable_switch_entity := None;
       arg_lights := Some ["light.bath"];
       arg_motion := Some ["binary_sensor.motion_sensor_bath"];
       arg_humidity := Some [];
       arg_illuminance := None;
       arg_delay := None;
       arg_daytimes := None |} in
  let e := bath_env (Some "off") None None (Some "on") 28800%Z in
  let r := initialize ascii_lower clock_parse_time clock_fromisoformat a e in
  let cfg := match fst r with Ok c => c | Raise _ => bath_cfg None None end in
  humidity_threshold cfg = None /\ humidity_sensors cfg = [] /\
  log_no_sensors "humidity" ∈ log (snd r).
Proof.
  intros a e r cfg.
  assert (Hinit : initialize ascii_lower clock_parse_time clock_fromisoformat
                    a e = (Ok cfg, snd r)) by (vm_compute; reflexivity).
  apply (proj1 (proj1 (threshold_without_sensors_is_dropped ascii_lower
                         clock_parse_time clock_fromisoformat a e cfg (snd r)
                         Hinit) eq_refl) eq_refl).
Defined.

Lemma initialize_needs_active_daytime_witness :
  fst (initialize ascii_lower clock_parse_time clock_fromisoformat
         (bath_args None None (Some []))
         (bath_env (Some "off") None None (Some "on") 28800%Z))
  = Raise (KeyError "delay").
Proof.
  apply (initialize_needs_active_daytime ascii_lower clock_parse_time
           clock_fromisoformat (bath_args None None (Some []))
           (bath_env (Some "off") None None (Some "on") 28800%Z)
           (bath_cfg None None)).
  - vm_compute. reflexivity.
  - left. reflexivity.
Defined.

Lemma build_daytimes_schedules_every_entry_witness :
  let cfg := bath_cfg None None in
  let e := bath_env (Some "off") None None (Some "on") 28800%Z in
  let w' := snd (build_daytimes clock_parse_time clock_fromisoformat cfg e
                   DEFAULT_DAYTIMES empty_world) in
  exists added,
    daily w' = (daily empty_world ++ added)%list /\
    length added = length DEFAULT_DAYTIMES /\
    forall i raw, DEFAULT_DAYTIMES !! i = Some raw ->
      exists t, parsed_start clock_parse_time raw = Some t /\
                added !! i = Some (t, daytime_of cfg i raw t).
Proof.
  intros cfg e w'.
  apply (proj1 (proj2
           (build_daytimes_schedules_every_entry clock_parse_time
              clock_fromisoformat cfg e DEFAULT_DAYTIMES empty_world
              DEFAULT_DAYTIMES w' ltac:(vm_compute; reflexivity)))).
Defined.

Lemma build_daytimes_accepts_witness :
  acceptable clock_parse_time clock_fromisoformat DEFAULT_DAYTIMES.
Proof.
  apply (proj1 (build_daytimes_accepts clock_parse_time clock_fromisoformat
                  (bath_cfg None None)
                  (bath_env (Some "off") None None (Some "on") 28800%Z)
                  DEFAULT_DAYTIMES empty_world)).
  vm_compute. reflexivity.
Defined.

(** The second daytime has no start time. *)
Lemma next_starttime_checked_by_previous_round_witness :
  let cfg := bath_cfg None None in
  let e := bath_env (Some "off") None None (Some "on") 28800%Z in
  let evening :=
    {| raw_starttime := None; raw_name := Some "evening";
       raw_light := Some (LInt 90); raw_delay := None |} in
  build_daytimes clock_parse_time clock_fromisoformat cfg e
    [day_start "07:30" (Some "day") (Some (LInt 100)); evening] empty_world
  = (Raise (ValueError_fromisoformat "None"), empty_world).
Proof.
  intros cfg e evening.
  apply (proj2 (next_starttime_checked_by_previous_round clock_parse_time
                  clock_fromisoformat cfg e
                  [day_start "07:30" (Some "day") (Some (LInt 100)); evening]
                  empty_world)
           (day_start "07:30" (Some "day") (Some (LInt 100))) evening []
           27000%Z).
  - reflexivity.
  - reflexivity.
  - vm_compute. reflexivity.
  - reflexivity.
  - reflexivity.
Defined.

(** The evening starts while the timer of the day is pending. *)
Lemma switch_daytime_acts_at_next_refresh_witness :
  let d := {| daytime := "evening"; delay := 300%Z; starttime := 73800%Z;
              light_setting := LInt 90; is_hue_group := false |} in
  let r := switch_daytime (Some d) false bath_world in
  let w2 := snd (refresh_timer (snd r)) in
  timers (snd r) = [(0%nat, 150%Z)] /\
  handles w2 = {[next_handle bath_world]} /\
  last (timers w2) = Some (next_handle bath_world, 300%Z).
Proof.
  intros d r w2.
  pose proof (switch_daytime_acts_at_next_refresh d false bath_world)
    as (_ & _ & _ & Ht & _ & _ & Hnz & _).
  split; [exact Ht|]. apply Hnz. discriminate.
Defined.

Lemma hue_scene_never_activated_witness :
  let cfg := bath_cfg None None in
  let e := bath_env (Some "off") None None (Some "on") 75000%Z in
  let trace :=
    [ (e, on_switch_daytime (default_daytime "evening" 73800%Z 90%Z));
      (e, on_motion_event EVENT_MOTION_XIAOMI
            "binary_sensor.motion_sensor_bath") ] in
  hue_activate_scene "Bath" "evening"
    ∉ service_calls (run_callbacks decimal_float cfg trace bath_world).
Proof.
  intros cfg e trace.
  assert (Hinit : initialize ascii_lower clock_parse_time clock_fromisoformat
                    (bath_args None None None)
                    (bath_env (Some "off") None None (Some "on") 28800%Z)
                  = (Ok cfg, bath_world)) by (vm_compute; reflexivity).
  assert (Htrace : forall e' d, (e', on_switch_daytime d) ∈ trace ->
                                exists t, (t, d) ∈ daily bath_world).
  { intros e' d Hin. apply elem_of_cons in Hin as [Hin|Hin].
    - injection Hin as _ ->. exists 73800%Z.
      apply (list_elem_of_lookup_2 _ 2%nat). reflexivity.
    - apply list_elem_of_singleton in Hin. discriminate Hin. }
  apply (proj2 (hue_scene_never_activated decimal_float ascii_lower
                  clock_parse_time clock_fromisoformat
                  (bath_args None None None)
                  (bath_env (Some "off") None None (Some "on") 28800%Z)
                  cfg bath_world trace Hinit Htrace) "Bath" "evening").
Defined.

Lemma find_sensors_misses_umlaut_room_witness :
  find_sensors ascii_lower ("k" ++ u_umlaut ++ "che")
    (bath_env (Some "off") None None (Some "on") 28800%Z) KEYWORD_LIGHTS
  = [].
Proof.
  apply (find_sensors_misses_umlaut_room ascii_lower
           ("k" ++ u_umlaut ++ "che")).
  reflexivity.
Defined.
